(** * DeployGo: the detached-execution and logging pipeline

    A shallow embedding of [main.go] and [deployment.go] (the CLI front-end)
    and of the path validator of the earlier HTTP front-end.  The operating
    system is an explicit [World] value threaded through every call; a call
    to [os.Exit] ends the process and is the second constructor of [Res]. *)

From Stdlib Require Import ZArith NArith String Ascii List Lia Bool.
From stdpp Require Import base gmap strings list.
Import ListNotations.

Local Open Scope string_scope.
Local Open Scope Z_scope.

(** ** Strings, decimal numbers and paths *)

Module Str.

(** [strings.HasPrefix(s, "/")], which is [filepath.IsAbs] on Unix. *)
Definition starts_with_slash (s : string) : bool :=
  match s with
  | String "/" _ => true
  | _ => false
  end.

Definition is_slash (c : ascii) : bool :=
  if ascii_dec c "/" then true else false.

(** Does the string contain a path separator? *)
Fixpoint has_slash (s : string) : bool :=
  match s with
  | EmptyString => false
  | String c r => is_slash c || has_slash r
  end.

(** [strings.Split(s, "/")]. *)
Fixpoint split (s : string) : list string :=
  match s with
  | EmptyString => [EmptyString]
  | String c r =>
      if is_slash c then EmptyString :: split r
      else match split r with
           | h :: t => String c h :: t
           | [] => [String c EmptyString]
           end
  end.

(** [strings.Join(l, "/")]. *)
Fixpoint join (l : list string) : string :=
  match l with
  | [] => ""
  | [x] => x
  | x :: r => x ++ "/" ++ join r
  end.

Definition is_empty (s : string) : bool :=
  match s with
  | EmptyString => true
  | _ => false
  end.

(** The last byte of a string, when there is one. *)
Fixpoint last_char (s : string) : option ascii :=
  match s with
  | EmptyString => None
  | String c EmptyString => Some c
  | String _ r => last_char r
  end.

Definition decimal_digits : list ascii :=
  ["0"; "1"; "2"; "3"; "4"; "5"; "6"; "7"; "8"; "9"]%char.

Definition digit (n : N) : ascii :=
  nth (N.to_nat (n mod 10)%N) decimal_digits "0"%char.

Fixpoint digits_go (fuel : nat) (n : N) (acc : string) : string :=
  match fuel with
  | O => acc
  | S f =>
      let acc' := String (digit n) acc in
      if (n <? 10)%N then acc' else digits_go f (n / 10)%N acc'
  end.

(** [strconv.Itoa] on a natural number. *)
Definition itoa (n : N) : string := digits_go (S (N.size_nat n)) n "".

(** [fmt.Sprintf("%d", z)] on an int64. *)
Definition itoaZ (z : Z) : string :=
  if z <? 0 then "-" ++ itoa (Z.to_N (- z)) else itoa (Z.to_N z).

Fixpoint zeros (k : nat) : string :=
  match k with
  | O => ""
  | S k' => String "0" (zeros k')
  end.

(** [appendInt(b, n, width)] of package [time]: decimal, zero-padded on
    the left to at least [width] digits. *)
Definition appendInt (n : N) (width : nat) : string :=
  let s := itoa n in zeros (width - String.length s) ++ s.

End Str.

(** ** Package [path/filepath] (Unix) *)

Module filepath.

Definition IsAbs (path : string) : bool := Str.starts_with_slash path.

(** One step of [Clean]: [st] is the stack of kept elements, top first. *)
Definition clean_step (rooted : bool) (st : list string) (c : string) : list string :=
  if Str.is_empty c then st
  else if String.eqb c "." then st
  else if String.eqb c ".." then
    match st with
    | top :: below => if String.eqb top ".." then c :: st else below
    | [] => if rooted then st else [c]
    end
  else c :: st.

(** [filepath.Clean]: the shortest path name equivalent to [path] by purely
    lexical processing. *)
Definition Clean (path : string) : string :=
  let rooted := IsAbs path in
  let st := fold_left (clean_step rooted) (Str.split path) [] in
  let out := (if rooted then "/" else "") ++ Str.join (rev st) in
  if Str.is_empty out then "." else out.

(** [filepath.Join(dir, name)]: empty elements are ignored and the result
    is cleaned. *)
Definition Join (dir name : string) : string :=
  if Str.is_empty dir then
    (if Str.is_empty name then "" else Clean name)
  else if Str.is_empty name then Clean dir
  else Clean (dir ++ "/" ++ name).

End filepath.

(** ** Package [time] *)

Record Time := mkTime {
  unixNano : Z;            (* [t.UnixNano()] *)
  year : N; month : N; day : N;
  hour : N; minute : N; second : N
}.

Module time.

(** [t.Format("2006-01-02 15:04:05")] *)
Definition Format_log (t : Time) : string :=
  Str.appendInt (year t) 4 ++ "-" ++ Str.appendInt (month t) 2 ++ "-" ++
  Str.appendInt (day t) 2 ++ " " ++ Str.appendInt (hour t) 2 ++ ":" ++
  Str.appendInt (minute t) 2 ++ ":" ++ Str.appendInt (second t) 2.

(** [t.Format("20060102_150405")] *)
Definition Format_rotate (t : Time) : string :=
  Str.appendInt (year t) 4 ++ Str.appendInt (month t) 2 ++
  Str.appendInt (day t) 2 ++ "_" ++ Str.appendInt (hour t) 2 ++
  Str.appendInt (minute t) 2 ++ Str.appendInt (second t) 2.

(** [t.Format("2006/01/02 15:04:05")], the prefix of package [log]. *)
Definition Format_stdlog (t : Time) : string :=
  Str.appendInt (year t) 4 ++ "/" ++ Str.appendInt (month t) 2 ++ "/" ++
  Str.appendInt (day t) 2 ++ " " ++ Str.appendInt (hour t) 2 ++ ":" ++
  Str.appendInt (minute t) 2 ++ ":" ++ Str.appendInt (second t) 2.

(** A civil time as the clock produces it. *)
Definition civil (t : Time) : Prop :=
  (year t < 10000 /\ month t < 100 /\ day t < 100 /\
   hour t < 100 /\ minute t < 100 /\ second t < 100)%N.

End time.

(** ** The operating system *)

Inductive Errno := ENOENT | EACCES | ENOTDIR | EISDIR | EEXIST | EIO | ENOSPC.

Definition Errno_string (e : Errno) : string :=
  match e with
  | ENOENT => "no such file or directory"
  | EACCES => "permission denied"
  | ENOTDIR => "not a directory"
  | EISDIR => "is a directory"
  | EEXIST => "file exists"
  | EIO => "input/output error"
  | ENOSPC => "no space left on device"
  end.

(** The values of Go's [error] interface that this program meets. *)
Inductive error :=
| PathError (op path : string) (e : Errno)          (* [*fs.PathError] *)
| LinkError (op old new : string) (e : Errno)       (* [*os.LinkError] *)
| ExitError (status : Z)                            (* [*exec.ExitError] *)
| OtherError (msg : string)                         (* any other library error *)
| Errorf (msg : string).                            (* [fmt.Errorf] *)

(** [err.Error()], which is what the verb [%v] prints. *)
Definition Error (e : error) : string :=
  match e with
  | PathError op path en => op ++ " " ++ path ++ ": " ++ Errno_string en
  | LinkError op old new en =>
      op ++ " " ++ old ++ " " ++ new ++ ": " ++ Errno_string en
  | ExitError status => "exit status " ++ Str.itoaZ status
  | OtherError msg => msg
  | Errorf msg => msg
  end.

(** A file-system object.  [perm] holds the permission bits. *)
Inductive Node :=
| File (perm : Z) (content : string)
| Dir (perm : Z).

Record FileInfo := mkFileInfo { fi_perm : Z; fi_dir : bool }.

Definition ModeDir : Z := Z.shiftl 1 31.

(** [info.Mode()]: the permission bits and the directory bit. *)
Definition Mode (fi : FileInfo) : Z :=
  Z.lor (fi_perm fi) (if fi_dir fi then ModeDir else 0).

Definition info_of (n : Node) : FileInfo :=
  match n with
  | File p _ => mkFileInfo p false
  | Dir p => mkFileInfo p true
  end.

(** The system calls that the environment may refuse. *)
Inductive Syscall :=
| SysStat (path : string)
| SysOpen (path : string)
| SysWrite (path : string)
| SysRead (path : string)
| SysChdir (path : string)
| SysChmod (path : string)
| SysRename (old new : string)
| SysRemove (path : string)
| SysCreateTemp
| SysExecutable
| SysPipe (stream : string)
| SysStart (argv : list string).

(** What the program did to the world, in order. *)
Inductive Event :=
| ECreate (path : string)
| ETruncate (path : string)
| EAppend (path : string)
| EChmod (path : string) (perm : Z)
| ERename (old new : string)
| ERemove (path : string)
| EChdir (path : string)
| EStart (argv : list string) (dir : string) (env : list string)
| EWait (argv : list string).

(** What one run of the deployment script lets the runner see: the lines
    that the scanner of each pipe yields before it stops, the order in
    which the scheduler lets the two readers take their turns ([true] for
    the reader of the standard output), and the result of [cmd.Wait()]. *)
Record ChildRun := mkChildRun {
  scanned_stdout : list string;
  scanned_stderr : list string;
  schedule : list bool;
  wait_result : option error
}.

Record World := mkWorld {
  fs : gmap string Node;                 (* the file system, by path *)
  fault : Syscall -> option Errno;       (* calls the environment refuses *)
  clock : nat -> Time;                   (* what the n-th [time.Now()] returns *)
  ticks : nat;                           (* calls of [time.Now()] so far *)
  tmpdir : string;                       (* [os.TempDir()] *)
  rand : nat -> string;                  (* [nextRandom()] at the n-th attempt *)
  executable : string;                   (* [os.Executable()] *)
  environ : list string;                 (* [os.Environ()] *)
  cwd : string;
  stdout : list string;
  stderr : list string;
  child : ChildRun;                      (* how the script behaves *)
  trace : list Event
}.

Definition with_fs (f : gmap string Node) (w : World) : World :=
  mkWorld f (fault w) (clock w) (ticks w) (tmpdir w) (rand w) (executable w)
          (environ w) (cwd w) (stdout w) (stderr w) (child w) (trace w).

Definition with_ticks (n : nat) (w : World) : World :=
  mkWorld (fs w) (fault w) (clock w) n (tmpdir w) (rand w) (executable w)
          (environ w) (cwd w) (stdout w) (stderr w) (child w) (trace w).

Definition with_cwd (d : string) (w : World) : World :=
  mkWorld (fs w) (fault w) (clock w) (ticks w) (tmpdir w) (rand w) (executable w)
          (environ w) d (stdout w) (stderr w) (child w) (trace w).

Definition with_stdout (o : list string) (w : World) : World :=
  mkWorld (fs w) (fault w) (clock w) (ticks w) (tmpdir w) (rand w) (executable w)
          (environ w) (cwd w) o (stderr w) (child w) (trace w).

Definition with_stderr (o : list string) (w : World) : World :=
  mkWorld (fs w) (fault w) (clock w) (ticks w) (tmpdir w) (rand w) (executable w)
          (environ w) (cwd w) (stdout w) o (child w) (trace w).

Definition with_trace (t : list Event) (w : World) : World :=
  mkWorld (fs w) (fault w) (clock w) (ticks w) (tmpdir w) (rand w) (executable w)
          (environ w) (cwd w) (stdout w) (stderr w) (child w) t.

Definition emit (e : Event) (w : World) : World :=
  with_trace (trace w ++ [e])%list w.

(** ** Processes: state passing with [os.Exit] *)

Inductive Res (A : Type) :=
| Ret (a : A)
| Exited (code : Z).
Arguments Ret {A} a.
Arguments Exited {A} code.

Definition M (A : Type) : Type := World -> Res A * World.

Definition ret {A} (a : A) : M A := fun w => (Ret a, w).

Definition bind {A B} (m : M A) (k : A -> M B) : M B :=
  fun w =>
    match m w with
    | (Ret a, w') => k a w'
    | (Exited c, w') => (Exited c, w')
    end.

Definition os_Exit {A} (code : Z) : M A := fun w => (Exited code, w).

Declare Scope proc_scope.
Delimit Scope proc_scope with proc.
Notation "x <- m ;; k" := (bind m (fun x => k))
  (at level 100, m at level 99, right associativity) : proc_scope.
Notation "m ;; k" := (bind m (fun _ => k))
  (at level 100, right associativity) : proc_scope.
Local Open Scope proc_scope.

(** The exit status of a process whose [main] ran the given action. *)
Definition exit_status {A} (r : Res A) : Z :=
  match r with
  | Ret _ => 0
  | Exited c => c
  end.

(** Go's [(value, err)] results. *)
Inductive result (A : Type) :=
| Ok (a : A)
| Err (e : error).
Arguments Ok {A} a.
Arguments Err {A} e.

Definition err_of {A} (r : result A) : option error :=
  match r with
  | Ok _ => None
  | Err e => Some e
  end.

Definition nl : string := String (ascii_of_nat 10) "".

(** ** Package [os] *)

Module os.

Definition stat_of (w : World) (path : string) : result FileInfo :=
  match fault w (SysStat path) with
  | Some e => Err (PathError "stat" path e)
  | None =>
      match fs w !! path with
      | Some n => Ok (info_of n)
      | None => Err (PathError "stat" path ENOENT)
      end
  end.

Definition Stat (path : string) : M (result FileInfo) :=
  fun w => (Ret (stat_of w path), w).

(** [os.IsNotExist(err)]: true for the errors whose number is ENOENT, false
    for every other error and for [nil]. *)
Definition IsNotExist (err : option error) : bool :=
  match err with
  | Some (PathError _ _ ENOENT) => true
  | Some (LinkError _ _ _ ENOENT) => true
  | _ => false
  end.

Inductive OpenFlag := O_TRUNC | O_APPEND.

(** [os.OpenFile(path, O_CREATE|O_WRONLY|flag, perm)]; the handle is the
    path it was opened at. *)
Definition OpenFile (path : string) (flag : OpenFlag) (perm : Z) : M (result string) :=
  fun w =>
    match fault w (SysOpen path) with
    | Some e => (Ret (Err (PathError "open" path e)), w)
    | None =>
        match fs w !! path with
        | Some (Dir _) => (Ret (Err (PathError "open" path EISDIR)), w)
        | Some (File p c) =>
            match flag with
            | O_TRUNC =>
                (Ret (Ok path),
                 emit (ETruncate path) (with_fs (<[path := File p ""]> (fs w)) w))
            | O_APPEND => (Ret (Ok path), w)
            end
        | None =>
            (Ret (Ok path),
             emit (ECreate path) (with_fs (<[path := File perm ""]> (fs w)) w))
        end
    end.

(** [f.WriteString(s)] (and [f.Write]) on a handle from [OpenFile] or
    [CreateTemp]: the bytes go to the end of the file. *)
Definition WriteString (f : string) (s : string) : M (option error) :=
  fun w =>
    match fault w (SysWrite f) with
    | Some e => (Ret (Some (PathError "write" f e)), w)
    | None =>
        match fs w !! f with
        | Some (File p c) =>
            (Ret None, emit (EAppend f) (with_fs (<[f := File p (c ++ s)]> (fs w)) w))
        | _ => (Ret (Some (PathError "write" f EIO)), w)
        end
    end.

(** [os.WriteFile(name, data, perm)]. *)
Definition WriteFile (name data : string) (perm : Z) : M (option error) :=
  r <- OpenFile name O_TRUNC perm ;;
  match r with
  | Err e => ret (Some e)
  | Ok f => WriteString f data
  end.

Definition ReadFile (name : string) : M (result string) :=
  fun w =>
    match fault w (SysRead name) with
    | Some e => (Ret (Err (PathError "open" name e)), w)
    | None =>
        match fs w !! name with
        | Some (File _ c) => (Ret (Ok c), w)
        | Some (Dir _) => (Ret (Err (PathError "read" name EISDIR)), w)
        | None => (Ret (Err (PathError "open" name ENOENT)), w)
        end
    end.

Definition Remove (name : string) : M (option error) :=
  fun w =>
    let w' := emit (ERemove name) w in
    match fault w (SysRemove name) with
    | Some e => (Ret (Some (PathError "remove" name e)), w')
    | None =>
        match fs w !! name with
        | Some _ => (Ret None, with_fs (delete name (fs w)) w')
        | None => (Ret (Some (PathError "remove" name ENOENT)), w')
        end
    end.

(** [os.Rename(old, new)]: the object moves to its new name; nothing of it
    stays under the old one. *)
Definition Rename (old new : string) : M (option error) :=
  fun w =>
    let w' := emit (ERename old new) w in
    match fault w (SysRename old new) with
    | Some e => (Ret (Some (LinkError "rename" old new e)), w')
    | None =>
        match fs w !! old with
        | Some n => (Ret None, with_fs (<[new := n]> (delete old (fs w))) w')
        | None => (Ret (Some (LinkError "rename" old new ENOENT)), w')
        end
    end.

Definition set_perm (perm : Z) (n : Node) : Node :=
  match n with
  | File _ c => File perm c
  | Dir _ => Dir perm
  end.

Definition Chmod (name : string) (perm : Z) : M (option error) :=
  fun w =>
    let w' := emit (EChmod name perm) w in
    match fault w (SysChmod name) with
    | Some e => (Ret (Some (PathError "chmod" name e)), w')
    | None =>
        match fs w !! name with
        | Some n => (Ret None, with_fs (<[name := set_perm perm n]> (fs w)) w')
        | None => (Ret (Some (PathError "chmod" name ENOENT)), w')
        end
    end.

(** [os.Chdir(dir)].  The file system is keyed by the paths as the program
    writes them, and a path names the same object before and after the
    change of directory.  That is right for absolute paths; what is stated
    of a path used on both sides of [os.Chdir] is stated for absolute
    paths. *)
Definition Chdir (dir : string) : M (option error) :=
  fun w =>
    match fault w (SysChdir dir) with
    | Some e => (Ret (Some (PathError "chdir" dir e)), w)
    | None =>
        match fs w !! dir with
        | Some (Dir _) => (Ret None, emit (EChdir dir) (with_cwd dir w))
        | Some (File _ _) => (Ret (Some (PathError "chdir" dir ENOTDIR)), w)
        | None => (Ret (Some (PathError "chdir" dir ENOENT)), w)
        end
    end.

Definition Executable : M (result string) :=
  fun w =>
    match fault w SysExecutable with
    | Some e => (Ret (Err (PathError "readlink" "/proc/self/exe" e)), w)
    | None => (Ret (Ok (executable w)), w)
    end.

(** [joinPath] of [os/tempfile.go]. *)
Definition joinPath (dir name : string) : string :=
  match Str.last_char dir with
  | Some c => if Str.is_slash c then dir ++ name else dir ++ "/" ++ name
  | None => dir ++ "/" ++ name
  end.

Definition createTemp_attempts : nat := N.to_nat 10000.

(** The retry loop of [os.CreateTemp]: a name that is taken is skipped. *)
Fixpoint CreateTemp_try (n try : nat) (pre suf : string) (w : World)
  : Res (result string) * World :=
  match n with
  | O => (Ret (Err (PathError "createtemp" (pre ++ "*" ++ suf) EEXIST)), w)
  | S n' =>
      let name := pre ++ rand w try ++ suf in
      match fs w !! name with
      | None =>
          (Ret (Ok name),
           emit (ECreate name) (with_fs (<[name := File 384 ""]> (fs w)) w))
      | Some _ => CreateTemp_try n' (S try) pre suf w
      end
  end.

(** [os.CreateTemp("", prefix + "*" + suffix)]: a new file of mode 0600 in
    the default directory for temporary files. *)
Definition CreateTemp (prefix suffix : string) : M (result string) :=
  fun w =>
    match fault w SysCreateTemp with
    | Some e =>
        (Ret (Err (PathError "open" (joinPath (tmpdir w) prefix ++ "*" ++ suffix) e)), w)
    | None =>
        CreateTemp_try createTemp_attempts 0 (joinPath (tmpdir w) prefix) suffix w
    end.

End os.

(** ** Packages [time], [fmt] and [log]: the effectful parts *)

Definition Now : M Time :=
  fun w => (Ret (clock w (ticks w)), with_ticks (S (ticks w)) w).

(** [fmt.Print] of an already formatted string. *)
Definition Print (s : string) : M unit :=
  fun w => (Ret tt, with_stdout (stdout w ++ [s])%list w).

(** [fmt.Fprintf(os.Stderr, ...)] of an already formatted string. *)
Definition Eprint (s : string) : M unit :=
  fun w => (Ret tt, with_stderr (stderr w ++ [s])%list w).

(** [log.Printf]: the standard logger writes date, time and the message,
    ended by a newline, to the standard error stream. *)
Definition log_Print (s : string) : M unit :=
  t <- Now ;;
  Eprint (time.Format_stdlog t ++ " " ++ s ++ nl).

(** ** [deployment.go] *)

Record DeploymentTask := mkTask {
  ProjectPath : string;
  DeploymentScriptPath : string;
  LogPath : string;
  TaskID : string;
  CreatedAt : Time
}.

Definition ValidatePaths (project script logs : string) : M (option error) :=
  if negb (filepath.IsAbs project) then
    ret (Some (Errorf "project path must be absolute"))
  else
  st <- os.Stat project ;;
  if os.IsNotExist (err_of st) then
    ret (Some (Errorf "project path does not exist"))
  else
  if negb (filepath.IsAbs script) then
    ret (Some (Errorf "deployment script path must be absolute"))
  else
  st <- os.Stat script ;;
  if os.IsNotExist (err_of st) then
    ret (Some (Errorf "deployment script path does not exist"))
  else
  if negb (filepath.IsAbs logs) then
    ret (Some (Errorf "log path must be absolute"))
  else
  st <- os.Stat logs ;;
  if os.IsNotExist (err_of st) then
    ret (Some (Errorf "log path does not exist"))
  else
  ret None.

Definition writeLogEntry (logFile : string) (message : string) : M unit :=
  timestamp <- Now ;;
  let logEntry := "[" ++ time.Format_log timestamp ++ "] " ++ message ++ nl in
  _ <- os.WriteString logFile logEntry ;;
  ret tt.

(** The body of the loop of [readAndLogOutput] for one scanned line. *)
Definition logOutputLine (logFile prefix line : string) : M unit :=
  timestamp <- Now ;;
  let logEntry :=
    "[" ++ time.Format_log timestamp ++ "] [" ++ prefix ++ "] " ++ line ++ nl in
  err <- os.WriteString logFile logEntry ;;
  match err with
  | Some e => log_Print ("Failed to write to log file: " ++ Error e)
  | None => ret tt
  end.

(** [readAndLogOutput] running alone over the lines its scanner yields. *)
Fixpoint readAndLogOutput (logFile prefix : string) (lines : list string) : M unit :=
  match lines with
  | [] => ret tt
  | line :: rest =>
      logOutputLine logFile prefix line ;; readAndLogOutput logFile prefix rest
  end.

(** The turns of the two readers: each turn of the schedule lets one reader
    forward its next line, if it has one; when the schedule is used up the
    readers finish one after the other. *)
Fixpoint interleave (sched : list bool) (out err : list string)
  : list (string * string) :=
  match sched with
  | [] => app (map (pair "STDOUT") out) (map (pair "STDERR") err)
  | true :: sched' =>
      match out with
      | line :: out' => ("STDOUT", line) :: interleave sched' out' err
      | [] => interleave sched' out err
      end
  | false :: sched' =>
      match err with
      | line :: err' => ("STDERR", line) :: interleave sched' out err'
      | [] => interleave sched' out err
      end
  end.

(** The two [readAndLogOutput] goroutines together, on the lines in the
    order in which they reach the log file. *)
Fixpoint forwardOutput (logFile : string) (lines : list (string * string)) : M unit :=
  match lines with
  | [] => ret tt
  | (prefix, line) :: rest =>
      logOutputLine logFile prefix line ;; forwardOutput logFile rest
  end.

Definition forwarded (c : ChildRun) : list (string * string) :=
  interleave (schedule c) (scanned_stdout c) (scanned_stderr c).

(** [cmd.StdoutPipe()] and [cmd.StderrPipe()]. *)
Definition exec_Pipe (stream : string) : M (option error) :=
  fun w =>
    match fault w (SysPipe stream) with
    | Some e => (Ret (Some (OtherError ("pipe: " ++ Errno_string e))), w)
    | None => (Ret None, w)
    end.

(** [cmd.Start()]. *)
Definition exec_Start (argv : list string) (dir : string) (env : list string)
  : M (option error) :=
  fun w =>
    match fault w (SysStart argv) with
    | Some e =>
        (Ret (Some (OtherError ("fork/exec " ++ hd "" argv ++ ": " ++ Errno_string e))), w)
    | None => (Ret None, emit (EStart argv dir env) w)
    end.

(** From [wg.Add(2)] to [wg.Wait()]: the readers forward what they read,
    and the runner goes on once the child has ended and both readers have
    returned.  A [ChildRun] is the run of a script that ends, so
    [cmd.Wait()] returns here; a script that never ends blocks
    [cmd.Wait()] for good and has no [ChildRun].  What is proved of
    [exec_Join] and of its callers is proved of the runs in which the
    script ends. *)
Definition exec_Join (argv : list string) (logFile : string) : M (option error) :=
  fun w =>
    match forwardOutput logFile (forwarded (child w)) w with
    | (Ret _, w') => (Ret (wait_result (child w)), emit (EWait argv) w')
    | (Exited c, w') => (Exited c, w')
    end.

(** The block under "Make script executable if needed". *)
Definition makeScriptExecutable (task : DeploymentTask) (logFile : string)
  (scriptInfo : FileInfo) : M unit :=
  if Z.land (Mode scriptInfo) 73 =? 0 then
    err <- os.Chmod (DeploymentScriptPath task) 493 ;;
    match err with
    | Some e =>
        writeLogEntry logFile ("[WARNING] Failed to make script executable: " ++ Error e)
    | None => ret tt
    end
  else ret tt.

(** From "Execute deployment script" to the end of [ExecuteDeployment]. *)
Definition runScript (task : DeploymentTask) (logFile : string) : M (option error) :=
  let argv := ["bash"; DeploymentScriptPath task] in
  env0 <- (fun w => (Ret (environ w), w)) ;;
  let env := app env0 ["DEPLOYER_TASK_ID=" ++ TaskID task;
                       "DEPLOYER_PROJECT_PATH=" ++ ProjectPath task;
                       "DEPLOYER_LOG_PATH=" ++ LogPath task] in
  err <- exec_Pipe "STDOUT" ;;
  match err with
  | Some e =>
      writeLogEntry logFile ("[ERROR] Failed to create stdout pipe: " ++ Error e) ;;
      ret (Some (Errorf ("failed to create stdout pipe: " ++ Error e)))
  | None =>
  err <- exec_Pipe "STDERR" ;;
  match err with
  | Some e =>
      writeLogEntry logFile ("[ERROR] Failed to create stderr pipe: " ++ Error e) ;;
      ret (Some (Errorf ("failed to create stderr pipe: " ++ Error e)))
  | None =>
  err <- exec_Start argv (ProjectPath task) env ;;
  match err with
  | Some e =>
      writeLogEntry logFile ("[ERROR] Failed to start deployment script: " ++ Error e) ;;
      ret (Some (Errorf ("failed to start deployment script: " ++ Error e)))
  | None =>
  cmdErr <- exec_Join argv logFile ;;
  match cmdErr with
  | Some e =>
      writeLogEntry logFile ("[ERROR] Deployment script exited with error: " ++ Error e) ;;
      ret (Some (Errorf ("deployment script failed: " ++ Error e)))
  | None =>
      t <- Now ;;
      writeLogEntry logFile ("=== Deployment Completed: " ++ time.Format_log t ++ " ===") ;;
      ret None
  end end end end.

(** From the start of [ExecuteDeployment] to the [os.Stat] of the script:
    either the error returned, or the log file and the script's info. *)
Definition openAndStat (task : DeploymentTask) : M (error + string * FileInfo) :=
  let logFilePath := filepath.Join (LogPath task) "deployment.log" in
  r <- os.OpenFile logFilePath os.O_TRUNC 420 ;;
  match r with
  | Err e => ret (inl (Errorf ("failed to open log file: " ++ Error e)))
  | Ok logFile =>
  t <- Now ;;
  writeLogEntry logFile ("=== Deployment Started: " ++ time.Format_log t ++ " ===") ;;
  writeLogEntry logFile ("Project Path: " ++ ProjectPath task) ;;
  writeLogEntry logFile ("Script Path: " ++ DeploymentScriptPath task) ;;
  writeLogEntry logFile ("Task ID: " ++ TaskID task) ;;
  err <- os.Chdir (ProjectPath task) ;;
  match err with
  | Some e =>
      writeLogEntry logFile ("[ERROR] Failed to change directory: " ++ Error e) ;;
      ret (inl (Errorf ("failed to change to project directory: " ++ Error e)))
  | None =>
  r <- os.Stat (DeploymentScriptPath task) ;;
  match r with
  | Err e =>
      writeLogEntry logFile ("[ERROR] Script not found: " ++ Error e) ;;
      ret (inl (Errorf ("deployment script not found: " ++ Error e)))
  | Ok scriptInfo => ret (inr (logFile, scriptInfo))
  end end end.

Definition ExecuteDeployment (task : DeploymentTask) : M (option error) :=
  r <- openAndStat task ;;
  match r with
  | inl e => ret (Some e)
  | inr (logFile, scriptInfo) =>
      makeScriptExecutable task logFile scriptInfo ;;
      runScript task logFile
  end.

Definition WriteLog (logPath message : string) : M unit :=
  let logFilePath := filepath.Join logPath "deployment.log" in
  r <- os.OpenFile logFilePath os.O_APPEND 420 ;;
  match r with
  | Err e => log_Print ("Failed to open log file for writing: " ++ Error e)
  | Ok logFile => writeLogEntry logFile message
  end.

Definition RotateLog (logDir : string) : M (option error) :=
  let activeLog := filepath.Join logDir "deployment.log" in
  t <- Now ;;
  let timestamp := time.Format_rotate t in
  let newLog := filepath.Join logDir ("deployment_" ++ timestamp ++ ".log") in
  st <- os.Stat activeLog ;;
  if os.IsNotExist (err_of st) then ret None
  else os.Rename activeLog newLog.

(** ** The file watcher's [rotateLog] *)

Definition rotateLog (logDir : string) : M (option error) :=
  let activeLog := filepath.Join logDir "deployment.log" in
  t <- Now ;;
  let timestamp := time.Format_rotate t in
  let newLog := filepath.Join logDir ("deployment_" ++ timestamp ++ ".log") in
  os.Rename activeLog newLog.

(** ** The path validator of the HTTP front-end ([validatePaths]) *)

Record DeploymentRequest := mkRequest {
  req_ProjectPath : string;
  req_DeploymentScriptPath : string;
  req_LogPath : string
}.

Definition validatePaths (req : DeploymentRequest) : M (option error) :=
  if negb (filepath.IsAbs (req_ProjectPath req)) then
    ret (Some (Errorf "projectPath must be an absolute path"))
  else
  st <- os.Stat (req_ProjectPath req) ;;
  if os.IsNotExist (err_of st) then
    ret (Some (Errorf ("projectPath does not exist: " ++ req_ProjectPath req)))
  else
  if negb (filepath.IsAbs (req_DeploymentScriptPath req)) then
    ret (Some (Errorf "deploymentScriptPath must be an absolute path"))
  else
  st <- os.Stat (req_DeploymentScriptPath req) ;;
  if os.IsNotExist (err_of st) then
    ret (Some (Errorf ("deploymentScriptPath does not exist: "
                       ++ req_DeploymentScriptPath req)))
  else
  let logDir := req_LogPath req in
  st <- os.Stat logDir ;;
  if os.IsNotExist (err_of st) then
    ret (Some (Errorf ("logPath directory does not exist: " ++ logDir)))
  else
  let testFile := filepath.Join logDir ".deployer_test" in
  err <- os.WriteFile testFile "test" 420 ;;
  match err with
  | Some _ => ret (Some (Errorf ("logPath directory is not writable: " ++ logDir)))
  | None => _ <- os.Remove testFile ;; ret None
  end.

(** A directory is writable when the probe of [validatePaths] goes through:
    the marker file can be written in it. *)
Definition writable (logDir : string) (w : World) : bool :=
  match os.WriteFile (filepath.Join logDir ".deployer_test") "test" 420 w with
  | (Ret None, _) => true
  | _ => false
  end.

(** ** Package [encoding/json], as far as the task file needs it *)

#[warnings="-register-all"]
Inductive JSON :=
| JNull
| JString (s : string)
| JObject (members : list (string * JSON)).

(** A field of a Go struct declaration: its name and its [json:"..."] tag,
    when it has one. *)
Record FieldDecl := mkField { go_name : string; json_tag : option string }.

(** The key [encoding/json] gives a struct field: the tag when there is
    one, the name of the field otherwise. *)
Definition json_key (f : FieldDecl) : string :=
  match json_tag f with
  | Some t => t
  | None => go_name f
  end.

(** [type DeploymentTask struct] of [deployment.go]: no field has a tag. *)
Definition DeploymentTask_fields : list FieldDecl :=
  [ mkField "ProjectPath" None;
    mkField "DeploymentScriptPath" None;
    mkField "LogPath" None;
    mkField "TaskID" None;
    mkField "CreatedAt" None ].

(** [type DeploymentRequest struct] of the HTTP front-end: every field has
    a tag. *)
Definition DeploymentRequest_fields : list FieldDecl :=
  [ mkField "ProjectPath" (Some "projectPath");
    mkField "DeploymentScriptPath" (Some "deploymentScriptPath");
    mkField "LogPath" (Some "logPath") ].

Definition object_keys (j : JSON) : list string :=
  match j with
  | JObject members => map fst members
  | _ => []
  end.

Section Json.

(** [t.Format(time.RFC3339Nano)], the text of [time.Time.MarshalJSON]. *)
Variable RFC3339Nano : Time -> string.
(** The bytes [json.Marshal] writes for a value. *)
Variable json_encode : JSON -> string.
(** [json.Unmarshal(data, &task)] for a [DeploymentTask]. *)
Variable json_Unmarshal : string -> result DeploymentTask.

(** [time.Time.MarshalJSON]: only years of at most four digits. *)
Definition Time_MarshalJSON (t : Time) : result JSON :=
  if (year t <? 10000)%N then Ok (JString (RFC3339Nano t))
  else Err (OtherError "Time.MarshalJSON: year outside of range [0,9999]").

(** The JSON value of a task: one member per field of the struct, in the
    order of the declaration. *)
Definition task_to_json (task : DeploymentTask) : result JSON :=
  match Time_MarshalJSON (CreatedAt task) with
  | Err e => Err e
  | Ok created =>
      Ok (JObject
            (combine (map json_key DeploymentTask_fields)
               [ JString (ProjectPath task);
                 JString (DeploymentScriptPath task);
                 JString (LogPath task);
                 JString (TaskID task);
                 created ]))
  end.

Definition json_Marshal (task : DeploymentTask) : result string :=
  match task_to_json task with
  | Err e => Err e
  | Ok j => Ok (json_encode j)
  end.

(** ** [main.go] *)

Definition handleDeploy (project script logs : string) : M unit :=
  if Str.is_empty project || Str.is_empty script || Str.is_empty logs then
    Print ("All flags are required: --project, --deployScript, --logPath" ++ nl) ;;
    os_Exit 1
  else
  err <- ValidatePaths project script logs ;;
  match err with
  | Some e => Print ("Error: " ++ Error e ++ nl) ;; os_Exit 1
  | None =>
  t1 <- Now ;;
  t2 <- Now ;;
  let task := mkTask project script logs (Str.itoaZ (unixNano t1)) t2 in
  r <- os.CreateTemp "deploy_task_" ".json" ;;
  match r with
  | Err e =>
      Print ("Error: Failed to create temporary task file: " ++ Error e ++ nl) ;;
      os_Exit 1
  | Ok tmpFile =>
  match json_Marshal task with
  | Err e => Print ("Error: Failed to marshal task: " ++ Error e ++ nl) ;; os_Exit 1
  | Ok data =>
  err <- os.WriteString tmpFile data ;;
  match err with
  | Some e => Print ("Error: Failed to write task file: " ++ Error e ++ nl) ;; os_Exit 1
  | None =>
  r <- os.Executable ;;
  match r with
  | Err e =>
      Print ("Error: Failed to get executable path: " ++ Error e ++ nl) ;; os_Exit 1
  | Ok exe =>
  err <- exec_Start [exe; "internal-run"; "--taskFile"; tmpFile] "" [] ;;
  match err with
  | Some e =>
      Print ("Error: Failed to start background process: " ++ Error e ++ nl) ;;
      os_Exit 1
  | None =>
      Print ("Deployment started in background for task " ++ TaskID task ++ nl)
  end end end end end end.

Definition handleInternalRun (taskFile : string) : M unit :=
  if Str.is_empty taskFile then
    Print ("Error: taskFile is required for internal-run" ++ nl) ;; os_Exit 1
  else
  r <- os.ReadFile taskFile ;;
  match r with
  | Err e => Eprint ("Failed to read task file: " ++ Error e ++ nl) ;; os_Exit 1
  | Ok data =>
  match json_Unmarshal data with
  | Err e => Eprint ("Failed to unmarshal task: " ++ Error e ++ nl) ;; os_Exit 1
  | Ok task =>
  err <- ExecuteDeployment task ;;
  match err with
  | Some e => WriteLog (LogPath task) ("[ERROR] Deployment failed: " ++ Error e)
  | None => WriteLog (LogPath task) "[SUCCESS] Deployment completed successfully"
  end ;;
  _ <- RotateLog (LogPath task) ;;
  _ <- os.Remove taskFile ;;
  ret tt
  end end.

End Json.

(** ** The validator as the specification words it

    Six checks in a fixed order; the first one that fails gives the error,
    whose message is the checked path's name followed by the reason. *)

Inductive Reason := NotAbsolute | DoesNotExist.

Definition reason_text (r : Reason) : string :=
  match r with
  | NotAbsolute => "must be absolute"
  | DoesNotExist => "does not exist"
  end.

Definition spec_checks (project script logs : string) : list (string * string * Reason) :=
  [ ("project path", project, NotAbsolute);
    ("project path", project, DoesNotExist);
    ("deployment script path", script, NotAbsolute);
    ("deployment script path", script, DoesNotExist);
    ("log path", logs, NotAbsolute);
    ("log path", logs, DoesNotExist) ].

Definition check_fails (w : World) (c : string * string * Reason) : bool :=
  match c with
  | (_, path, NotAbsolute) => negb (filepath.IsAbs path)
  | (_, path, DoesNotExist) => os.IsNotExist (err_of (os.stat_of w path))
  end.

Definition spec_first_failure (w : World) (project script logs : string) : option error :=
  match List.find (check_fails w) (spec_checks project script logs) with
  | Some (name, _, reason) => Some (Errorf (name ++ " " ++ reason_text reason))
  | None => None
  end.

(** A name without separator that [Clean] keeps as it is. *)
Definition plain_name (n : string) : Prop :=
  Str.has_slash n = false /\ n <> "" /\ n <> "." /\ n <> "..".

(** The directory part that [Join] puts before a plain name. *)
Definition dir_prefix (dir : string) : string :=
  if Str.is_empty dir then ""
  else
    let rooted := filepath.IsAbs dir in
    let st := fold_left (filepath.clean_step rooted) (Str.split dir) [] in
    (if rooted then "/" else "") ++
    match rev st with [] => "" | l => Str.join l ++ "/" end.

(** Events of a given kind in a trace. *)
Definition is_remove_of (name : string) (e : Event) : bool :=
  match e with
  | ERemove p => String.eqb p name
  | _ => false
  end.


Definition is_wait (e : Event) : bool :=
  match e with
  | EWait _ => true
  | _ => false
  end.

Definition count_events (f : Event -> bool) (t : list Event) : nat :=
  List.length (List.filter f t).

Definition is_start (e : Event) : bool :=
  match e with
  | EStart _ _ _ => true
  | _ => false
  end.

(** The task [handleDeploy] builds in world [w]: the identifier comes from
    the first reading of the clock, the creation time from the second. *)
Definition new_task (project script logs : string) (w : World) : DeploymentTask :=
  mkTask project script logs (Str.itoaZ (unixNano (clock w (ticks w))))
         (clock w (S (ticks w))).

(** The command line of the background process. *)
Definition spawn_argv (w : World) (tmp : string) : list string :=
  [executable w; "internal-run"; "--taskFile"; tmp].

(** The names [os.CreateTemp] may give the task file. *)
Definition task_file_name (w : World) (k : nat) : string :=
  os.joinPath (tmpdir w) "deploy_task_" ++ rand w k ++ ".json".



(** An event other than the removal of a file. *)
Definition not_remove (e : Event) : Prop := forall p, e <> ERemove p.

(** An action is quiet when it always returns (it never exits the
    process), removes no file, and leaves the environment's refusals and
    the script's behaviour as they were. *)
Definition quiet {A} (m : M A) : Prop :=
  forall w, exists a w' t,
    m w = (Ret a, w')
    /\ trace w' = (trace w ++ t)%list
    /\ Forall not_remove t
    /\ fault w' = fault w
    /\ child w' = child w.

Definition node_perm (n : Node) : Z :=
  match n with
  | File p _ => p
  | Dir p => p
  end.

(** From [w] to [w'] every object that was there is still there, with the
    permission bits it had. *)
Definition modes_kept (w w' : World) : Prop :=
  forall path n, fs w !! path = Some n ->
    exists n', fs w' !! path = Some n' /\ node_perm n' = node_perm n.

Definition keeps_modes {A} (m : M A) : Prop :=
  forall w r w', m w = (r, w') -> modes_kept w w'.

(** The environment of the script: the process's own, and three more. *)
Definition script_env (task : DeploymentTask) (w : World) : list string :=
  app (environ w)
      ["DEPLOYER_TASK_ID=" ++ TaskID task;
       "DEPLOYER_PROJECT_PATH=" ++ ProjectPath task;
       "DEPLOYER_LOG_PATH=" ++ LogPath task].

(** The lines of one stream among tagged lines, in their order. *)
Definition lines_of (stream : string) (l : list (string * string)) : list string :=
  map snd (List.filter (fun p => String.eqb (fst p) stream) l).

(** ** Sample data *)

Module Sample.

Definition sample_time : Time :=
  mkTime 1767657600000000000 2026 1 6 12 0 0.

Definition clock0 (n : nat) : Time :=
  mkTime (1767657600000000000 + Z.of_nat n) 2026 1 6 12 0 0.

Definition fs0 : gmap string Node :=
  <["/srv/app" := Dir 493]>
  (<["/srv/app/deploy.sh" := File 420 "echo hello"]>
  (<["/srv/app/logs" := Dir 493]> ∅)).

Definition no_fault : Syscall -> option Errno := fun _ => None.

Definition script_ok : ChildRun := mkChildRun ["hello"] [] [] None.
Definition script_fails : ChildRun :=
  mkChildRun ["one"; "two"] ["boom"] [true; false] (Some (ExitError 1)).

Definition world (f : Syscall -> option Errno) (c : ChildRun) : World :=
  mkWorld fs0 f clock0 0 "/tmp" (fun n => Str.itoa (N.of_nat n))
          "/usr/local/bin/deploygo" [] "/" [] [] c [].

(** Everything is in place and nothing is refused. *)
Definition w_ok : World := world no_fault script_ok.

(** The log directory is there but nothing can be created in it. *)
Definition logs_read_only (c : Syscall) : option Errno :=
  match c with
  | SysOpen p => if String.prefix "/srv/app/logs/" p then Some EACCES else None
  | _ => None
  end.

Definition w_read_only : World := world logs_read_only script_ok.

(** A finished deployment has left its log behind. *)
Definition w_with_log : World :=
  with_fs (<["/srv/app/logs/deployment.log" := File 420 "done"]> fs0) w_ok.

(** The project directory cannot be examined: a directory above it denies
    search permission. *)
Definition project_unreadable (c : Syscall) : option Errno :=
  match c with
  | SysStat p => if String.eqb p "/srv/app" then Some EACCES else None
  | _ => None
  end.

Definition w_stat_denied : World := world project_unreadable script_ok.

(** The script may not be changed. *)
Definition chmod_refused (c : Syscall) : option Errno :=
  match c with
  | SysChmod _ => Some EACCES
  | _ => None
  end.

Definition w_chmod_refused : World := world chmod_refused script_ok.

Definition dq : string := String (ascii_of_nat 34) "".

Fixpoint render_members (l : list (string * JSON)) : string :=
  match l with
  | [] => ""
  | (k, JString s) :: r =>
      dq ++ k ++ dq ++ ":" ++ dq ++ s ++ dq ++
      (match r with [] => "" | _ => "," end) ++ render_members r
  | (k, _) :: r =>
      dq ++ k ++ dq ++ ":null" ++
      (match r with [] => "" | _ => "," end) ++ render_members r
  end.

(** A stand-in for the encoder: strings are written as they are. *)
Definition encode (j : JSON) : string :=
  match j with
  | JNull => "null"
  | JString s => dq ++ s ++ dq
  | JObject l => "{" ++ render_members l ++ "}"
  end.

Definition task0 : DeploymentTask :=
  mkTask "/srv/app" "/srv/app/deploy.sh" "/srv/app/logs" "1767657600000000000" sample_time.

(** A stand-in for the decoder: every text that opens an object is a task. *)
Definition Unmarshal (data : string) : result DeploymentTask :=
  match data with
  | String "{" _ => Ok task0
  | _ => Err (OtherError "invalid character looking for beginning of value")
  end.

Definition deploy := handleDeploy time.Format_log encode.
Definition internal_run := handleInternalRun Unmarshal.

End Sample.

(** ** Package [flag], for sets of string flags *)

Module flag.

(** A flag declared with [FlagSet.String(name, "", usage)]: every flag of
    this program is a string flag whose default is the empty string and
    whose usage text has neither back quotes nor newlines. *)
Record Flag := mkFlag { flag_name : string; flag_usage : string }.

Record FlagSet := mkFlagSet { set_name : string; formal : list Flag }.

Definition is_equals (c : ascii) : bool :=
  if ascii_dec c "=" then true else false.

(** The text before the first ['='] and, when there is one, the text after
    it. *)
Fixpoint split_equals (s : string) : string * option string :=
  match s with
  | EmptyString => (EmptyString, None)
  | String c r =>
      if is_equals c then (EmptyString, Some r)
      else let (n, v) := split_equals r in (String c n, v)
  end.

(** The loop of [parseOne] that looks for ['='] from the second byte of
    the name on. *)
Definition split_name (name : string) : string * option string :=
  match name with
  | EmptyString => (EmptyString, None)
  | String c r => let (n, v) := split_equals r in (String c n, v)
  end.

Definition declared (f : FlagSet) (name : string) : bool :=
  existsb (fun fl => String.eqb (flag_name fl) name) (formal f).

(** What one call of [parseOne] does. *)
Inductive Step :=
| Seen (values : gmap string string) (rest : list string)
| Done
| Help
| Failed (msg : string).

Definition parseOne (f : FlagSet) (values : gmap string string) (args : list string)
  : Step :=
  match args with
  | [] => Done
  | s :: rest =>
      match s with
      | String "-" (String c1 r1) =>
          let double := if ascii_dec c1 "-" then true else false in
          if double && Str.is_empty r1 then Done
          else
            let name := if double then r1 else String c1 r1 in
            match name with
            | EmptyString => Failed ("bad flag syntax: " ++ s)
            | String "-" _ => Failed ("bad flag syntax: " ++ s)
            | String "=" _ => Failed ("bad flag syntax: " ++ s)
            | _ =>
                let (name', value) := split_name name in
                if declared f name' then
                  match value with
                  | Some v => Seen (<[name' := v]> values) rest
                  | None =>
                      match rest with
                      | v :: rest' => Seen (<[name' := v]> values) rest'
                      | [] => Failed ("flag needs an argument: -" ++ name')
                      end
                  end
                else if String.eqb name' "help" || String.eqb name' "h" then Help
                else Failed ("flag provided but not defined: -" ++ name')
            end
      | _ => Done
      end
  end.

Fixpoint insert_sorted (fl : Flag) (l : list Flag) : list Flag :=
  match l with
  | [] => [fl]
  | x :: r =>
      if String.leb (flag_name fl) (flag_name x) then fl :: l
      else x :: insert_sorted fl r
  end.

(** [sortFlags]: the flags in the order of their names. *)
Definition sortFlags (l : list Flag) : list Flag := fold_right insert_sorted [] l.

Definition tab : string := String (ascii_of_nat 9) "".

(** What [PrintDefaults] writes for one flag. *)
Definition flag_default_text (fl : Flag) : string :=
  "  -" ++ flag_name fl ++ " string" ++ nl ++ "    " ++ tab ++ flag_usage fl ++ nl.

(** [f.usage()] for a set with a name: the heading, then one write per
    flag. *)
Definition usage (f : FlagSet) : M unit :=
  Eprint ("Usage of " ++ set_name f ++ ":" ++ nl) ;;
  fold_right (fun fl k => Eprint (flag_default_text fl) ;; k) (ret tt)
             (sortFlags (formal f)).

(** The loop of [Parse] under [ExitOnError]; [n] bounds its turns, each
    of which uses up an argument. *)
Fixpoint parse_loop (n : nat) (f : FlagSet) (values : gmap string string)
  (args : list string) : M (gmap string string) :=
  match n with
  | O => ret values
  | S n' =>
      match parseOne f values args with
      | Seen values' rest => parse_loop n' f values' rest
      | Done => ret values
      | Help => usage f ;; os_Exit 0
      | Failed msg => Eprint (msg ++ nl) ;; usage f ;; os_Exit 2
      end
  end.

Definition Parse (f : FlagSet) (arguments : list string) : M (gmap string string) :=
  parse_loop (S (List.length arguments)) f ∅ arguments.

(** The string a flag's pointer holds after [Parse]. *)
Definition value_of (values : gmap string string) (name : string) : string :=
  match values !! name with
  | Some v => v
  | None => ""
  end.

End flag.

Definition deployCmd : flag.FlagSet :=
  flag.mkFlagSet "deploy"
    [ flag.mkFlag "project" "Absolute path to the project directory";
      flag.mkFlag "deployScript" "Absolute path to the deployment script";
      flag.mkFlag "logPath" "Absolute path to the directory where logs will be stored" ].

Definition internalCmd : flag.FlagSet :=
  flag.mkFlagSet "internal-run"
    [ flag.mkFlag "taskFile" "Path to the temporary task file" ].

Section Main.

Variable RFC3339Nano : Time -> string.
Variable json_encode : JSON -> string.
Variable json_Unmarshal : string -> result DeploymentTask.

(** [main], with [os.Args] as its argument. *)
Definition main (args : list string) : M unit :=
  match args with
  | _ :: command :: rest =>
      if String.eqb command "deploy" then
        values <- flag.Parse deployCmd rest ;;
        handleDeploy RFC3339Nano json_encode
          (flag.value_of values "project")
          (flag.value_of values "deployScript")
          (flag.value_of values "logPath")
      else if String.eqb command "internal-run" then
        values <- flag.Parse internalCmd rest ;;
        handleInternalRun json_Unmarshal (flag.value_of values "taskFile")
      else
        Print ("Unknown command: " ++ command ++ nl) ;; os_Exit 1
  | _ =>
      Print ("Usage: deploygo deploy --project={path} --deployScript={path} --logPath={path}"
             ++ nl) ;;
      os_Exit 1
  end.

End Main.

(** ** Further notions used in the statements *)

(** From [w] to [w'] every file that was there is still there and holds
    what it held, followed by what was appended since. *)
Definition content_grows (w w' : World) : Prop :=
  forall path p c, fs w !! path = Some (File p c) ->
    exists p' c', fs w' !! path = Some (File p' (c ++ c')).

Definition appends_only {A} (m : M A) : Prop :=
  forall w r w', m w = (r, w') -> content_grows w w'.

(** The entries [readAndLogOutput] writes for the lines of one stream,
    the first of them stamped with the [tick]-th reading of the clock. *)
Fixpoint stream_entries (clk : nat -> Time) (tick : nat) (prefix : string)
  (lines : list string) : string :=
  match lines with
  | [] => ""
  | line :: rest =>
      ("[" ++ time.Format_log (clk tick) ++ "] [" ++ prefix ++ "] " ++ line ++ nl)
      ++ stream_entries clk (S tick) prefix rest
  end.

(** The number a string of decimal digits stands for. *)
Definition digit_value (c : ascii) : N := (N_of_ascii c - 48)%N.

Fixpoint decimal_value (s : string) : N :=
  match s with
  | EmptyString => 0%N
  | String c r =>
      (digit_value c * 10 ^ N.of_nat (String.length r) + decimal_value r)%N
  end.

(** The events of keeping a log and preparing a run. *)
Definition log_event (e : Event) : Prop :=
  match e with
  | ECreate _ | ETruncate _ | EAppend _ | EChdir _ | EChmod _ _ => True
  | _ => False
  end.

(** An action all of whose events satisfy [P]. *)
Definition emits_only (P : Event -> Prop) {A} (m : M A) : Prop :=
  forall w r w', m w = (r, w') ->
    exists t, trace w' = (trace w ++ t)%list /\ Forall P t.

(** Two objects of the same kind that, if files, hold the same. *)
Definition same_content (n n' : Node) : Prop :=
  match n, n' with
  | File _ c, File _ c' => c = c'
  | Dir _, Dir _ => True
  | _, _ => False
  end.

(** From [w] to [w'] nothing has happened to the file system outside
    [log], except that the mode of [script] may have changed. *)
Definition spares (log script : string) (w w' : World) : Prop :=
  forall path, path <> log ->
    (path <> script -> fs w' !! path = fs w !! path)
    /\ match fs w !! path, fs w' !! path with
       | Some n, Some n' => same_content n n'
       | None, None => True
       | _, _ => False
       end.

(** An action that spares everything but [log] and the mode of [script],
    and whose result satisfies [Q]. *)
Definition touches_only (log script : string) {A} (Q : A -> Prop) (m : M A) : Prop :=
  forall w r w', m w = (r, w') ->
    spares log script w w' /\ (forall a, r = Ret a -> Q a).

(** What [ExecuteDeployment] returns once the script has been waited for. *)
Definition script_result (c : ChildRun) : option error :=
  match wait_result c with
  | Some e => Some (Errorf ("deployment script failed: " ++ Error e))
  | None => None
  end.

(** ** Package [bufio]: a [Scanner] with the split function [ScanLines] *)

Module bufio.

(** The largest buffer a [Scanner] allocates unless [Buffer] is called. *)
Definition MaxScanTokenSize : nat := 64 * 1024.

Definition is_newline (c : ascii) : bool :=
  if ascii_dec c "010" then true else false.

Definition is_return (c : ascii) : bool :=
  if ascii_dec c "013" then true else false.

(** [dropCR], on the bytes of a line in reverse order. *)
Definition dropCR (rev_line : list ascii) : list ascii :=
  match rev_line with
  | c :: r => if is_return c then r else rev_line
  | [] => []
  end.

(** The text whose bytes, last byte first, are [rev_line], before [tail]. *)
Fixpoint of_rev (rev_line : list ascii) (tail : string) : string :=
  match rev_line with
  | [] => tail
  | c :: r => of_rev r (String c tail)
  end.

Definition token (rev_line : list ascii) : string :=
  of_rev (dropCR rev_line) EmptyString.

(** The calls of [Scanner.Scan] over the bytes [data] that a reader
    delivers until its end: the tokens in the order in which [Scan] yields
    them, and whether the scanner stopped on [ErrTooLong].  [cur] holds the
    bytes of the line being read, last byte first, and [room] is what is
    left of the buffer of [max] bytes: a token is found when its newline is
    in the buffer, what is left at the end of the data is the last token,
    and a buffer that is full with no newline in it ends the scan. *)
Fixpoint scan (max room : nat) (cur : list ascii) (data : string) {struct data}
  : list string * bool :=
  match room with
  | O => ([], true)
  | S room' =>
      match data with
      | EmptyString => (match cur with [] => [] | _ => [token cur] end, false)
      | String c rest =>
          if is_newline c then
            let (tokens, too_long) := scan max max [] rest in
            (token cur :: tokens, too_long)
          else scan max room' (c :: cur) rest
      end
  end.

(** [bufio.NewScanner(pipe)] and the loop [for scanner.Scan()]. *)
Definition Scan (data : string) : list string * bool :=
  scan MaxScanTokenSize MaxScanTokenSize [] data.

End bufio.

(** The lines of a text as it was written: what stands between the
    newlines, and what follows the last one. *)
Fixpoint lines_from (cur : list ascii) (data : string) : list string :=
  match data with
  | EmptyString =>
      match cur with [] => [] | _ => [bufio.of_rev cur EmptyString] end
  | String c rest =>
      if bufio.is_newline c then bufio.of_rev cur EmptyString :: lines_from [] rest
      else lines_from (c :: cur) rest
  end.

Definition written_lines (data : string) : list string := lines_from [] data.

(** A line of [n] bytes [c]. *)
Fixpoint replicate (n : nat) (c : ascii) : string :=
  match n with
  | O => EmptyString
  | S n' => String c (replicate n' c)
  end.

(** The run of a script that writes [out] to its standard output and
    [err] to its standard error and then ends, when each reader gets to
    read all that was written to its pipe: the scanners yield the lines
    that [bufio] finds in the two texts. *)
Definition piped (out err : string) (sched : list bool) (waited : option error)
  : ChildRun :=
  mkChildRun (fst (bufio.Scan out)) (fst (bufio.Scan err)) sched waited.

(** More sample worlds. *)
Module Scenario.

(** The log directory holds the log of an earlier task and a file that
    happens to have the name of the validator's marker. *)
Definition fs_used : gmap string Node :=
  <["/srv/app/logs/deployment.log" := File 420 "old entries"]>
  (<["/srv/app/logs/.deployer_test" := File 420 "kept by someone"]> Sample.fs0).

Definition w_used : World := with_fs fs_used Sample.w_ok.

(** No process can be started. *)
Definition start_refused (c : Syscall) : option Errno :=
  match c with
  | SysStart _ => Some EACCES
  | _ => None
  end.

Definition w_start_refused : World := Sample.world start_refused Sample.script_ok.

(** Nothing can be written to. *)
Definition write_refused (c : Syscall) : option Errno :=
  match c with
  | SysWrite _ => Some ENOSPC
  | _ => None
  end.

Definition w_write_refused : World :=
  with_fs (<["/srv/app/logs/deployment.log" := File 420 "old entries"]> Sample.fs0)
          (Sample.world write_refused Sample.script_ok).

(** A task has been handed over: its file waits in the directory for
    temporary files. *)
Definition w_queued : World :=
  with_fs (<["/tmp/deploy_task_0.json" := File 384 "{}"]> Sample.fs0)
          (Sample.world Sample.no_fault Sample.script_fails).

(** The same, with a log directory in which nothing can be opened. *)
Definition w_queued_read_only : World :=
  with_fs (<["/tmp/deploy_task_0.json" := File 384 "{}"]> Sample.fs0)
          (Sample.world Sample.logs_read_only Sample.script_fails).

Definition main := main time.Format_log Sample.encode Sample.Unmarshal.

End Scenario.

(** * Properties *)

(** ** Sample runs *)

Example Format_rotate_sample :
  time.Format_rotate Sample.sample_time = "20260106_120000".
Proof. reflexivity. Qed.

Example Format_log_sample :
  time.Format_log Sample.sample_time = "2026-01-06 12:00:00".
Proof. reflexivity. Qed.

Example itoaZ_sample :
  Str.itoaZ (unixNano Sample.sample_time) = "1767657600000000000".
Proof. vm_compute. reflexivity. Qed.

Example Join_samples :
  filepath.Join "/var/www/app/logs" "deployment.log" = "/var/www/app/logs/deployment.log"
  /\ filepath.Join "/var/www/app/logs/" "deployment.log" = "/var/www/app/logs/deployment.log"
  /\ filepath.Join "/a/b/../c/./" "deployment.log" = "/a/c/deployment.log"
  /\ filepath.Join "" "deployment.log" = "deployment.log"
  /\ filepath.Join "/" "deployment.log" = "/deployment.log"
  /\ filepath.Join "../x" "deployment.log" = "../x/deployment.log"
  /\ filepath.Join "/.." "deployment.log" = "/deployment.log".
Proof. repeat split; reflexivity. Qed.

(** ** The path validator *)

Lemma Stat_run path w : os.Stat path w = (Ret (os.stat_of w path), w).
Proof. reflexivity. Qed.

(** [ValidatePaths] is the first failing check of the specification's
    list, and it leaves the world as it found it. *)
Lemma ValidatePaths_spec project script logs w :
  ValidatePaths project script logs w
  = (Ret (spec_first_failure w project script logs), w).
Proof.
  unfold ValidatePaths, spec_first_failure, spec_checks, bind; cbn [List.find check_fails].
  destruct (filepath.IsAbs project); cbn [negb]; [|reflexivity].
  rewrite Stat_run.
  destruct (os.IsNotExist (err_of (os.stat_of w project))); [reflexivity|].
  destruct (filepath.IsAbs script); cbn [negb]; [|reflexivity].
  rewrite Stat_run.
  destruct (os.IsNotExist (err_of (os.stat_of w script))); [reflexivity|].
  destruct (filepath.IsAbs logs); cbn [negb]; [|reflexivity].
  rewrite Stat_run.
  destruct (os.IsNotExist (err_of (os.stat_of w logs))); reflexivity.
Qed.

Lemma IsNotExist_stat w path :
  os.IsNotExist (err_of (os.stat_of w path)) = true ->
  os.stat_of w path = Err (PathError "stat" path ENOENT).
Proof.
  unfold os.stat_of.
  destruct (fault w (SysStat path)) as [e|].
  - destruct e; cbn; congruence.
  - destruct (fs w !! path); cbn; congruence.
Qed.

Lemma IsNotExist_other_errno op path e :
  e <> ENOENT -> os.IsNotExist (Some (PathError op path e)) = false.
Proof. destruct e; cbn; congruence. Qed.

Lemma find_first {A} (f : A -> bool) (l : list A) (x : A) :
  List.find f l = Some x ->
  exists before after,
    l = (before ++ x :: after)%list
    /\ f x = true
    /\ forall y, In y before -> f y = false.
Proof.
  induction l as [|a l IH]; [discriminate|].
  cbn [List.find]. destruct (f a) eqn:Ea.
  - intros H. injection H as <-. exists [], l.
    split; [reflexivity|]. split; [exact Ea | intros y []].
  - intros H. destruct (IH H) as (before & after & -> & Hx & Hb).
    exists (a :: before), after. split; [reflexivity|]. split; [exact Hx|].
    intros y [<-|Hy]; [exact Ea | exact (Hb y Hy)].
Qed.

Section Validation.

Variable RFC3339Nano : Time -> string.
Variable json_encode : JSON -> string.

(** C7: [ValidatePaths] returns the error of the first check that fails,
    in the order project path, deployment script path, log path, each first
    for being absolute and then for existing; the message is the name of
    the path followed by the reason (must be absolute, does not exist).  It
    returns the world it was given, whether it accepts or rejects, so it
    has no side effects.  In [handleDeploy] it runs before anything is
    written: a rejection ends the process with status 1 and the message on
    the standard output, with the file system and the trace untouched. *)
Theorem C7_validation_first_failure_no_side_effects
  (project script logs : string) (w : World) :
  ValidatePaths project script logs w
  = (Ret (spec_first_failure w project script logs), w)
  /\ (forall e,
        spec_first_failure w project script logs = Some e ->
        exists before name path reason after,
          spec_checks project script logs
          = (before ++ (name, path, reason) :: after)%list
          /\ (forall c, In c before -> check_fails w c = false)
          /\ check_fails w (name, path, reason) = true
          /\ e = Errorf (name ++ " " ++ reason_text reason))
  /\ (forall e,
        project <> "" -> script <> "" -> logs <> "" ->
        spec_first_failure w project script logs = Some e ->
        handleDeploy RFC3339Nano json_encode project script logs w
        = (Exited 1, with_stdout (app (stdout w) ["Error: " ++ Error e ++ nl]) w)).
Proof.
  split; [apply ValidatePaths_spec|]. split.
  - intros e He. unfold spec_first_failure in He.
    destruct (List.find (check_fails w) (spec_checks project script logs))
      as [[[name path] reason]|] eqn:Hf; [|discriminate].
    apply find_first in Hf as (before & after & Hl & Hc & Hb).
    exists before, name, path, reason, after.
    split; [exact Hl|]. split; [exact Hb|]. split; [exact Hc|]. congruence.
  - intros e Hp Hs Hl He. unfold handleDeploy.
    destruct project; [congruence|]. destruct script; [congruence|].
    destruct logs; [congruence|]. cbn [Str.is_empty orb].
    unfold bind at 1. rewrite ValidatePaths_spec, He. reflexivity.
Qed.

End Validation.

Lemma C7_validation_witness :
  let w := Sample.w_ok in
  spec_first_failure w "/srv/app" "/srv/app/deploy.sh" "/srv/missing"
  = Some (Errorf "log path does not exist")
  /\ ValidatePaths "/srv/app" "/srv/app/deploy.sh" "/srv/missing" w
     = (Ret (Some (Errorf "log path does not exist")), w)
  /\ Sample.deploy "/srv/app" "/srv/app/deploy.sh" "/srv/missing" w
     = (Exited 1, with_stdout ["Error: log path does not exist" ++ nl] w).
Proof.
  cbv zeta.
  assert (He : spec_first_failure Sample.w_ok "/srv/app" "/srv/app/deploy.sh" "/srv/missing"
               = Some (Errorf "log path does not exist"))
    by (vm_compute; reflexivity).
  destruct (C7_validation_first_failure_no_side_effects
              time.Format_log Sample.encode
              "/srv/app" "/srv/app/deploy.sh" "/srv/missing" Sample.w_ok)
    as (Hv & _ & Hd).
  split; [exact He|]. split.
  - rewrite Hv, He. reflexivity.
  - apply (Hd _ ltac:(discriminate) ltac:(discriminate) ltac:(discriminate) He).
Defined.

(** Which check an error message of the validator belongs to: every case
    of membership in the list of checks, against the message returned. *)
Ltac validation_cases Hin Hv :=
  destruct Hin as [H|[H|[H|[H|[H|[H|[]]]]]]]; inversion H; subst;
  vm_compute in Hv; solve [assumption | congruence].

(** C10: an existence check of [ValidatePaths] reports a missing path only
    when [os.Stat] failed with the not-exist error; a [Stat] that fails for
    another reason (permission denied on a directory above, say) counts as
    the path being there, and validation goes on. *)
Theorem C10_only_not_exist_is_reported (project script logs : string) (w : World) :
  (forall name path,
     In (name, path, DoesNotExist) (spec_checks project script logs) ->
     ValidatePaths project script logs w
     = (Ret (Some (Errorf (name ++ " does not exist"))), w) ->
     os.stat_of w path = Err (PathError "stat" path ENOENT))
  /\ (forall op path e,
        e <> ENOENT -> os.IsNotExist (Some (PathError op path e)) = false)
  /\ (filepath.IsAbs project = true ->
      filepath.IsAbs script = true ->
      filepath.IsAbs logs = true ->
      (forall path, In path [project; script; logs] ->
         (exists fi, os.stat_of w path = Ok fi)
         \/ (exists e, e <> ENOENT /\ os.stat_of w path = Err (PathError "stat" path e))) ->
      ValidatePaths project script logs w = (Ret None, w)).
Proof.
  split; [|split].
  - intros name path Hin Hv. rewrite ValidatePaths_spec in Hv.
    unfold spec_first_failure, spec_checks in Hv. cbn [List.find check_fails] in Hv.
    cbn in Hin.
    destruct (negb (filepath.IsAbs project)); [validation_cases Hin Hv|].
    destruct (os.IsNotExist (err_of (os.stat_of w project))) eqn:E1;
      [apply IsNotExist_stat in E1; validation_cases Hin Hv|].
    destruct (negb (filepath.IsAbs script)); [validation_cases Hin Hv|].
    destruct (os.IsNotExist (err_of (os.stat_of w script))) eqn:E2;
      [apply IsNotExist_stat in E2; validation_cases Hin Hv|].
    destruct (negb (filepath.IsAbs logs)); [validation_cases Hin Hv|].
    destruct (os.IsNotExist (err_of (os.stat_of w logs))) eqn:E3;
      [apply IsNotExist_stat in E3; validation_cases Hin Hv|].
    congruence.
  - apply IsNotExist_other_errno.
  - intros Hp Hs Hl Hst. rewrite ValidatePaths_spec.
    assert (Hex : forall path, In path [project; script; logs] ->
                    os.IsNotExist (err_of (os.stat_of w path)) = false).
    { intros path Hin. destruct (Hst path Hin) as [[fi ->]|[e [Hne ->]]].
      - reflexivity.
      - cbn [err_of]. apply IsNotExist_other_errno, Hne. }
    unfold spec_first_failure, spec_checks. cbn [List.find check_fails].
    rewrite Hp, Hs, Hl. cbn [negb].
    rewrite !Hex by (cbn; auto). reflexivity.
Qed.

Lemma C10_stat_denied_witness :
  os.stat_of Sample.w_stat_denied "/srv/app" = Err (PathError "stat" "/srv/app" EACCES)
  /\ ValidatePaths "/srv/app" "/srv/app/deploy.sh" "/srv/app/logs" Sample.w_stat_denied
     = (Ret None, Sample.w_stat_denied).
Proof.
  split; [reflexivity|].
  apply (C10_only_not_exist_is_reported
           "/srv/app" "/srv/app/deploy.sh" "/srv/app/logs" Sample.w_stat_denied);
    try reflexivity.
  intros path [<-|[<-|[<-|[]]]].
  - right. exists EACCES. split; [discriminate | reflexivity].
  - left. eexists. vm_compute. reflexivity.
  - left. eexists. vm_compute. reflexivity.
Defined.

(** C1 (the code departs from it): [ValidatePaths] has no writability
    check.  With a log directory in which nothing can be created, the probe
    of the HTTP front-end's [validatePaths] fails, but [ValidatePaths]
    accepts the three paths, and [handleDeploy] writes the task file and
    starts the background process. *)
Theorem C1_unwritable_log_directory_is_accepted :
  let w := Sample.w_read_only in
  let run := Sample.deploy "/srv/app" "/srv/app/deploy.sh" "/srv/app/logs" w in
  writable "/srv/app/logs" w = false
  /\ validatePaths (mkRequest "/srv/app" "/srv/app/deploy.sh" "/srv/app/logs") w
     = (Ret (Some (Errorf "logPath directory is not writable: /srv/app/logs")), w)
  /\ ValidatePaths "/srv/app" "/srv/app/deploy.sh" "/srv/app/logs" w = (Ret None, w)
  /\ fst run = Ret tt
  /\ trace (snd run)
     = [ ECreate "/tmp/deploy_task_0.json";
         EAppend "/tmp/deploy_task_0.json";
         EStart ["/usr/local/bin/deploygo"; "internal-run"; "--taskFile";
                 "/tmp/deploy_task_0.json"] "" [] ].
Proof. cbv zeta. repeat split; vm_compute; reflexivity. Qed.

(** ** Strings and [filepath.Join] *)

Lemma append_cons c r s : String c r ++ s = String c (r ++ s).
Proof. reflexivity. Qed.

Lemma append_empty_l s : "" ++ s = s.
Proof. reflexivity. Qed.

Lemma append_assoc (a b c : string) : (a ++ b) ++ c = a ++ b ++ c.
Proof.
  induction a as [|x a IH]; [reflexivity|].
  rewrite !append_cons, IH. reflexivity.
Qed.

Lemma length_append (a b : string) :
  String.length (a ++ b) = (String.length a + String.length b)%nat.
Proof.
  induction a as [|x a IH]; [reflexivity|].
  rewrite append_cons. cbn [String.length]. rewrite IH. reflexivity.
Qed.

Lemma is_empty_false s : s <> "" -> Str.is_empty s = false.
Proof. destruct s; [congruence | reflexivity]. Qed.

Lemma append_not_empty_r (a b : string) : b <> "" -> a ++ b <> "".
Proof.
  intros Hb H. apply (f_equal String.length) in H.
  rewrite length_append in H. destruct b; [congruence|].
  cbn in H. lia.
Qed.

Lemma has_slash_append (a b : string) :
  Str.has_slash (a ++ b) = Str.has_slash a || Str.has_slash b.
Proof.
  induction a as [|x a IH]; [reflexivity|].
  rewrite append_cons. cbn [Str.has_slash]. rewrite IH, orb_assoc. reflexivity.
Qed.

Lemma split_not_nil s : Str.split s <> [].
Proof.
  destruct s as [|c r]; cbn; [discriminate|].
  destruct (Str.is_slash c); [discriminate|].
  destruct (Str.split r); discriminate.
Qed.

Lemma split_no_slash n : Str.has_slash n = false -> Str.split n = [n].
Proof.
  induction n as [|c r IH]; [reflexivity|].
  cbn [Str.has_slash Str.split]. intros H.
  apply orb_false_iff in H as [Hc Hr]. rewrite Hc, (IH Hr). reflexivity.
Qed.

Lemma split_snoc d n :
  Str.has_slash n = false ->
  Str.split (d ++ "/" ++ n) = (Str.split d ++ [n])%list.
Proof.
  intros Hn. induction d as [|c r IH].
  - rewrite append_empty_l, append_cons, append_empty_l.
    cbn [Str.split]. change (Str.is_slash "/") with true. cbn iota.
    rewrite (split_no_slash n Hn). reflexivity.
  - rewrite append_cons. cbn [Str.split]. rewrite IH.
    destruct (Str.is_slash c); [reflexivity|].
    destruct (Str.split r) as [|h t] eqn:E; [|reflexivity].
    exfalso. exact (split_not_nil r E).
Qed.

Lemma join_snoc l n :
  Str.join (l ++ [n])%list
  = match l with [] => "" | _ => Str.join l ++ "/" end ++ n.
Proof.
  induction l as [|x l IH]; [reflexivity|].
  destruct l as [|y l].
  - cbn. rewrite append_assoc. reflexivity.
  - change (Str.join ((x :: y :: l) ++ [n])%list)
      with (x ++ "/" ++ Str.join ((y :: l) ++ [n])%list).
    rewrite IH.
    change (Str.join (x :: y :: l)) with (x ++ "/" ++ Str.join (y :: l)).
    rewrite !append_assoc. reflexivity.
Qed.

Lemma clean_step_plain rooted st n :
  plain_name n -> filepath.clean_step rooted st n = n :: st.
Proof.
  intros (_ & H1 & H2 & H3). unfold filepath.clean_step.
  rewrite (is_empty_false n H1).
  apply String.eqb_neq in H2, H3. rewrite H2, H3. reflexivity.
Qed.

Lemma IsAbs_no_slash n : Str.has_slash n = false -> filepath.IsAbs n = false.
Proof.
  destruct n as [|c r]; [reflexivity|].
  cbn [Str.has_slash]. intros H. apply orb_false_iff in H as [Hc _].
  unfold filepath.IsAbs, Str.starts_with_slash.
  unfold Str.is_slash in Hc. destruct (ascii_dec c "/") as [->|Hne]; [discriminate|].
  destruct c as [[] [] [] [] [] [] [] []]; try reflexivity. congruence.
Qed.

(** Joining a plain file name to a directory puts the cleaned directory in
    front of the name: the result depends on the name only through its last
    element. *)
Lemma Join_plain dir n :
  plain_name n -> filepath.Join dir n = dir_prefix dir ++ n.
Proof.
  intros Hn. pose proof Hn as (Hs & Hne & _).
  unfold filepath.Join, dir_prefix.
  rewrite (is_empty_false n Hne).
  destruct dir as [|c r].
  - cbn [Str.is_empty]. unfold filepath.Clean.
    rewrite (IsAbs_no_slash n Hs), (split_no_slash n Hs).
    cbn [fold_left]. rewrite (clean_step_plain false [] n Hn).
    cbn [rev app Str.join]. rewrite !append_empty_l.
    rewrite (is_empty_false n Hne). reflexivity.
  - cbn [Str.is_empty]. unfold filepath.Clean.
    rewrite (split_snoc (String c r) n Hs), fold_left_app.
    cbn [fold_left].
    change (filepath.IsAbs (String c r ++ "/" ++ n)) with (filepath.IsAbs (String c r)).
    rewrite clean_step_plain by exact Hn.
    cbn [rev]. rewrite join_snoc, <- append_assoc.
    rewrite is_empty_false by (apply append_not_empty_r; exact Hne).
    destruct (rev (fold_left (filepath.clean_step (filepath.IsAbs (String c r)))
                     (Str.split (String c r)) [])); reflexivity.
Qed.

(** ** Decimal numbers and time stamps *)

Lemma digit_not_slash n : Str.is_slash (Str.digit n) = false.
Proof.
  unfold Str.digit. generalize (N.to_nat (n mod 10)%N) as k. intros k.
  do 10 (destruct k as [|k]; [reflexivity|]). destruct k; reflexivity.
Qed.

Lemma has_slash_digits_go fuel : forall n acc,
  Str.has_slash (Str.digits_go fuel n acc) = Str.has_slash acc.
Proof.
  induction fuel as [|f IH]; intros n acc; [reflexivity|].
  cbn [Str.digits_go]. destruct (n <? 10)%N.
  - cbn [Str.has_slash]. rewrite digit_not_slash. reflexivity.
  - rewrite IH. cbn [Str.has_slash]. rewrite digit_not_slash. reflexivity.
Qed.

Lemma has_slash_zeros k : Str.has_slash (Str.zeros k) = false.
Proof. induction k as [|k IH]; [reflexivity|]. cbn. exact IH. Qed.

Lemma has_slash_appendInt n width : Str.has_slash (Str.appendInt n width) = false.
Proof.
  unfold Str.appendInt, Str.itoa.
  rewrite has_slash_append, has_slash_zeros, has_slash_digits_go. reflexivity.
Qed.

Lemma length_zeros k : String.length (Str.zeros k) = k.
Proof. induction k as [|k IH]; [reflexivity|]. cbn. rewrite IH. reflexivity. Qed.

Lemma length_digits_go_le fuel : forall (k : nat) n acc,
  (1 <= k)%nat -> (n < 10 ^ N.of_nat k)%N ->
  (String.length (Str.digits_go fuel n acc) <= k + String.length acc)%nat.
Proof.
  induction fuel as [|f IH]; intros k n acc Hk Hn; [cbn; lia|].
  cbn [Str.digits_go]. destruct (N.ltb_spec n 10) as [Hlt|Hge].
  - cbn [String.length]. lia.
  - destruct k as [|[|k]]; [lia| |].
    + change (10 ^ N.of_nat 1)%N with 10%N in Hn. lia.
    + specialize (IH (S k) (n / 10)%N (String (Str.digit n) acc)).
      cbn [String.length] in IH.
      assert (n / 10 < 10 ^ N.of_nat (S k))%N.
      { apply N.Div0.div_lt_upper_bound.
        rewrite (Nat2N.inj_succ (S k)), N.pow_succ_r' in Hn. exact Hn. }
      specialize (IH ltac:(lia) H). lia.
Qed.

Lemma length_appendInt n (width : nat) :
  (1 <= width)%nat -> (n < 10 ^ N.of_nat width)%N ->
  String.length (Str.appendInt n width) = width.
Proof.
  intros Hw Hn. unfold Str.appendInt.
  rewrite length_append, length_zeros.
  pose proof (length_digits_go_le (S (N.size_nat n)) width n "" Hw Hn) as H.
  unfold Str.itoa. cbn [String.length] in H. lia.
Qed.

(** The rotation stamp of a civil time has the fifteen characters of
    YYYYMMDD_HHMMSS. *)
Lemma length_Format_rotate t :
  time.civil t -> String.length (time.Format_rotate t) = 15%nat.
Proof.
  intros (Hy & Hmo & Hd & Hh & Hmi & Hs). unfold time.Format_rotate.
  rewrite !length_append.
  rewrite (length_appendInt (year t) 4), !(length_appendInt _ 2);
    try assumption; try lia.
  reflexivity.
Qed.

Lemma has_slash_Format_rotate t : Str.has_slash (time.Format_rotate t) = false.
Proof.
  unfold time.Format_rotate.
  rewrite !has_slash_append, !has_slash_appendInt. reflexivity.
Qed.

Lemma plain_active_log : plain_name "deployment.log".
Proof. repeat split; discriminate. Qed.

Lemma plain_rotated_log t :
  plain_name ("deployment_" ++ time.Format_rotate t ++ ".log").
Proof.
  repeat split.
  - rewrite !has_slash_append, has_slash_Format_rotate. reflexivity.
  - rewrite !append_cons. discriminate.
  - rewrite !append_cons. discriminate.
  - rewrite !append_cons. discriminate.
Qed.

Lemma rotated_log_differs pre t :
  pre ++ "deployment.log" <> pre ++ "deployment_" ++ time.Format_rotate t ++ ".log".
Proof.
  intros H. apply String.app_inj in H.
  rewrite !append_cons in H. discriminate.
Qed.

(** ** Log rotation *)

Lemma RotateLog_unfold logDir w :
  let t := clock w (ticks w) in
  let active := dir_prefix logDir ++ "deployment.log" in
  let new := dir_prefix logDir ++ "deployment_" ++ time.Format_rotate t ++ ".log" in
  let w1 := with_ticks (S (ticks w)) w in
  RotateLog logDir w
  = if os.IsNotExist (err_of (os.stat_of w active)) then (Ret None, w1)
    else os.Rename active new w1.
Proof.
  cbv zeta. unfold RotateLog, bind, Now.
  rewrite (Join_plain logDir "deployment.log" plain_active_log).
  rewrite (Join_plain logDir _ (plain_rotated_log (clock w (ticks w)))).
  rewrite Stat_run.
  change (os.stat_of (with_ticks (S (ticks w)) w)) with (os.stat_of w).
  destruct (os.IsNotExist _); reflexivity.
Qed.

(** C5: with no active [deployment.log], [RotateLog] returns [nil] and
    touches neither the file system nor the trace; with an active log it
    issues one rename, nothing else, after which the log is found under
    [deployment_<YYYYMMDD_HHMMSS>.log] in the same directory and no longer
    under [deployment.log]. *)
Theorem C5_rotate_log (logDir : string) (w : World) :
  let t := clock w (ticks w) in
  let active := dir_prefix logDir ++ "deployment.log" in
  let new := dir_prefix logDir ++ "deployment_" ++ time.Format_rotate t ++ ".log" in
  filepath.Join logDir "deployment.log" = active
  /\ filepath.Join logDir ("deployment_" ++ time.Format_rotate t ++ ".log") = new
  /\ (time.civil t -> String.length (time.Format_rotate t) = 15%nat)
  /\ (os.stat_of w active = Err (PathError "stat" active ENOENT) ->
      exists w1,
        RotateLog logDir w = (Ret None, w1)
        /\ fs w1 = fs w /\ trace w1 = trace w)
  /\ (forall node,
        fs w !! active = Some node ->
        fault w (SysStat active) = None ->
        fault w (SysRename active new) = None ->
        exists w2,
          RotateLog logDir w = (Ret None, w2)
          /\ fs w2 = <[new := node]> (delete active (fs w))
          /\ fs w2 !! new = Some node
          /\ fs w2 !! active = None
          /\ trace w2 = (trace w ++ [ERename active new])%list).
Proof.
  cbv zeta. split; [|split; [|split; [|split]]].
  - apply Join_plain, plain_active_log.
  - apply Join_plain, plain_rotated_log.
  - apply length_Format_rotate.
  - intros Hst. eexists. rewrite RotateLog_unfold. cbv zeta.
    rewrite Hst. cbn [err_of os.IsNotExist].
    split; [reflexivity|]. split; reflexivity.
  - intros node Hnode Hf1 Hf2. rewrite RotateLog_unfold. cbv zeta.
    unfold os.stat_of. rewrite Hf1, Hnode. cbn [err_of os.IsNotExist].
    unfold os.Rename.
    change (fault (with_ticks (S (ticks w)) w)) with (fault w).
    change (fs (with_ticks (S (ticks w)) w)) with (fs w).
    rewrite Hf2, Hnode. eexists. split; [reflexivity|].
    cbn [fs with_fs emit with_trace trace with_ticks].
    split; [reflexivity|]. split; [apply lookup_insert_eq|]. split; [|reflexivity].
    rewrite lookup_insert_ne by (apply not_eq_sym, rotated_log_differs).
    apply lookup_delete_eq.
Qed.

Lemma C5_rotate_log_witness :
  time.civil (clock Sample.w_ok (ticks Sample.w_ok))
  /\ String.length (time.Format_rotate (clock Sample.w_ok (ticks Sample.w_ok))) = 15%nat
  /\ (exists w1, RotateLog "/srv/app/logs" Sample.w_ok = (Ret None, w1)
                 /\ fs w1 = fs Sample.w_ok /\ trace w1 = trace Sample.w_ok)
  /\ (exists w2, RotateLog "/srv/app/logs" Sample.w_with_log = (Ret None, w2)
        /\ fs w2 !! "/srv/app/logs/deployment_20260106_120000.log"
           = Some (File 420 "done")
        /\ fs w2 !! "/srv/app/logs/deployment.log" = None).
Proof.
  assert (Hc : time.civil (clock Sample.w_ok (ticks Sample.w_ok)))
    by (vm_compute; repeat split; reflexivity).
  assert (Ea : dir_prefix "/srv/app/logs" ++ "deployment.log"
               = "/srv/app/logs/deployment.log") by (vm_compute; reflexivity).
  assert (En : dir_prefix "/srv/app/logs" ++ "deployment_"
                 ++ time.Format_rotate (clock Sample.w_ok (ticks Sample.w_ok)) ++ ".log"
               = "/srv/app/logs/deployment_20260106_120000.log")
    by (vm_compute; reflexivity).
  split; [exact Hc|].
  pose proof (C5_rotate_log "/srv/app/logs" Sample.w_ok) as H1.
  pose proof (C5_rotate_log "/srv/app/logs" Sample.w_with_log) as H2.
  cbv zeta in H1, H2.
  change (clock Sample.w_with_log (ticks Sample.w_with_log))
    with (clock Sample.w_ok (ticks Sample.w_ok)) in H2.
  rewrite Ea, En in H1, H2.
  destruct H1 as (_ & _ & Hlen & Hnone & _).
  destruct H2 as (_ & _ & _ & _ & Hren).
  split; [exact (Hlen Hc)|].
  split.
  - apply Hnone. vm_compute. reflexivity.
  - destruct (Hren (File 420 "done")) as (w2 & Hrun & _ & Hnew & Hold & _).
    + vm_compute. reflexivity.
    + reflexivity.
    + reflexivity.
    + exists w2. split; [exact Hrun|]. split; [exact Hnew | exact Hold].
Defined.

(** ** The foreground invocation *)

Ltac world_simpl :=
  cbn [fs fault clock ticks tmpdir rand executable environ cwd stdout stderr child trace
       with_fs with_ticks with_cwd with_stdout with_stderr with_trace emit] in *.

Lemma Print_run msg w : Print msg w = (Ret tt, with_stdout (app (stdout w) [msg]) w).
Proof. reflexivity. Qed.

Lemma Print_exit {A} msg w :
  (Print msg ;; @os_Exit A 1) w = (Exited 1, with_stdout (app (stdout w) [msg]) w).
Proof. reflexivity. Qed.

Lemma Eprint_exit {A} msg w :
  (Eprint msg ;; @os_Exit A 1) w = (Exited 1, with_stderr (app (stderr w) [msg]) w).
Proof. reflexivity. Qed.

Lemma CreateTemp_try_spec n : forall try pre suf w r w',
  os.CreateTemp_try n try pre suf w = (r, w') ->
  (exists e, r = Ret (Err e) /\ w' = w)
  \/ (exists k, let name := pre ++ rand w k ++ suf in
        r = Ret (Ok name) /\ fs w !! name = None
        /\ w' = emit (ECreate name) (with_fs (<[name := File 384 ""]> (fs w)) w)).
Proof.
  induction n as [|n IH]; intros try pre suf w r w' H; cbn [os.CreateTemp_try] in H.
  - left. injection H as <- <-. eauto.
  - cbv zeta in H. destruct (fs w !! (pre ++ rand w try ++ suf)) eqn:E.
    + eapply IH; eauto.
    + right. exists try. cbv zeta. injection H as <- <-. auto.
Qed.

(** [os.CreateTemp] either fails and changes nothing, or creates one empty
    file under a name that was free. *)
Lemma CreateTemp_spec prefix suffix w r w' :
  os.CreateTemp prefix suffix w = (r, w') ->
  (exists e, r = Ret (Err e) /\ w' = w)
  \/ (exists k, let name := os.joinPath (tmpdir w) prefix ++ rand w k ++ suffix in
        fault w SysCreateTemp = None
        /\ r = Ret (Ok name) /\ fs w !! name = None
        /\ w' = emit (ECreate name) (with_fs (<[name := File 384 ""]> (fs w)) w)).
Proof.
  unfold os.CreateTemp. destruct (fault w SysCreateTemp) eqn:Ef.
  - intros H. left. injection H as <- <-. eauto.
  - intros H. apply CreateTemp_try_spec in H as [H|[k H]]; [left; exact H|].
    right. exists k. cbv zeta in *. tauto.
Qed.


(** A failing branch of [handleDeploy]: one line on the standard output,
    and only the events [t], none of which starts a process. *)
Ltac deploy_fails t :=
  left; split; [reflexivity|];
  split; [eexists; split;
          [reflexivity | first [left; reflexivity | right; eexists; reflexivity]]|];
  split; [exists t; split;
          [first [reflexivity | symmetry; apply app_nil_r | rewrite <- !app_assoc; reflexivity]
          | cbn [In]; intros ? Hin; intuition (subst; eauto)]
         | first [reflexivity | congruence]].

Section Deploy.

Variable RFC3339Nano : Time -> string.
Variable json_encode : JSON -> string.

(** Every way [handleDeploy] can end. *)
Lemma handleDeploy_cases project script logs w r w' :
  handleDeploy RFC3339Nano json_encode project script logs w = (r, w') ->
  fault w' = fault w /\ child w' = child w /\ clock w' = clock w /\
  ((r = Exited 1
    /\ (exists msg, stdout w' = app (stdout w) [msg]
           /\ (msg = "All flags are required: --project, --deployScript, --logPath" ++ nl
               \/ exists reason, msg = "Error: " ++ reason))
    /\ (exists t, trace w' = app (trace w) t
                  /\ forall e, In e t -> exists p, e = ECreate p \/ e = EAppend p)
    /\ (spec_first_failure w project script logs <> None -> fs w' = fs w))
   \/
   (r = Ret tt
    /\ project <> "" /\ script <> "" /\ logs <> ""
    /\ spec_first_failure w project script logs = None
    /\ fault w SysCreateTemp = None
    /\ fault w SysExecutable = None
    /\ exists k j,
         let tmp := task_file_name w k in
         let task := new_task project script logs w in
         fs w !! tmp = None
         /\ task_to_json RFC3339Nano task = Ok j
         /\ fault w (SysWrite tmp) = None
         /\ fault w (SysStart (spawn_argv w tmp)) = None
         /\ fs w' = <[tmp := File 384 (json_encode j)]> (fs w)
         /\ trace w' = app (trace w)
                         [ECreate tmp; EAppend tmp; EStart (spawn_argv w tmp) "" []]
         /\ stdout w' = app (stdout w)
              ["Deployment started in background for task " ++ TaskID task ++ nl])).
Proof.
  unfold handleDeploy.
  destruct (Str.is_empty project || Str.is_empty script || Str.is_empty logs) eqn:Eempty.
  { rewrite Print_exit. intros H. injection H as <- <-. world_simpl.
    do 3 (split; [reflexivity|]). deploy_fails (@nil Event). }
  apply orb_false_iff in Eempty as [Eempty El].
  apply orb_false_iff in Eempty as [Ep Es].
  assert (Hp : project <> "") by (intros ->; discriminate).
  assert (Hs : script <> "") by (intros ->; discriminate).
  assert (Hl : logs <> "") by (intros ->; discriminate).
  unfold bind at 1. rewrite ValidatePaths_spec.
  destruct (spec_first_failure w project script logs) as [e|] eqn:Ev.
  { rewrite Print_exit. intros H. injection H as <- <-. world_simpl.
    do 3 (split; [reflexivity|]). deploy_fails (@nil Event). }
  unfold bind at 1. unfold Now at 1. unfold bind at 1. unfold Now at 1.
  unfold bind at 1.
  destruct (os.CreateTemp _ _ _) as [rt wt] eqn:Et.
  apply CreateTemp_spec in Et as [(e & -> & ->)|(k & Hft & -> & Hfresh & ->)].
  { rewrite Print_exit. intros H. injection H as <- <-. world_simpl.
    do 3 (split; [reflexivity|]). deploy_fails (@nil Event). }
  world_simpl. fold (task_file_name w k) in *.
  set (tmp := task_file_name w k) in *.
  fold (new_task project script logs w).
  unfold json_Marshal.
  destruct (task_to_json RFC3339Nano (new_task project script logs w)) as [j|e] eqn:Ej.
  2:{ rewrite Print_exit. intros H. injection H as <- <-. world_simpl.
      do 3 (split; [reflexivity|]). deploy_fails [ECreate tmp]. }
  unfold bind at 1. unfold os.WriteString at 1. world_simpl.
  destruct (fault w (SysWrite tmp)) as [e|] eqn:Ew.
  { rewrite Print_exit. intros H. injection H as <- <-. world_simpl.
    do 3 (split; [reflexivity|]). deploy_fails [ECreate tmp]. }
  rewrite lookup_insert_eq. rewrite insert_insert_eq, append_empty_l.
  unfold bind at 1. unfold os.Executable at 1. world_simpl.
  destruct (fault w SysExecutable) as [e|] eqn:Ex.
  { rewrite Print_exit. intros H. injection H as <- <-. world_simpl.
    do 3 (split; [reflexivity|]). deploy_fails [ECreate tmp; EAppend tmp]. }
  unfold bind at 1. unfold exec_Start at 1. world_simpl.
  fold (spawn_argv w tmp).
  destruct (fault w (SysStart (spawn_argv w tmp))) as [e|] eqn:Est.
  { rewrite Print_exit. intros H. injection H as <- <-. world_simpl.
    do 3 (split; [reflexivity|]). deploy_fails [ECreate tmp; EAppend tmp]. }
  rewrite Print_run. intros H. injection H as <- <-. world_simpl.
  do 3 (split; [reflexivity|]). right.
  split; [reflexivity|]. do 3 (split; [assumption|]).
  split; [reflexivity|]. split; [assumption|]. split; [reflexivity|].
  exists k, j. cbv zeta. fold tmp.
  split; [assumption|]. split; [reflexivity|]. do 2 (split; [assumption|]).
  split; [reflexivity|].
  split; [|reflexivity].
  rewrite <- !app_assoc. reflexivity.
Qed.

End Deploy.

Lemma count_events_app f (a b : list Event) :
  count_events f (a ++ b)%list = (count_events f a + count_events f b)%nat.
Proof. unfold count_events. rewrite List.filter_app, length_app. reflexivity. Qed.

Lemma count_events_none f (t : list Event) :
  (forall e, In e t -> f e = false) -> count_events f t = 0%nat.
Proof.
  unfold count_events. induction t as [|e t IH]; intros H; [reflexivity|].
  cbn [List.filter]. rewrite (H e) by (left; reflexivity).
  apply IH. intros e' He'. apply H. right. exact He'.
Qed.


Section Foreground.

Variable RFC3339Nano : Time -> string.
Variable json_encode : JSON -> string.





End Foreground.


(** ** The task file *)

Section TaskFile.

Variable RFC3339Nano : Time -> string.
Variable json_encode : JSON -> string.

Lemma task_to_json_members task j :
  task_to_json RFC3339Nano task = Ok j ->
  j = JObject [ ("ProjectPath", JString (ProjectPath task));
                ("DeploymentScriptPath", JString (DeploymentScriptPath task));
                ("LogPath", JString (LogPath task));
                ("TaskID", JString (TaskID task));
                ("CreatedAt", JString (RFC3339Nano (CreatedAt task))) ].
Proof.
  unfold task_to_json, Time_MarshalJSON.
  destruct (year (CreatedAt task) <? 10000)%N; [|discriminate].
  intros H. injection H as <-. reflexivity.
Qed.

(** C6, as the code has it: the task file a successful [deploy] leaves
    behind holds one JSON object whose members are, in this order,
    ProjectPath, DeploymentScriptPath, LogPath, TaskID and CreatedAt, the
    names of the fields of the Go struct, which carries no tags. *)
Theorem C6_task_file_fields (project script logs : string) (w w' : World) :
  handleDeploy RFC3339Nano json_encode project script logs w = (Ret tt, w') ->
  exists k j,
    fs w !! task_file_name w k = None
    /\ fs w' !! task_file_name w k = Some (File 384 (json_encode j))
    /\ j = JObject [ ("ProjectPath", JString project);
                     ("DeploymentScriptPath", JString script);
                     ("LogPath", JString logs);
                     ("TaskID", JString (Str.itoaZ (unixNano (clock w (ticks w)))));
                     ("CreatedAt", JString (RFC3339Nano (clock w (S (ticks w))))) ]
    /\ object_keys j
       = ["ProjectPath"; "DeploymentScriptPath"; "LogPath"; "TaskID"; "CreatedAt"]
    /\ object_keys j = map go_name DeploymentTask_fields.
Proof.
  intros H. apply handleDeploy_cases in H as (_ & _ & _ & H).
  destruct H as [(C & _)|(_ & _ & _ & _ & _ & _ & _ & k & j & Hrun)]; [discriminate|].
  cbv zeta in Hrun. destruct Hrun as (Hfresh & Hj & _ & _ & Hfs & _).
  exists k, j. split; [exact Hfresh|].
  split; [rewrite Hfs; apply lookup_insert_eq|].
  apply task_to_json_members in Hj. cbn [new_task ProjectPath DeploymentScriptPath
    LogPath TaskID CreatedAt] in Hj.
  split; [exact Hj|]. subst j. split; reflexivity.
Qed.

End TaskFile.

Lemma C6_task_file_fields_witness :
  exists w' k j,
    Sample.deploy "/srv/app" "/srv/app/deploy.sh" "/srv/app/logs" Sample.w_ok = (Ret tt, w')
    /\ fs w' !! task_file_name Sample.w_ok k = Some (File 384 (Sample.encode j))
    /\ object_keys j
       = ["ProjectPath"; "DeploymentScriptPath"; "LogPath"; "TaskID"; "CreatedAt"].
Proof.
  destruct (Sample.deploy "/srv/app" "/srv/app/deploy.sh" "/srv/app/logs" Sample.w_ok)
    as [r w'] eqn:H.
  assert (Hr : r = Ret tt).
  { change r with (fst (r, w')). rewrite <- H. vm_compute. reflexivity. }
  subst r.
  destruct (C6_task_file_fields time.Format_log Sample.encode _ _ _ _ _ H)
    as (k & j & _ & Hfile & _ & Hkeys & _).
  exists w', k, j. split; [reflexivity|]. split; [exact Hfile | exact Hkeys].
Defined.

(** C6, as the specification words it, fails on the sample task: the
    members of the task file are not named projectPath, scriptPath,
    logPath, taskId and createdAt. *)
Lemma C6_claimed_field_names_counterexample :
  exists j,
    task_to_json time.Format_log
      (new_task "/srv/app" "/srv/app/deploy.sh" "/srv/app/logs" Sample.w_ok) = Ok j
    /\ fs (snd (Sample.deploy "/srv/app" "/srv/app/deploy.sh" "/srv/app/logs" Sample.w_ok))
         !! "/tmp/deploy_task_0.json" = Some (File 384 (Sample.encode j))
    /\ object_keys j <> ["projectPath"; "scriptPath"; "logPath"; "taskId"; "createdAt"]
    /\ ~ In "projectPath" (object_keys j)
    /\ ~ In "scriptPath" (object_keys j).
Proof.
  eexists. split; [vm_compute; reflexivity|].
  split; [vm_compute; reflexivity|].
  split; [discriminate|].
  split; cbn; intros H; repeat (destruct H as [H|H]; [discriminate|]); exact H.
Qed.

(** ** The background invocation *)

Create HintDb quiet.

Lemma quiet_ret {A} (a : A) : quiet (ret a).
Proof.
  intros w. exists a, w, []. split; [reflexivity|].
  split; [symmetry; apply app_nil_r|]. split; [constructor|]. split; reflexivity.
Qed.

Lemma quiet_bind {A B} (m : M A) (k : A -> M B) :
  quiet m -> (forall a, quiet (k a)) -> quiet (bind m k).
Proof.
  intros Hm Hk w.
  destruct (Hm w) as (a & w1 & t1 & E1 & T1 & F1 & X1 & C1).
  destruct (Hk a w1) as (b & w2 & t2 & E2 & T2 & F2 & X2 & C2).
  exists b, w2, (t1 ++ t2)%list. unfold bind. rewrite E1, E2.
  split; [reflexivity|]. split; [rewrite T2, T1, app_assoc; reflexivity|].
  split; [apply Forall_app; split; assumption|].
  split; congruence.
Qed.

(** A primitive that returns in a world whose trace is the old one or the
    old one and one more event that is no removal. *)
Ltac quiet_prim :=
  eexists _, _;
  first
    [ exists (@nil Event); split; [reflexivity|];
      split; [world_simpl; symmetry; apply app_nil_r|];
      split; [constructor | split; reflexivity]
    | eexists [_]; split; [reflexivity|];
      split; [world_simpl; reflexivity|];
      split; [repeat constructor; intros ?; discriminate | split; reflexivity] ].

Lemma quiet_Now : quiet Now.
Proof. intros w. unfold Now. quiet_prim. Qed.

Lemma quiet_Eprint s : quiet (Eprint s).
Proof. intros w. unfold Eprint. quiet_prim. Qed.

Lemma quiet_Stat path : quiet (os.Stat path).
Proof. intros w. unfold os.Stat. quiet_prim. Qed.

Lemma quiet_environ : quiet (fun w => (Ret (environ w), w)).
Proof. intros w. quiet_prim. Qed.

Lemma quiet_OpenFile path flag perm : quiet (os.OpenFile path flag perm).
Proof.
  intros w. unfold os.OpenFile.
  destruct (fault w (SysOpen path)); [quiet_prim|].
  destruct (fs w !! path) as [[p c|p]|]; [destruct flag| |]; quiet_prim.
Qed.

Lemma quiet_WriteString f s : quiet (os.WriteString f s).
Proof.
  intros w. unfold os.WriteString.
  destruct (fault w (SysWrite f)); [quiet_prim|].
  destruct (fs w !! f) as [[p c|p]|]; quiet_prim.
Qed.

Lemma quiet_Chdir dir : quiet (os.Chdir dir).
Proof.
  intros w. unfold os.Chdir.
  destruct (fault w (SysChdir dir)); [quiet_prim|].
  destruct (fs w !! dir) as [[p c|p]|]; quiet_prim.
Qed.

Lemma quiet_Chmod name perm : quiet (os.Chmod name perm).
Proof.
  intros w. unfold os.Chmod. cbv zeta.
  destruct (fault w (SysChmod name)); [quiet_prim|].
  destruct (fs w !! name); quiet_prim.
Qed.

Lemma quiet_Rename old new : quiet (os.Rename old new).
Proof.
  intros w. unfold os.Rename. cbv zeta.
  destruct (fault w (SysRename old new)); [quiet_prim|].
  destruct (fs w !! old); quiet_prim.
Qed.

Lemma quiet_Pipe stream : quiet (exec_Pipe stream).
Proof.
  intros w. unfold exec_Pipe. destruct (fault w (SysPipe stream)); quiet_prim.
Qed.

Lemma quiet_Start argv dir env : quiet (exec_Start argv dir env).
Proof.
  intros w. unfold exec_Start. destruct (fault w (SysStart argv)); quiet_prim.
Qed.

#[export] Hint Resolve quiet_ret quiet_Now quiet_Eprint quiet_Stat quiet_environ
  quiet_OpenFile quiet_WriteString quiet_Chdir quiet_Chmod quiet_Rename
  quiet_Pipe quiet_Start : quiet.

(** One step through the text of an action. *)
Ltac quiet_step :=
  lazymatch goal with
  | |- quiet (bind _ _) => apply quiet_bind; [|intros ?]
  | |- quiet (match ?x with _ => _ end) => destruct x
  | |- quiet _ => solve [auto with quiet]
  end.

Ltac quiet_auto := cbv zeta; repeat quiet_step.

Lemma quiet_log_Print s : quiet (log_Print s).
Proof. unfold log_Print. quiet_auto. Qed.

Lemma quiet_writeLogEntry logFile message : quiet (writeLogEntry logFile message).
Proof. unfold writeLogEntry. quiet_auto. Qed.

#[export] Hint Resolve quiet_log_Print quiet_writeLogEntry : quiet.

Lemma quiet_logOutputLine logFile prefix line : quiet (logOutputLine logFile prefix line).
Proof. unfold logOutputLine. quiet_auto. Qed.

#[export] Hint Resolve quiet_logOutputLine : quiet.

Lemma quiet_forwardOutput logFile lines : quiet (forwardOutput logFile lines).
Proof.
  induction lines as [|[prefix line] rest IH]; cbn [forwardOutput]; [auto with quiet|].
  apply quiet_bind; [auto with quiet | intros _; exact IH].
Qed.

Lemma quiet_Join argv logFile : quiet (exec_Join argv logFile).
Proof.
  intros w. unfold exec_Join.
  destruct (quiet_forwardOutput logFile (forwarded (child w)) w)
    as (a & w1 & t1 & E1 & T1 & F1 & X1 & C1).
  rewrite E1. exists (wait_result (child w)), (emit (EWait argv) w1), (t1 ++ [EWait argv])%list.
  split; [reflexivity|]. world_simpl.
  split; [rewrite T1, app_assoc; reflexivity|].
  split; [|split; assumption].
  apply Forall_app. split; [exact F1|]. repeat constructor. intros p. discriminate.
Qed.

#[export] Hint Resolve quiet_Join : quiet.

Lemma quiet_makeScriptExecutable task logFile info :
  quiet (makeScriptExecutable task logFile info).
Proof. unfold makeScriptExecutable. quiet_auto. Qed.

Lemma quiet_runScript task logFile : quiet (runScript task logFile).
Proof. unfold runScript. quiet_auto. Qed.

Lemma quiet_openAndStat task : quiet (openAndStat task).
Proof. unfold openAndStat. quiet_auto. Qed.

#[export] Hint Resolve quiet_makeScriptExecutable quiet_runScript quiet_openAndStat : quiet.

Lemma quiet_ExecuteDeployment task : quiet (ExecuteDeployment task).
Proof. unfold ExecuteDeployment. quiet_auto. Qed.






Section Background.

Variable json_Unmarshal : string -> result DeploymentTask.


(** C9: when the task file cannot be read, or what is read is not a
    task, [internal-run] writes one line to the standard error stream and
    exits with status 1; the file system and the trace are as before, so
    the task file has not been deleted. *)
Theorem C9_unreadable_task_file_is_kept (taskFile : string) (w : World) (e : error) :
  taskFile <> "" ->
  fst (os.ReadFile taskFile w) = Ret (Err e)
  \/ (exists data, fst (os.ReadFile taskFile w) = Ret (Ok data)
                   /\ json_Unmarshal data = Err e) ->
  exists msg,
    handleInternalRun json_Unmarshal taskFile w
    = (Exited 1, with_stderr (app (stderr w) [msg]) w)
    /\ exit_status (fst (handleInternalRun json_Unmarshal taskFile w)) = 1
    /\ fs (snd (handleInternalRun json_Unmarshal taskFile w)) = fs w
    /\ trace (snd (handleInternalRun json_Unmarshal taskFile w)) = trace w
    /\ count_events (is_remove_of taskFile)
         (trace (snd (handleInternalRun json_Unmarshal taskFile w)))
       = count_events (is_remove_of taskFile) (trace w).
Proof.
  intros Hne Hbad.
  assert (Hw : forall r, fst (os.ReadFile taskFile w) = Ret r ->
                         os.ReadFile taskFile w = (Ret r, w)).
  { unfold os.ReadFile. destruct (fault w (SysRead taskFile)); [cbn; congruence|].
    destruct (fs w !! taskFile) as [[p c|p]|]; cbn; congruence. }
  assert (Hrun : exists msg,
             handleInternalRun json_Unmarshal taskFile w
             = (Exited 1, with_stderr (app (stderr w) [msg]) w)).
  { unfold handleInternalRun. rewrite (is_empty_false taskFile Hne).
    unfold bind at 1.
    destruct Hbad as [Hr|(data & Hr & Hp)]; rewrite (Hw _ Hr).
    - rewrite Eprint_exit. eexists. reflexivity.
    - rewrite Hp, Eprint_exit. eexists. reflexivity. }
  destruct Hrun as (msg & Hrun). exists msg. rewrite Hrun.
  repeat split; reflexivity.
Qed.

End Background.

Lemma C9_unreadable_task_file_witness :
  exists msg,
    Sample.internal_run "/tmp/deploy_task_7.json" Sample.w_ok
    = (Exited 1, with_stderr [msg] Sample.w_ok)
  /\ exists msg',
    Sample.internal_run "/srv/app/deploy.sh" Sample.w_ok
    = (Exited 1, with_stderr [msg'] Sample.w_ok).
Proof.
  destruct (C9_unreadable_task_file_is_kept Sample.Unmarshal
              "/tmp/deploy_task_7.json" Sample.w_ok
              (PathError "open" "/tmp/deploy_task_7.json" ENOENT))
    as (msg & H & _).
  { discriminate. }
  { left. vm_compute. reflexivity. }
  destruct (C9_unreadable_task_file_is_kept Sample.Unmarshal
              "/srv/app/deploy.sh" Sample.w_ok
              (OtherError "invalid character looking for beginning of value"))
    as (msg' & H' & _).
  { discriminate. }
  { right. exists "echo hello". split; vm_compute; reflexivity. }
  exists msg. split; [exact H|]. exists msg'. exact H'.
Defined.

(** ** The hand-over of the task file *)

Section Handoff.

Variable RFC3339Nano : Time -> string.
Variable json_encode : JSON -> string.
Variable json_Unmarshal : string -> result DeploymentTask.

(** What [encoding/json] writes for a task, it reads back as a task. *)
Hypothesis Unmarshal_Marshal : forall task data,
  json_Marshal RFC3339Nano json_encode task = Ok data ->
  exists task', json_Unmarshal data = Ok task'.


End Handoff.



(** ** The runner *)

Lemma modes_kept_refl w : modes_kept w w.
Proof. intros path n H. exists n. split; [exact H | reflexivity]. Qed.

Lemma modes_kept_trans w1 w2 w3 :
  modes_kept w1 w2 -> modes_kept w2 w3 -> modes_kept w1 w3.
Proof.
  intros H12 H23 path n H.
  destruct (H12 path n H) as (n2 & H2 & P2).
  destruct (H23 path n2 H2) as (n3 & H3 & P3).
  exists n3. split; [exact H3 | congruence].
Qed.

Lemma modes_kept_same_fs w w' : fs w' = fs w -> modes_kept w w'.
Proof. intros E path n H. exists n. rewrite E. split; [exact H | reflexivity]. Qed.

Lemma modes_kept_insert w w' path n n' :
  fs w !! path = Some n -> node_perm n' = node_perm n ->
  fs w' = <[path := n']> (fs w) -> modes_kept w w'.
Proof.
  intros Hn Hp E q m Hq. rewrite E.
  destruct (decide (path = q)) as [<-|Hne].
  - exists n'. rewrite lookup_insert_eq. split; [reflexivity | congruence].
  - exists m. rewrite lookup_insert_ne by exact Hne. split; [exact Hq | reflexivity].
Qed.

Lemma modes_kept_fresh w w' path n' :
  fs w !! path = None -> fs w' = <[path := n']> (fs w) -> modes_kept w w'.
Proof.
  intros Hn E q m Hq. rewrite E. exists m.
  rewrite lookup_insert_ne by congruence. split; [exact Hq | reflexivity].
Qed.

Create HintDb modes.

Lemma keeps_modes_ret {A} (a : A) : keeps_modes (ret a).
Proof. intros w r w' H. injection H as _ <-. apply modes_kept_refl. Qed.

Lemma keeps_modes_bind {A B} (m : M A) (k : A -> M B) :
  keeps_modes m -> (forall a, keeps_modes (k a)) -> keeps_modes (bind m k).
Proof.
  intros Hm Hk w r w'. unfold bind.
  destruct (m w) as [[a|c] w1] eqn:E1; intros H.
  - eapply modes_kept_trans; [exact (Hm _ _ _ E1) | exact (Hk a _ _ _ H)].
  - injection H as _ <-. exact (Hm _ _ _ E1).
Qed.

(** A primitive whose every branch leaves the file system alone. *)
Ltac modes_same :=
  let H := fresh in
  intros H; injection H as _ <-; apply modes_kept_same_fs; reflexivity.

Lemma keeps_modes_Now : keeps_modes Now.
Proof. intros w r w'. unfold Now. modes_same. Qed.

Lemma keeps_modes_Eprint s : keeps_modes (Eprint s).
Proof. intros w r w'. unfold Eprint. modes_same. Qed.

Lemma keeps_modes_Stat path : keeps_modes (os.Stat path).
Proof. intros w r w'. unfold os.Stat. modes_same. Qed.

Lemma keeps_modes_environ : keeps_modes (fun w => (Ret (environ w), w)).
Proof. intros w r w'. modes_same. Qed.

Lemma keeps_modes_Pipe stream : keeps_modes (exec_Pipe stream).
Proof.
  intros w r w'. unfold exec_Pipe. destruct (fault w (SysPipe stream)); modes_same.
Qed.

Lemma keeps_modes_Start argv dir env : keeps_modes (exec_Start argv dir env).
Proof.
  intros w r w'. unfold exec_Start. destruct (fault w (SysStart argv)); modes_same.
Qed.

Lemma keeps_modes_Chdir dir : keeps_modes (os.Chdir dir).
Proof.
  intros w r w'. unfold os.Chdir. destruct (fault w (SysChdir dir)); [modes_same|].
  destruct (fs w !! dir) as [[p c|p]|]; modes_same.
Qed.

Lemma keeps_modes_OpenFile path flag perm : keeps_modes (os.OpenFile path flag perm).
Proof.
  intros w r w'. unfold os.OpenFile.
  destruct (fault w (SysOpen path)); [modes_same|].
  destruct (fs w !! path) as [[p c|p]|] eqn:E; [destruct flag| |]; try modes_same.
  - intros H. injection H as _ <-.
    eapply modes_kept_insert; [exact E | |reflexivity]. reflexivity.
  - intros H. injection H as _ <-.
    eapply modes_kept_fresh; [exact E | reflexivity].
Qed.

Lemma keeps_modes_WriteString f s : keeps_modes (os.WriteString f s).
Proof.
  intros w r w'. unfold os.WriteString.
  destruct (fault w (SysWrite f)); [modes_same|].
  destruct (fs w !! f) as [[p c|p]|] eqn:E; try modes_same.
  intros H. injection H as _ <-.
  eapply modes_kept_insert; [exact E | |reflexivity]. reflexivity.
Qed.

#[export] Hint Resolve keeps_modes_ret keeps_modes_Now keeps_modes_Eprint
  keeps_modes_Stat keeps_modes_environ keeps_modes_Pipe keeps_modes_Start
  keeps_modes_Chdir keeps_modes_OpenFile keeps_modes_WriteString : modes.

Ltac modes_step :=
  lazymatch goal with
  | |- keeps_modes (bind _ _) => apply keeps_modes_bind; [|intros ?]
  | |- keeps_modes (match ?x with _ => _ end) => destruct x
  | |- keeps_modes _ => solve [auto with modes]
  end.

Ltac modes_auto := cbv zeta; repeat modes_step.

Lemma keeps_modes_log_Print s : keeps_modes (log_Print s).
Proof. unfold log_Print. modes_auto. Qed.

Lemma keeps_modes_writeLogEntry logFile message :
  keeps_modes (writeLogEntry logFile message).
Proof. unfold writeLogEntry. modes_auto. Qed.

#[export] Hint Resolve keeps_modes_log_Print keeps_modes_writeLogEntry : modes.

Lemma keeps_modes_logOutputLine logFile prefix line :
  keeps_modes (logOutputLine logFile prefix line).
Proof. unfold logOutputLine. modes_auto. Qed.

#[export] Hint Resolve keeps_modes_logOutputLine : modes.

Lemma keeps_modes_forwardOutput logFile lines :
  keeps_modes (forwardOutput logFile lines).
Proof.
  induction lines as [|[prefix line] rest IH]; cbn [forwardOutput]; [auto with modes|].
  apply keeps_modes_bind; [auto with modes | intros _; exact IH].
Qed.

Lemma keeps_modes_Join argv logFile : keeps_modes (exec_Join argv logFile).
Proof.
  intros w r w'. unfold exec_Join.
  destruct (forwardOutput logFile (forwarded (child w)) w) as [[a|c] w1] eqn:E;
    intros H; injection H as _ <-.
  - eapply modes_kept_trans; [exact (keeps_modes_forwardOutput _ _ _ _ _ E)|].
    apply modes_kept_same_fs. reflexivity.
  - exact (keeps_modes_forwardOutput _ _ _ _ _ E).
Qed.

#[export] Hint Resolve keeps_modes_Join : modes.

Lemma keeps_modes_runScript task logFile : keeps_modes (runScript task logFile).
Proof. unfold runScript. modes_auto. Qed.

Lemma keeps_modes_openAndStat task : keeps_modes (openAndStat task).
Proof. unfold openAndStat. modes_auto. Qed.

(** One quiet step of an action that is the left side of an equation; [a]
    names what the step returns. *)
Ltac step_in H a :=
  unfold bind at 1 in H;
  lazymatch type of H with
  | (match ?m ?w with _ => _ end) = _ =>
      let Q := fresh "Q" in
      assert (Q : quiet m) by (auto with quiet);
      let w' := fresh "w" in
      let E := fresh "E" in
      destruct (Q w) as (a & w' & _ & E & _); clear Q; rewrite E in H;
      cbv beta iota in H
  end.

(** When [openAndStat] hands over the script's info, that info is what
    [os.Stat] says of the script in the world it ends in. *)
Lemma openAndStat_info task w logFile info w1 :
  openAndStat task w = (Ret (inr (logFile, info)), w1) ->
  os.stat_of w1 (DeploymentScriptPath task) = Ok info.
Proof.
  unfold openAndStat. cbv zeta. intros H.
  step_in H opened. destruct opened as [lf|e].
  2:{ cbn in H. discriminate. }
  step_in H t0. step_in H u1. step_in H u2. step_in H u3. step_in H u4.
  step_in H moved. destruct moved as [e|].
  { step_in H u5. cbn in H. discriminate. }
  unfold bind at 1 in H. rewrite Stat_run in H.
  match type of H with
  | context [os.stat_of ?wc (DeploymentScriptPath task)] =>
      destruct (os.stat_of wc (DeploymentScriptPath task)) as [fi|e] eqn:Est
  end.
  2:{ step_in H u5. cbn in H. discriminate. }
  cbn in H. injection H as <- <- <-. exact Est.
Qed.

(** Unless a pipe or the start is refused, [runScript] starts
    [bash <script>] in the project directory. *)
Lemma runScript_starts task logFile w :
  fault w (SysPipe "STDOUT") = None ->
  fault w (SysPipe "STDERR") = None ->
  fault w (SysStart ["bash"; DeploymentScriptPath task]) = None ->
  In (EStart ["bash"; DeploymentScriptPath task] (ProjectPath task) (script_env task w))
     (trace (snd (runScript task logFile w))).
Proof.
  intros Ho He Hs. unfold runScript. cbv zeta.
  unfold bind at 1. unfold bind at 1. unfold exec_Pipe at 1. rewrite Ho.
  unfold bind at 1. unfold exec_Pipe at 1. rewrite He.
  unfold bind at 1. unfold exec_Start at 1. rewrite Hs.
  fold (script_env task w).
  set (w0 := emit (EStart ["bash"; DeploymentScriptPath task] (ProjectPath task)
                     (script_env task w)) w).
  set (rest := bind _ _).
  assert (Q : quiet rest) by (subst rest; quiet_auto).
  destruct (Q w0) as (a & w' & t & E & T & _). rewrite E. cbn [snd].
  rewrite T. subst w0. world_simpl.
  apply in_or_app. left. apply in_or_app. right. left. reflexivity.
Qed.

(** C8: between the [os.Stat] of the script and its execution.  When the
    mode has none of the three executable bits, the runner calls
    [os.Chmod(script, 0755)], a mode that has the owner's executable bit;
    when the call goes through the script has that mode, and when it is
    refused the runner writes the warning to the log.  Either way it goes
    on to run the script.  When the mode has an executable bit, nothing is
    done before the script is run, and during the whole of
    [ExecuteDeployment] no object changes its permission bits. *)
Theorem C8_script_made_executable
  (task : DeploymentTask) (w w1 : World) (logFile : string) (info : FileInfo) :
  let script := DeploymentScriptPath task in
  openAndStat task w = (Ret (inr (logFile, info)), w1) ->
  os.stat_of w1 script = Ok info
  /\ (Z.land (Mode info) 73 = 0 ->
      exists w2,
        ExecuteDeployment task w = runScript task logFile w2
        /\ fault w2 = fault w1
        /\ In (EChmod script 493) (trace w2)
        /\ Z.testbit 493 6 = true
        /\ (fault w1 (SysChmod script) = None ->
            exists n, fs w1 !! script = Some n
                      /\ fs w2 = <[script := os.set_perm 493 n]> (fs w1)
                      /\ trace w2 = (trace w1 ++ [EChmod script 493])%list)
        /\ (forall e, fault w1 (SysChmod script) = Some e ->
              w2 = snd (writeLogEntry logFile
                          ("[WARNING] Failed to make script executable: "
                           ++ Error (PathError "chmod" script e))
                          (emit (EChmod script 493) w1))
              /\ fs w2 !! script = fs (snd (os.WriteString logFile
                          ("[" ++ time.Format_log (clock w1 (ticks w1)) ++ "] "
                           ++ ("[WARNING] Failed to make script executable: "
                               ++ Error (PathError "chmod" script e)) ++ nl) w1)) !! script))
  /\ (Z.land (Mode info) 73 <> 0 ->
      ExecuteDeployment task w = runScript task logFile w1
      /\ modes_kept w (snd (ExecuteDeployment task w)))
  /\ (forall w2,
        fault w2 (SysPipe "STDOUT") = None ->
        fault w2 (SysPipe "STDERR") = None ->
        fault w2 (SysStart ["bash"; script]) = None ->
        In (EStart ["bash"; script] (ProjectPath task) (script_env task w2))
           (trace (snd (runScript task logFile w2)))).
Proof.
  cbv zeta. intros H.
  pose proof (openAndStat_info _ _ _ _ _ H) as Hst.
  assert (Hexec : ExecuteDeployment task w
                  = bind (makeScriptExecutable task logFile info)
                         (fun _ => runScript task logFile) w1).
  { unfold ExecuteDeployment. unfold bind at 1. rewrite H. reflexivity. }
  split; [exact Hst|]. split; [|split].
  - intros Hmode. rewrite Hexec. unfold bind at 1, makeScriptExecutable.
    rewrite (proj2 (Z.eqb_eq _ _) Hmode).
    unfold bind at 1. unfold os.Chmod. cbv zeta.
    destruct (fault w1 (SysChmod (DeploymentScriptPath task))) as [e|] eqn:Ef.
    + destruct (quiet_writeLogEntry logFile
                  ("[WARNING] Failed to make script executable: "
                   ++ Error (PathError "chmod" (DeploymentScriptPath task) e))
                  (emit (EChmod (DeploymentScriptPath task) 493) w1))
        as (u & w2 & t & E & T & _ & X & _).
      rewrite E. exists w2. split; [reflexivity|].
      split; [exact X|].
      split; [rewrite T; world_simpl; apply in_or_app; left; apply in_or_app; right;
              left; reflexivity|].
      split; [reflexivity|]. split; [discriminate|].
      intros e' He'. injection He' as <-. rewrite E. split; [reflexivity|].
      revert E. unfold writeLogEntry, bind, Now. world_simpl.
      destruct (os.WriteString logFile _ _) as [[a|c] w3] eqn:Ew;
        intros E; injection E as _ <-;
        revert Ew; unfold os.WriteString; world_simpl;
        destruct (fault w1 (SysWrite logFile));
        try destruct (fs w1 !! logFile) as [[p c'|p]|];
        intros Ew; injection Ew as _ <-; reflexivity.
    + unfold os.stat_of in Hst.
      destruct (fault w1 (SysStat (DeploymentScriptPath task))); [discriminate|].
      destruct (fs w1 !! DeploymentScriptPath task) as [n|] eqn:En; [|discriminate].
      eexists. split; [reflexivity|]. world_simpl.
      split; [reflexivity|].
      split; [apply in_or_app; right; left; reflexivity|].
      split; [reflexivity|]. split; [|discriminate].
      intros _. exists n. repeat split; reflexivity.
  - intros Hmode.
    assert (Hrun : ExecuteDeployment task w = runScript task logFile w1).
    { rewrite Hexec. unfold bind at 1, makeScriptExecutable.
      rewrite (proj2 (Z.eqb_neq _ _) Hmode). reflexivity. }
    split; [exact Hrun|]. rewrite Hrun.
    eapply modes_kept_trans; [exact (keeps_modes_openAndStat _ _ _ _ H)|].
    destruct (runScript task logFile w1) as [r wf] eqn:Er.
    exact (keeps_modes_runScript _ _ _ _ _ Er).
  - intros w2. apply runScript_starts.
Qed.

Lemma C8_script_made_executable_witness :
  exists w1 w2,
    openAndStat Sample.task0 Sample.w_chmod_refused
    = (Ret (inr ("/srv/app/logs/deployment.log", mkFileInfo 420 false)), w1)
    /\ Z.land (Mode (mkFileInfo 420 false)) 73 = 0
    /\ ExecuteDeployment Sample.task0 Sample.w_chmod_refused
       = runScript Sample.task0 "/srv/app/logs/deployment.log" w2
    /\ In (EChmod "/srv/app/deploy.sh" 493) (trace w2).
Proof.
  destruct (openAndStat Sample.task0 Sample.w_chmod_refused) as [r w1] eqn:H.
  assert (Hr : r = Ret (inr ("/srv/app/logs/deployment.log", mkFileInfo 420 false))).
  { change r with (fst (r, w1)). rewrite <- H. vm_compute. reflexivity. }
  subst r.
  destruct (C8_script_made_executable _ _ _ _ _ H) as (_ & Hchmod & _).
  destruct (Hchmod eq_refl) as (w2 & Hrun & _ & Hin & _).
  exists w1, w2. split; [reflexivity|]. split; [reflexivity|].
  split; [exact Hrun | exact Hin].
Defined.

(** The sample runs of the runner: a script of mode 0644 is given mode
    0755; when the change is refused, the warning is in the log and the
    script has run all the same. *)
Example ExecuteDeployment_sample_chmod :
  fs (snd (ExecuteDeployment Sample.task0 Sample.w_ok)) !! "/srv/app/deploy.sh"
  = Some (File 493 "echo hello")
  /\ fs (snd (ExecuteDeployment Sample.task0 Sample.w_chmod_refused)) !! "/srv/app/deploy.sh"
     = Some (File 420 "echo hello")
  /\ fst (ExecuteDeployment Sample.task0 Sample.w_chmod_refused) = Ret None.
Proof. repeat split; vm_compute; reflexivity. Qed.

(** ** The two readers *)

Lemma lines_of_app stream (a b : list (string * string)) :
  lines_of stream (a ++ b)%list = (lines_of stream a ++ lines_of stream b)%list.
Proof. unfold lines_of. rewrite List.filter_app, map_app. reflexivity. Qed.

Lemma lines_of_same stream (l : list string) :
  lines_of stream (map (pair stream) l) = l.
Proof.
  unfold lines_of. induction l as [|x l IH]; [reflexivity|].
  cbn [map List.filter fst]. rewrite String.eqb_refl. cbn [map snd].
  rewrite IH. reflexivity.
Qed.

Lemma lines_of_other stream stream' (l : list string) :
  stream' <> stream -> lines_of stream (map (pair stream') l) = [].
Proof.
  intros Hne. unfold lines_of. induction l as [|x l IH]; [reflexivity|].
  cbn [map List.filter fst]. rewrite (proj2 (String.eqb_neq _ _) Hne). exact IH.
Qed.

Lemma lines_of_cons stream stream' x (l : list (string * string)) :
  lines_of stream ((stream', x) :: l)
  = if String.eqb stream' stream then x :: lines_of stream l else lines_of stream l.
Proof.
  unfold lines_of. cbn [List.filter fst].
  destruct (String.eqb stream' stream); reflexivity.
Qed.

(** Whatever the schedule, the readers forward the lines of each stream
    under the name of that stream, each once and in the order in which the
    scanner yielded them. *)
Lemma interleave_keeps_streams sched : forall out err,
  lines_of "STDOUT" (interleave sched out err) = out
  /\ lines_of "STDERR" (interleave sched out err) = err
  /\ List.length (interleave sched out err) = (List.length out + List.length err)%nat.
Proof.
  induction sched as [|b sched IH]; intros out err.
  - cbn [interleave]. rewrite !lines_of_app, !lines_of_same.
    rewrite !lines_of_other by discriminate.
    rewrite length_app, !length_map, app_nil_r. auto.
  - destruct b; cbn [interleave].
    + destruct out as [|line out]; [apply IH|].
      destruct (IH out err) as (Ho & He & Hl).
      rewrite !lines_of_cons, String.eqb_refl.
      rewrite (proj2 (String.eqb_neq "STDOUT" "STDERR")) by discriminate.
      cbn [List.length]. rewrite Ho, He, Hl. auto.
    + destruct err as [|line err]; [apply IH|].
      destruct (IH out err) as (Ho & He & Hl).
      rewrite !lines_of_cons, String.eqb_refl.
      rewrite (proj2 (String.eqb_neq "STDERR" "STDOUT")) by discriminate.
      cbn [List.length]. rewrite Ho, He, Hl. split; [|split]; auto.
Qed.

(** One reader alone is [readAndLogOutput] on its lines. *)
Lemma forwardOutput_one_stream logFile prefix (lines : list string) :
  forwardOutput logFile (map (pair prefix) lines) = readAndLogOutput logFile prefix lines.
Proof.
  induction lines as [|line rest IH]; [reflexivity|].
  cbn [map forwardOutput readAndLogOutput]. rewrite IH. reflexivity.
Qed.

(** ** End to end *)

Example json_keys_of_the_two_structs :
  map json_key DeploymentTask_fields
  = ["ProjectPath"; "DeploymentScriptPath"; "LogPath"; "TaskID"; "CreatedAt"]
  /\ map json_key DeploymentRequest_fields
     = ["projectPath"; "deploymentScriptPath"; "logPath"].
Proof. split; reflexivity. Qed.

(** A deployment whose script prints to both streams and exits with status
    1, and one whose script succeeds: either way the background invocation
    returns, the log has been rotated, and the task file has been removed
    once and is gone. *)
Example end_to_end_failing_script :
  let run := bind (Sample.deploy "/srv/app" "/srv/app/deploy.sh" "/srv/app/logs")
                  (fun _ => Sample.internal_run "/tmp/deploy_task_0.json")
                  (Sample.world Sample.no_fault Sample.script_fails) in
  fst run = Ret tt
  /\ fs (snd run) !! "/tmp/deploy_task_0.json" = None
  /\ count_events (is_remove_of "/tmp/deploy_task_0.json") (trace (snd run)) = 1%nat
  /\ fs (snd run) !! "/srv/app/logs/deployment.log" = None
  /\ fs (snd run) !! "/srv/app/logs/deployment_20260106_120000.log" <> None.
Proof. cbv zeta. repeat split; vm_compute; congruence. Qed.

Example end_to_end_succeeding_script :
  let run := bind (Sample.deploy "/srv/app" "/srv/app/deploy.sh" "/srv/app/logs")
                  (fun _ => Sample.internal_run "/tmp/deploy_task_0.json")
                  Sample.w_ok in
  fst run = Ret tt
  /\ fs (snd run) !! "/tmp/deploy_task_0.json" = None
  /\ count_events (is_remove_of "/tmp/deploy_task_0.json") (trace (snd run)) = 1%nat
  /\ fs (snd run) !! "/srv/app/logs/deployment.log" = None
  /\ fs (snd run) !! "/srv/app/logs/deployment_20260106_120000.log" <> None.
Proof. cbv zeta. repeat split; vm_compute; congruence. Qed.

(** * Further properties *)

(** ** The command line *)

Lemma bind_ret {A B} (a : A) (k : A -> M B) w : bind (ret a) k w = k a w.
Proof. reflexivity. Qed.

Lemma Eprint_run msg w : Eprint msg w = (Ret tt, with_stderr (app (stderr w) [msg]) w).
Proof. reflexivity. Qed.

Lemma defaults_only_stderr (l : list flag.Flag) : forall w,
  exists w',
    fold_right (fun fl k => Eprint (flag.flag_default_text fl) ;; k) (ret tt) l w
    = (Ret tt, w')
    /\ fs w' = fs w /\ trace w' = trace w /\ stdout w' = stdout w.
Proof.
  induction l as [|fl l IH]; intros w.
  - exists w. repeat split; reflexivity.
  - cbn [fold_right]. unfold bind at 1. rewrite Eprint_run.
    destruct (IH (with_stderr (app (stderr w) [flag.flag_default_text fl]) w))
      as (w' & E & Hf & Ht & Ho).
    exists w'. split; [exact E|]. world_simpl. repeat split; assumption.
Qed.

(** Writing the usage text touches the standard error stream only. *)
Lemma usage_only_stderr f w :
  exists w',
    flag.usage f w = (Ret tt, w')
    /\ fs w' = fs w /\ trace w' = trace w /\ stdout w' = stdout w.
Proof.
  unfold flag.usage. unfold bind at 1. rewrite Eprint_run.
  destruct (defaults_only_stderr (flag.sortFlags (flag.formal f))
              (with_stderr (app (stderr w) ["Usage of " ++ flag.set_name f ++ ":" ++ nl]) w))
    as (w' & E & Hf & Ht & Ho).
  exists w'. split; [exact E|]. world_simpl. repeat split; assumption.
Qed.

(** [Parse] either returns the values in the world it was given, or ends
    the process with status 0 or 2 after writing to the standard error
    stream only. *)
Lemma parse_loop_outcome n : forall f values args w,
  exists r w',
    flag.parse_loop n f values args w = (r, w')
    /\ fs w' = fs w /\ trace w' = trace w /\ stdout w' = stdout w
    /\ ((exists v, r = Ret v /\ w' = w) \/ r = Exited 0 \/ r = Exited 2).
Proof.
  induction n as [|n IH]; intros f values args w; cbn [flag.parse_loop].
  - exists (Ret values), w. repeat split; try reflexivity. left. eauto.
  - destruct (flag.parseOne f values args) as [values' rest| | |msg].
    + apply IH.
    + exists (Ret values), w. repeat split; try reflexivity. left. eauto.
    + unfold bind. destruct (usage_only_stderr f w) as (w' & E & Hf & Ht & Ho).
      rewrite E. exists (Exited 0), w'. unfold os_Exit.
      split; [reflexivity|]. repeat split; try assumption. right. left. reflexivity.
    + unfold bind at 1. rewrite Eprint_run. unfold bind.
      destruct (usage_only_stderr f (with_stderr (app (stderr w) [msg ++ nl]) w))
        as (w' & E & Hf & Ht & Ho).
      rewrite E. exists (Exited 2), w'. unfold os_Exit.
      split; [reflexivity|]. world_simpl. repeat split; try assumption.
      right. right. reflexivity.
Qed.

Lemma Parse_taskFile f :
  flag.Parse internalCmd ["--taskFile"; f] = ret (<["taskFile" := f]> ∅).
Proof. reflexivity. Qed.

Lemma deploy_values p s l :
  let values : gmap string string :=
    <["logPath" := l]> (<["deployScript" := s]> (<["project" := p]> ∅)) in
  flag.value_of values "project" = p
  /\ flag.value_of values "deployScript" = s
  /\ flag.value_of values "logPath" = l.
Proof.
  cbv zeta. unfold flag.value_of.
  rewrite lookup_insert_eq.
  rewrite (lookup_insert_ne _ "logPath" "deployScript") by discriminate.
  rewrite lookup_insert_eq.
  rewrite (lookup_insert_ne _ "logPath" "project") by discriminate.
  rewrite (lookup_insert_ne _ "deployScript" "project") by discriminate.
  rewrite lookup_insert_eq. auto.
Qed.

Lemma Parse_deploy_separate p s l :
  flag.Parse deployCmd ["--project"; p; "--deployScript"; s; "--logPath"; l]
  = ret (<["logPath" := l]> (<["deployScript" := s]> (<["project" := p]> ∅))).
Proof. reflexivity. Qed.

Lemma Parse_deploy_joined p s l :
  flag.Parse deployCmd ["--project=" ++ p; "--deployScript=" ++ s; "--logPath=" ++ l]
  = ret (<["logPath" := l]> (<["deployScript" := s]> (<["project" := p]> ∅))).
Proof.
  unfold flag.Parse. rewrite !append_cons. reflexivity.
Qed.

Section CommandLine.

Variable RFC3339Nano : Time -> string.
Variable json_encode : JSON -> string.
Variable json_Unmarshal : string -> result DeploymentTask.

(** X1: the command line that [handleDeploy] hands to the background
    process, given to [main], is [handleInternalRun] on the task file named
    in it, whatever that name is (a name that starts with a dash is still
    taken as the value of the flag). *)
Theorem main_runs_the_spawned_command (w0 : World) (tmp : string) (exe : string) :
  main RFC3339Nano json_encode json_Unmarshal (spawn_argv w0 tmp)
  = handleInternalRun json_Unmarshal tmp
  /\ main RFC3339Nano json_encode json_Unmarshal [exe; "internal-run"; "--taskFile"; tmp]
     = handleInternalRun json_Unmarshal tmp.
Proof.
  assert (H : forall e,
             main RFC3339Nano json_encode json_Unmarshal
               [e; "internal-run"; "--taskFile"; tmp]
             = handleInternalRun json_Unmarshal tmp).
  { intros e. unfold main. cbn [String.eqb].
    change (String.eqb "internal-run" "deploy") with false.
    change (String.eqb "internal-run" "internal-run") with true. cbv iota.
    rewrite Parse_taskFile. unfold bind, ret, flag.value_of.
    rewrite lookup_insert_eq. reflexivity. }
  split; [apply H | apply H].
Qed.

(** X2: the two forms of the flags of [deploy], [--name=value] and
    [--name value], give [handleDeploy] the three values as they were
    written, whatever bytes they hold. *)
Theorem main_passes_the_deploy_flags (exe project script logs : string) :
  main RFC3339Nano json_encode json_Unmarshal
    [exe; "deploy"; "--project=" ++ project; "--deployScript=" ++ script;
     "--logPath=" ++ logs]
  = handleDeploy RFC3339Nano json_encode project script logs
  /\ main RFC3339Nano json_encode json_Unmarshal
       [exe; "deploy"; "--project"; project; "--deployScript"; script;
        "--logPath"; logs]
     = handleDeploy RFC3339Nano json_encode project script logs.
Proof.
  destruct (deploy_values project script logs) as (Hp & Hs & Hl). cbv zeta in *.
  split; unfold main;
    change (String.eqb "deploy" "deploy") with true; cbv iota.
  - rewrite Parse_deploy_joined. unfold bind, ret. rewrite Hp, Hs, Hl. reflexivity.
  - rewrite Parse_deploy_separate. unfold bind, ret. rewrite Hp, Hs, Hl. reflexivity.
Qed.

(** X3: with no command, or with a command that is neither [deploy] nor
    [internal-run], [main] prints one line on the standard output and exits
    with status 1; nothing else in the world changes. *)
Theorem main_rejects_other_commands (args : list string) (w : World) :
  (List.length args < 2)%nat
  \/ (exists exe command rest,
        args = exe :: command :: rest
        /\ command <> "deploy" /\ command <> "internal-run") ->
  exists msg,
    main RFC3339Nano json_encode json_Unmarshal args w
    = (Exited 1, with_stdout (app (stdout w) [msg ++ nl]) w)
    /\ ((List.length args < 2)%nat ->
        msg = "Usage: deploygo deploy --project={path} --deployScript={path} --logPath={path}")
    /\ (forall exe command rest, args = exe :: command :: rest ->
        msg = "Unknown command: " ++ command).
Proof.
  intros [Hlen|(exe & command & rest & -> & Hd & Hi)].
  - destruct args as [|a [|b args]]; cbn in Hlen; try lia.
    + eexists. split; [reflexivity|]. split; [reflexivity | discriminate].
    + eexists. split; [reflexivity|]. split; [reflexivity | discriminate].
  - exists ("Unknown command: " ++ command).
    split; [|split].
    + unfold main.
      apply String.eqb_neq in Hd, Hi. rewrite Hd, Hi.
      rewrite Print_exit, <- append_assoc. reflexivity.
    + cbn. lia.
    + intros e c r H. injection H as _ <- _. reflexivity.
Qed.

(** X4: exit status 2 of [deploygo deploy] is a flag error and nothing
    else: when [main] ends with it, neither the file system nor the trace
    nor the standard output has changed, so nothing was validated, written
    or started. *)
Theorem main_exit_2_is_a_flag_error (exe : string) (rest : list string) (w : World) :
  fst (main RFC3339Nano json_encode json_Unmarshal (exe :: "deploy" :: rest) w) = Exited 2 ->
  let w' := snd (main RFC3339Nano json_encode json_Unmarshal (exe :: "deploy" :: rest) w) in
  fs w' = fs w /\ trace w' = trace w /\ stdout w' = stdout w
  /\ fst (flag.Parse deployCmd rest w) = Exited 2.
Proof.
  cbv zeta. unfold main.
  change (String.eqb "deploy" "deploy") with true. cbv iota.
  unfold bind, flag.Parse.
  destruct (parse_loop_outcome (S (List.length rest)) deployCmd ∅ rest w)
    as (r & w1 & E & Hf & Ht & Ho & Hr).
  rewrite E. destruct Hr as [(v & -> & ->)|[-> | ->]].
  - destruct (handleDeploy RFC3339Nano json_encode _ _ _ w) as [r2 w2] eqn:Hd.
    cbn [fst snd]. intros ->.
    apply handleDeploy_cases in Hd as (_ & _ & _ & [(C & _)|(C & _)]); discriminate.
  - cbn [fst]. discriminate.
  - cbn [fst snd]. intros _. repeat split; try assumption; reflexivity.
Qed.

End CommandLine.

Lemma main_rejects_other_commands_witness :
  exists msg,
    Scenario.main ["deploygo"; "rollback"; "--project=/srv/app"] Sample.w_ok
    = (Exited 1, with_stdout [msg ++ nl] Sample.w_ok)
    /\ msg = "Unknown command: rollback".
Proof.
  destruct (main_rejects_other_commands time.Format_log Sample.encode Sample.Unmarshal
              ["deploygo"; "rollback"; "--project=/srv/app"] Sample.w_ok)
    as (msg & Hrun & _ & Hmsg).
  { right. exists "deploygo", "rollback", ["--project=/srv/app"].
    split; [reflexivity|]. split; discriminate. }
  exists msg. split; [exact Hrun|]. exact (Hmsg _ _ _ eq_refl).
Defined.

Lemma main_exit_2_witness :
  fst (Scenario.main ["deploygo"; "deploy"; "--projct=/srv/app"] Sample.w_ok) = Exited 2
  /\ fs (snd (Scenario.main ["deploygo"; "deploy"; "--projct=/srv/app"] Sample.w_ok))
     = fs Sample.w_ok.
Proof.
  assert (H : fst (Scenario.main ["deploygo"; "deploy"; "--projct=/srv/app"] Sample.w_ok)
              = Exited 2) by (vm_compute; reflexivity).
  split; [exact H|].
  exact (proj1 (main_exit_2_is_a_flag_error time.Format_log Sample.encode Sample.Unmarshal
                  "deploygo" ["--projct=/srv/app"] Sample.w_ok H)).
Defined.

(** ** Task identifiers *)

Lemma digit_value_nth (k : nat) :
  (k < 10)%nat -> digit_value (nth k Str.decimal_digits "0"%char) = N.of_nat k.
Proof.
  intros Hk. do 10 (destruct k as [|k]; [reflexivity|]). lia.
Qed.

Lemma digit_value_digit n : digit_value (Str.digit n) = (n mod 10)%N.
Proof.
  unfold Str.digit.
  assert (H : (n mod 10 < 10)%N) by (apply N.mod_lt; discriminate).
  rewrite digit_value_nth by lia. apply N2Nat.id.
Qed.

Lemma decimal_value_digits_go fuel : forall n acc,
  (n < 10 ^ N.of_nat fuel)%N ->
  decimal_value (Str.digits_go fuel n acc)
  = (n * 10 ^ N.of_nat (String.length acc) + decimal_value acc)%N.
Proof.
  induction fuel as [|f IH]; intros n acc Hn.
  - cbn [Str.digits_go]. change (10 ^ N.of_nat 0)%N with 1%N in Hn.
    assert (n = 0%N) as -> by lia. reflexivity.
  - cbn [Str.digits_go]. destruct (N.ltb_spec n 10) as [Hlt|Hge].
    + cbn [decimal_value]. rewrite digit_value_digit, N.mod_small by exact Hlt.
      reflexivity.
    + rewrite IH.
      * cbn [decimal_value String.length]. rewrite digit_value_digit.
        rewrite Nat2N.inj_succ, N.pow_succ_r'.
        pose proof (N.div_mod n 10 ltac:(discriminate)) as Hdm.
        set (q := (n / 10)%N) in *. set (m := (n mod 10)%N) in *.
        set (P := (10 ^ N.of_nat (String.length acc))%N).
        clearbody q m P. rewrite Hdm. ring.
      * apply N.Div0.div_lt_upper_bound.
        rewrite Nat2N.inj_succ, N.pow_succ_r' in Hn. exact Hn.
Qed.

Lemma pos_lt_pow_size p : (N.pos p < 2 ^ N.of_nat (Pos.size_nat p))%N.
Proof.
  induction p as [p IH|p IH|]; cbn [Pos.size_nat].
  - rewrite Nat2N.inj_succ, N.pow_succ_r'. lia.
  - rewrite Nat2N.inj_succ, N.pow_succ_r'. lia.
  - reflexivity.
Qed.

Lemma itoa_fuel_enough n : (n < 10 ^ N.of_nat (S (N.size_nat n)))%N.
Proof.
  rewrite Nat2N.inj_succ, N.pow_succ_r'.
  assert (H : (n < 10 ^ N.of_nat (N.size_nat n) \/ n = 0)%N).
  { destruct n as [|p]; [right; reflexivity|]. left. cbn [N.size_nat].
    eapply N.lt_le_trans; [apply pos_lt_pow_size|].
    apply N.pow_le_mono_l. lia. }
  pose proof (N.pow_nonzero 10 (N.of_nat (N.size_nat n)) ltac:(discriminate)).
  lia.
Qed.

(** Reading the decimal digits that [itoa] writes gives the number back. *)
Lemma decimal_value_itoa n : decimal_value (Str.itoa n) = n.
Proof.
  unfold Str.itoa. rewrite decimal_value_digits_go by apply itoa_fuel_enough.
  cbn. lia.
Qed.

Lemma itoa_starts_with_digit n : exists k r, Str.itoa n = String (Str.digit k) r.
Proof.
  unfold Str.itoa. generalize (N.size_nat n) as f. intros f.
  generalize (EmptyString) as acc. revert n.
  induction f as [|f IH]; intros n acc; cbn [Str.digits_go].
  - destruct (n <? 10)%N; eauto.
  - destruct (n <? 10)%N; [eauto|]. apply IH.
Qed.

Lemma digit_not_minus k : Str.digit k <> "-"%char.
Proof.
  unfold Str.digit. generalize (N.to_nat (k mod 10)%N) as i. intros i.
  do 10 (destruct i as [|i]; [discriminate|]). destruct i; discriminate.
Qed.

Lemma itoaZ_inj a b : Str.itoaZ a = Str.itoaZ b -> a = b.
Proof.
  unfold Str.itoaZ.
  destruct (Z.ltb_spec a 0) as [Ha|Ha], (Z.ltb_spec b 0) as [Hb|Hb]; intros H.
  - rewrite !append_cons, !append_empty_l in H. injection H as H.
    apply (f_equal decimal_value) in H. rewrite !decimal_value_itoa in H. lia.
  - exfalso. destruct (itoa_starts_with_digit (Z.to_N b)) as (k & r & E).
    rewrite E, append_cons in H. injection H as H _.
    exact (digit_not_minus k (eq_sym H)).
  - exfalso. destruct (itoa_starts_with_digit (Z.to_N a)) as (k & r & E).
    rewrite E, append_cons in H. injection H as H _.
    exact (digit_not_minus k H).
  - apply (f_equal decimal_value) in H. rewrite !decimal_value_itoa in H. lia.
Qed.

(** ** What the foreground invocation leaves behind *)

Lemma insert_fresh_keeps (m : gmap string Node) k v path n :
  m !! k = None -> m !! path = Some n -> <[k := v]> m !! path = Some n.
Proof.
  intros Hk Hp. rewrite lookup_insert_ne; [exact Hp|]. intros ->. congruence.
Qed.

(** A branch of [handleDeploy] that ends after the events [t], in a file
    system that is the old one or the old one with the task file added. *)
Ltac deploy_leaves t :=
  exists t; split;
  [first [reflexivity | symmetry; apply app_nil_r | rewrite <- !app_assoc; reflexivity]|];
  split;
  [intros ? ? ?; first [assumption | apply insert_fresh_keeps; assumption]|];
  cbn [In]; intros ? Hin;
  repeat (destruct Hin as [Hin|Hin]; [try discriminate|]);
  first [ contradiction
        | injection Hin as <-; split; [assumption | rewrite lookup_insert_eq; eauto] ].

Section Leftovers.

Variable RFC3339Nano : Time -> string.
Variable json_encode : JSON -> string.

(** X5: [handleDeploy] never changes or removes what exists: every object
    of the file system is afterwards what it was before.  The only thing it
    adds is the task file, under a name that was free, and once created the
    file is there when [handleDeploy] ends, also when that is with status 1
    (a refused write or start, a task that cannot be serialized): nothing
    removes it then. *)
Theorem handleDeploy_leaves_files_alone
  (project script logs : string) (w : World) :
  let run := handleDeploy RFC3339Nano json_encode project script logs w in
  exists t,
    trace (snd run) = (trace w ++ t)%list
    /\ (forall path n, fs w !! path = Some n -> fs (snd run) !! path = Some n)
    /\ (forall path, In (ECreate path) t ->
          fs w !! path = None
          /\ exists content, fs (snd run) !! path = Some (File 384 content)).
Proof.
  cbv zeta.
  destruct (handleDeploy RFC3339Nano json_encode project script logs w) as [r w'] eqn:H.
  cbn [snd]. revert H. unfold handleDeploy.
  destruct (Str.is_empty project || Str.is_empty script || Str.is_empty logs).
  { rewrite Print_exit. intros H. injection H as <- <-. world_simpl. deploy_leaves (@nil Event). }
  unfold bind at 1. rewrite ValidatePaths_spec.
  destruct (spec_first_failure w project script logs) as [e|].
  { rewrite Print_exit. intros H. injection H as <- <-. world_simpl. deploy_leaves (@nil Event). }
  unfold bind at 1. unfold Now at 1. unfold bind at 1. unfold Now at 1.
  unfold bind at 1.
  destruct (os.CreateTemp _ _ _) as [rt wt] eqn:Et.
  apply CreateTemp_spec in Et as [(e & -> & ->)|(k & Hft & -> & Hfresh & ->)].
  { rewrite Print_exit. intros H. injection H as <- <-. world_simpl. deploy_leaves (@nil Event). }
  world_simpl. fold (task_file_name w k) in *.
  set (tmp := task_file_name w k) in *.
  fold (new_task project script logs w).
  unfold json_Marshal.
  destruct (task_to_json RFC3339Nano (new_task project script logs w)) as [j|e].
  2:{ rewrite Print_exit. intros H. injection H as <- <-. world_simpl.
      deploy_leaves [ECreate tmp]. }
  unfold bind at 1. unfold os.WriteString at 1. world_simpl.
  destruct (fault w (SysWrite tmp)) as [e|].
  { rewrite Print_exit. intros H. injection H as <- <-. world_simpl. deploy_leaves [ECreate tmp]. }
  rewrite lookup_insert_eq. rewrite insert_insert_eq, append_empty_l.
  unfold bind at 1. unfold os.Executable at 1. world_simpl.
  destruct (fault w SysExecutable) as [e|].
  { rewrite Print_exit. intros H. injection H as <- <-. world_simpl.
    deploy_leaves [ECreate tmp; EAppend tmp]. }
  unfold bind at 1. unfold exec_Start at 1. world_simpl.
  destruct (fault w (SysStart _)) as [e|].
  { rewrite Print_exit. intros H. injection H as <- <-. world_simpl.
    deploy_leaves [ECreate tmp; EAppend tmp]. }
  rewrite Print_run. intros H. injection H as <- <-. world_simpl.
  deploy_leaves [ECreate tmp; EAppend tmp;
                 EStart [executable w; "internal-run"; "--taskFile"; tmp] "" []].
Qed.

(** X6: two [deploy] invocations in a row that both succeed have two
    different task files, each started process is given its own, and the
    second invocation leaves the first one's file as it is. *)
Theorem successive_deploys_own_their_task_files
  (p1 s1 l1 p2 s2 l2 : string) (w w1 w2 : World) :
  handleDeploy RFC3339Nano json_encode p1 s1 l1 w = (Ret tt, w1) ->
  handleDeploy RFC3339Nano json_encode p2 s2 l2 w1 = (Ret tt, w2) ->
  exists tmp1 tmp2 data1 data2,
    tmp1 <> tmp2
    /\ fs w1 !! tmp1 = Some (File 384 data1)
    /\ fs w2 !! tmp1 = Some (File 384 data1)
    /\ fs w2 !! tmp2 = Some (File 384 data2)
    /\ In (EStart (spawn_argv w tmp1) "" []) (trace w2)
    /\ In (EStart (spawn_argv w1 tmp2) "" []) (trace w2).
Proof.
  intros H1 H2.
  apply handleDeploy_cases in H1 as (_ & _ & _ & H1).
  destruct H1 as [(C & _)|(_ & _ & _ & _ & _ & _ & _ & k1 & j1 & R1)]; [discriminate|].
  apply handleDeploy_cases in H2 as (_ & _ & _ & H2).
  destruct H2 as [(C & _)|(_ & _ & _ & _ & _ & _ & _ & k2 & j2 & R2)]; [discriminate|].
  cbv zeta in R1, R2.
  destruct R1 as (F1 & _ & _ & _ & Hfs1 & Htr1 & _).
  destruct R2 as (F2 & _ & _ & _ & Hfs2 & Htr2 & _).
  exists (task_file_name w k1), (task_file_name w1 k2), (json_encode j1), (json_encode j2).
  assert (Hin1 : fs w1 !! task_file_name w k1 = Some (File 384 (json_encode j1)))
    by (rewrite Hfs1; apply lookup_insert_eq).
  assert (Hne : task_file_name w k1 <> task_file_name w1 k2) by congruence.
  split; [exact Hne|]. split; [exact Hin1|].
  split; [rewrite Hfs2, lookup_insert_ne by congruence; exact Hin1|].
  split; [rewrite Hfs2; apply lookup_insert_eq|].
  rewrite Htr2, Htr1. split.
  - apply in_or_app. left. apply in_or_app. right. cbn. auto.
  - apply in_or_app. right. cbn. auto.
Qed.

(** X7: the identifier in the confirmation line is the decimal text of
    the nanosecond reading of the clock at the first [time.Now()], and that
    text determines the reading: two tasks have the same identifier only
    when their readings are the same. *)
Theorem task_id_is_the_clock_reading
  (project script logs : string) (w w1 : World) :
  handleDeploy RFC3339Nano json_encode project script logs w = (Ret tt, w1) ->
  let reading := unixNano (clock w (ticks w)) in
  stdout w1 = app (stdout w)
                ["Deployment started in background for task " ++ Str.itoaZ reading ++ nl]
  /\ (forall z, Str.itoaZ z = Str.itoaZ reading -> z = reading)
  /\ (0 <= reading -> decimal_value (Str.itoaZ reading) = Z.to_N reading).
Proof.
  intros H. cbv zeta.
  apply handleDeploy_cases in H as (_ & _ & _ & H).
  destruct H as [(C & _)|(_ & _ & _ & _ & _ & _ & _ & k & j & R)]; [discriminate|].
  cbv zeta in R. destruct R as (_ & _ & _ & _ & _ & _ & Hout).
  split; [exact Hout|]. split; [intros z; apply itoaZ_inj|].
  intros Hz. unfold Str.itoaZ.
  destruct (Z.ltb_spec (unixNano (clock w (ticks w))) 0); [lia|].
  apply decimal_value_itoa.
Qed.

End Leftovers.

Lemma handleDeploy_leaves_task_file_on_failure :
  let run := Sample.deploy "/srv/app" "/srv/app/deploy.sh" "/srv/app/logs"
               Scenario.w_start_refused in
  fst run = Exited 1
  /\ exists t,
       trace (snd run) = t
       /\ In (ECreate "/tmp/deploy_task_0.json") t
       /\ exists content, fs (snd run) !! "/tmp/deploy_task_0.json" = Some (File 384 content).
Proof.
  cbv zeta. split; [vm_compute; reflexivity|].
  destruct (handleDeploy_leaves_files_alone time.Format_log Sample.encode
              "/srv/app" "/srv/app/deploy.sh" "/srv/app/logs" Scenario.w_start_refused)
    as (t & Ht & _ & Hc).
  cbv zeta in *. eexists. split; [reflexivity|].
  assert (Hin : In (ECreate "/tmp/deploy_task_0.json") t).
  { assert (Htr : trace (snd (Sample.deploy "/srv/app" "/srv/app/deploy.sh" "/srv/app/logs"
                                 Scenario.w_start_refused))
                  = [ECreate "/tmp/deploy_task_0.json"; EAppend "/tmp/deploy_task_0.json"])
      by (vm_compute; reflexivity).
    unfold Sample.deploy in Htr. rewrite Htr in Ht. cbn in Ht. subst t. left. reflexivity. }
  split.
  - unfold Sample.deploy. rewrite Ht. exact Hin.
  - exact (proj2 (Hc _ Hin)).
Defined.

Lemma successive_deploys_witness :
  exists w1 w2 tmp1 tmp2,
    Sample.deploy "/srv/app" "/srv/app/deploy.sh" "/srv/app/logs" Sample.w_ok = (Ret tt, w1)
    /\ Sample.deploy "/srv/app" "/srv/app/deploy.sh" "/srv/app/logs" w1 = (Ret tt, w2)
    /\ tmp1 <> tmp2
    /\ is_Some (fs w2 !! tmp1) /\ is_Some (fs w2 !! tmp2).
Proof.
  destruct (Sample.deploy "/srv/app" "/srv/app/deploy.sh" "/srv/app/logs" Sample.w_ok)
    as [r1 w1] eqn:H1.
  assert (Hr1 : r1 = Ret tt).
  { change r1 with (fst (r1, w1)). rewrite <- H1. vm_compute. reflexivity. }
  subst r1.
  destruct (Sample.deploy "/srv/app" "/srv/app/deploy.sh" "/srv/app/logs" w1)
    as [r2 w2] eqn:H2.
  assert (Hr2 : r2 = Ret tt).
  { change r2 with (fst (r2, w2)). rewrite <- H2.
    change w1 with (snd (Ret tt : Res unit, w1)). rewrite <- H1.
    vm_compute. reflexivity. }
  subst r2.
  destruct (successive_deploys_own_their_task_files time.Format_log Sample.encode
              _ _ _ _ _ _ _ _ _ H1 H2)
    as (tmp1 & tmp2 & d1 & d2 & Hne & _ & Hf1 & Hf2 & _).
  exists w1, w2, tmp1, tmp2. repeat split; eauto.
Defined.

Lemma task_id_witness :
  exists w1,
    Sample.deploy "/srv/app" "/srv/app/deploy.sh" "/srv/app/logs" Sample.w_ok = (Ret tt, w1)
    /\ stdout w1
       = ["Deployment started in background for task 1767657600000000000" ++ nl].
Proof.
  destruct (Sample.deploy "/srv/app" "/srv/app/deploy.sh" "/srv/app/logs" Sample.w_ok)
    as [r1 w1] eqn:H1.
  assert (Hr1 : r1 = Ret tt).
  { change r1 with (fst (r1, w1)). rewrite <- H1. vm_compute. reflexivity. }
  subst r1. exists w1. split; [reflexivity|].
  destruct (task_id_is_the_clock_reading time.Format_log Sample.encode _ _ _ _ _ H1)
    as (Hout & _).
  rewrite Hout. vm_compute. reflexivity.
Defined.

(** ** The log of a task *)

Lemma append_empty_r (s : string) : s ++ "" = s.
Proof. induction s as [|c s IH]; [reflexivity|]. rewrite append_cons, IH. reflexivity. Qed.

Lemma content_grows_refl w : content_grows w w.
Proof. intros path p c H. exists p, "". rewrite append_empty_r. exact H. Qed.

Lemma content_grows_trans w1 w2 w3 :
  content_grows w1 w2 -> content_grows w2 w3 -> content_grows w1 w3.
Proof.
  intros H12 H23 path p c H.
  destruct (H12 path p c H) as (p2 & c2 & H2).
  destruct (H23 path p2 _ H2) as (p3 & c3 & H3).
  exists p3, (c2 ++ c3). rewrite <- append_assoc. exact H3.
Qed.

Lemma content_grows_same_fs w w' : fs w' = fs w -> content_grows w w'.
Proof.
  intros E path p c H. exists p, "". rewrite E, append_empty_r. exact H.
Qed.

Lemma content_grows_append w w' f p c s :
  fs w !! f = Some (File p c) -> fs w' = <[f := File p (c ++ s)]> (fs w) ->
  content_grows w w'.
Proof.
  intros Hf E path q d Hq. rewrite E.
  destruct (decide (f = path)) as [<-|Hne].
  - rewrite lookup_insert_eq. rewrite Hf in Hq. injection Hq as <- <-. eauto.
  - rewrite lookup_insert_ne by exact Hne. exists q, "". rewrite append_empty_r. exact Hq.
Qed.

Lemma content_grows_fresh w w' f n :
  fs w !! f = None -> fs w' = <[f := n]> (fs w) -> content_grows w w'.
Proof.
  intros Hf E path q d Hq. rewrite E.
  rewrite lookup_insert_ne by congruence. exists q, "". rewrite append_empty_r. exact Hq.
Qed.

Lemma content_grows_chmod w w' f n perm :
  fs w !! f = Some n -> fs w' = <[f := os.set_perm perm n]> (fs w) ->
  content_grows w w'.
Proof.
  intros Hf E path q d Hq. rewrite E.
  destruct (decide (f = path)) as [<-|Hne].
  - rewrite lookup_insert_eq. rewrite Hf in Hq. injection Hq as ->.
    exists perm, "". rewrite append_empty_r. reflexivity.
  - rewrite lookup_insert_ne by exact Hne. exists q, "". rewrite append_empty_r. exact Hq.
Qed.

Create HintDb appends.

Lemma appends_only_ret {A} (a : A) : appends_only (ret a).
Proof. intros w r w' H. injection H as _ <-. apply content_grows_refl. Qed.

Lemma appends_only_bind {A B} (m : M A) (k : A -> M B) :
  appends_only m -> (forall a, appends_only (k a)) -> appends_only (bind m k).
Proof.
  intros Hm Hk w r w'. unfold bind.
  destruct (m w) as [[a|c] w1] eqn:E1; intros H.
  - eapply content_grows_trans; [exact (Hm _ _ _ E1) | exact (Hk a _ _ _ H)].
  - injection H as _ <-. exact (Hm _ _ _ E1).
Qed.

Ltac appends_same :=
  let H := fresh in
  intros H; injection H as _ <-; apply content_grows_same_fs; reflexivity.

Lemma appends_only_Now : appends_only Now.
Proof. intros w r w'. unfold Now. appends_same. Qed.

Lemma appends_only_Eprint s : appends_only (Eprint s).
Proof. intros w r w'. unfold Eprint. appends_same. Qed.

Lemma appends_only_Stat path : appends_only (os.Stat path).
Proof. intros w r w'. unfold os.Stat. appends_same. Qed.

Lemma appends_only_environ : appends_only (fun w => (Ret (environ w), w)).
Proof. intros w r w'. appends_same. Qed.

Lemma appends_only_Pipe stream : appends_only (exec_Pipe stream).
Proof.
  intros w r w'. unfold exec_Pipe. destruct (fault w (SysPipe stream)); appends_same.
Qed.

Lemma appends_only_Start argv dir env : appends_only (exec_Start argv dir env).
Proof.
  intros w r w'. unfold exec_Start. destruct (fault w (SysStart argv)); appends_same.
Qed.

Lemma appends_only_Chdir dir : appends_only (os.Chdir dir).
Proof.
  intros w r w'. unfold os.Chdir. destruct (fault w (SysChdir dir)); [appends_same|].
  destruct (fs w !! dir) as [[p c|p]|]; appends_same.
Qed.

Lemma appends_only_Chmod name perm : appends_only (os.Chmod name perm).
Proof.
  intros w r w'. unfold os.Chmod. cbv zeta.
  destruct (fault w (SysChmod name)); [appends_same|].
  destruct (fs w !! name) as [n|] eqn:E; [|appends_same].
  intros H. injection H as _ <-.
  eapply content_grows_chmod; [exact E | reflexivity].
Qed.

(** Opening for appending keeps what a file holds. *)
Lemma appends_only_OpenFile_append path perm :
  appends_only (os.OpenFile path os.O_APPEND perm).
Proof.
  intros w r w'. unfold os.OpenFile.
  destruct (fault w (SysOpen path)); [appends_same|].
  destruct (fs w !! path) as [[p c|p]|] eqn:E; try appends_same.
  intros H. injection H as _ <-.
  eapply content_grows_fresh; [exact E | reflexivity].
Qed.

Lemma appends_only_WriteString f s : appends_only (os.WriteString f s).
Proof.
  intros w r w'. unfold os.WriteString.
  destruct (fault w (SysWrite f)); [appends_same|].
  destruct (fs w !! f) as [[p c|p]|] eqn:E; try appends_same.
  intros H. injection H as _ <-.
  eapply content_grows_append; [exact E | reflexivity].
Qed.

#[export] Hint Resolve appends_only_ret appends_only_Now appends_only_Eprint
  appends_only_Stat appends_only_environ appends_only_Pipe appends_only_Start
  appends_only_Chdir appends_only_Chmod appends_only_OpenFile_append
  appends_only_WriteString : appends.

Ltac appends_step :=
  lazymatch goal with
  | |- appends_only (bind _ _) => apply appends_only_bind; [|intros ?]
  | |- appends_only (match ?x with _ => _ end) => destruct x
  | |- appends_only _ => solve [auto with appends]
  end.

Ltac appends_auto := cbv zeta; repeat appends_step.

Lemma appends_only_log_Print s : appends_only (log_Print s).
Proof. unfold log_Print. appends_auto. Qed.

Lemma appends_only_writeLogEntry logFile message :
  appends_only (writeLogEntry logFile message).
Proof. unfold writeLogEntry. appends_auto. Qed.

#[export] Hint Resolve appends_only_log_Print appends_only_writeLogEntry : appends.

Lemma appends_only_logOutputLine logFile prefix line :
  appends_only (logOutputLine logFile prefix line).
Proof. unfold logOutputLine. appends_auto. Qed.

#[export] Hint Resolve appends_only_logOutputLine : appends.

Lemma appends_only_forwardOutput logFile lines :
  appends_only (forwardOutput logFile lines).
Proof.
  induction lines as [|[prefix line] rest IH]; cbn [forwardOutput]; [auto with appends|].
  apply appends_only_bind; [auto with appends | intros _; exact IH].
Qed.

Lemma appends_only_Join argv logFile : appends_only (exec_Join argv logFile).
Proof.
  intros w r w'. unfold exec_Join.
  destruct (forwardOutput logFile (forwarded (child w)) w) as [[a|c] w1] eqn:E;
    intros H; injection H as _ <-.
  - eapply content_grows_trans; [exact (appends_only_forwardOutput _ _ _ _ _ E)|].
    apply content_grows_same_fs. reflexivity.
  - exact (appends_only_forwardOutput _ _ _ _ _ E).
Qed.

#[export] Hint Resolve appends_only_Join : appends.

Lemma appends_only_makeScriptExecutable task logFile info :
  appends_only (makeScriptExecutable task logFile info).
Proof. unfold makeScriptExecutable. appends_auto. Qed.

Lemma appends_only_runScript task logFile : appends_only (runScript task logFile).
Proof. unfold runScript. appends_auto. Qed.

Lemma appends_only_WriteLog logPath message : appends_only (WriteLog logPath message).
Proof. unfold WriteLog. appends_auto. Qed.

#[export] Hint Resolve appends_only_makeScriptExecutable appends_only_runScript
  appends_only_WriteLog : appends.

Lemma with_fs_twice f g w : with_fs f (with_fs g w) = with_fs f w.
Proof. reflexivity. Qed.

(** Opening with [O_TRUNC]: a file keeps its mode and loses its content, a
    missing file is created empty. *)
Lemma OpenFile_trunc_run log perm w :
  fault w (SysOpen log) = None ->
  (forall p, fs w !! log <> Some (Dir p)) ->
  exists p0 ev,
    os.OpenFile log os.O_TRUNC perm w
    = (Ret (Ok log), emit ev (with_fs (<[log := File p0 ""]> (fs w)) w)).
Proof.
  intros Hf Hd. unfold os.OpenFile. rewrite Hf.
  destruct (fs w !! log) as [[p c|p]|] eqn:E.
  - exists p, (ETruncate log). reflexivity.
  - exfalso. exact (Hd p eq_refl).
  - exists perm, (ECreate log). reflexivity.
Qed.

Lemma writeLogEntry_run f message w p c :
  fault w (SysWrite f) = None ->
  fs w !! f = Some (File p c) ->
  writeLogEntry f message w
  = (Ret tt,
     emit (EAppend f)
       (with_fs (<[f := File p (c ++ "[" ++ time.Format_log (clock w (ticks w)) ++ "] "
                                  ++ message ++ nl)]> (fs w))
          (with_ticks (S (ticks w)) w))).
Proof.
  intros Hf Hc. unfold writeLogEntry, bind, Now, os.WriteString. world_simpl.
  rewrite Hf, Hc. reflexivity.
Qed.

(** X8: a task starts with a clean log.  [ExecuteDeployment] on a log
    directory that holds the log of an earlier task does exactly what it
    does when that log is empty: nothing of the old content survives or
    influences the run. *)
Theorem ExecuteDeployment_ignores_the_old_log
  (task : DeploymentTask) (w : World) (p : Z) (old : string) :
  let log := filepath.Join (LogPath task) "deployment.log" in
  fs w !! log = Some (File p old) ->
  fault w (SysOpen log) = None ->
  ExecuteDeployment task w
  = ExecuteDeployment task (with_fs (<[log := File p ""]> (fs w)) w).
Proof.
  cbv zeta. intros Hold Hf.
  set (log := filepath.Join (LogPath task) "deployment.log") in *.
  assert (E1 : os.OpenFile log os.O_TRUNC 420 w
               = (Ret (Ok log),
                  emit (ETruncate log) (with_fs (<[log := File p ""]> (fs w)) w))).
  { unfold os.OpenFile. rewrite Hf, Hold. reflexivity. }
  assert (E2 : os.OpenFile log os.O_TRUNC 420 (with_fs (<[log := File p ""]> (fs w)) w)
               = (Ret (Ok log),
                  emit (ETruncate log) (with_fs (<[log := File p ""]> (fs w)) w))).
  { unfold os.OpenFile. world_simpl. rewrite Hf, lookup_insert_eq, insert_insert_eq.
    reflexivity. }
  unfold ExecuteDeployment, openAndStat. cbv zeta. fold log.
  unfold bind at 1 2. rewrite E1.
  symmetry. unfold bind at 1 2. rewrite E2. reflexivity.
Qed.

(** X9: when the log can be opened and written, the log file that
    [ExecuteDeployment] leaves begins with the start marker of this task,
    stamped with the second reading of the clock: whatever else the run
    does to the file comes after it. *)
Theorem task_log_begins_with_the_start_marker (task : DeploymentTask) (w : World) :
  let log := filepath.Join (LogPath task) "deployment.log" in
  fault w (SysOpen log) = None ->
  fault w (SysWrite log) = None ->
  (forall p, fs w !! log <> Some (Dir p)) ->
  exists p rest,
    fs (snd (ExecuteDeployment task w)) !! log
    = Some (File p
              (("[" ++ time.Format_log (clock w (S (ticks w))) ++ "] "
                ++ ("=== Deployment Started: " ++ time.Format_log (clock w (ticks w))
                    ++ " ===") ++ nl) ++ rest)).
Proof.
  cbv zeta. intros Hfo Hfw Hd.
  set (log := filepath.Join (LogPath task) "deployment.log") in *.
  destruct (OpenFile_trunc_run log 420 w Hfo Hd) as (p0 & ev & Eo).
  destruct (ExecuteDeployment task w) as [r w'] eqn:H. cbn [snd].
  unfold ExecuteDeployment in H. unfold bind at 1 in H.
  destruct (openAndStat task w) as [ro wo] eqn:Ho.
  unfold openAndStat in Ho. cbv zeta in Ho. fold log in Ho.
  unfold bind at 1 in Ho. rewrite Eo in Ho. cbv beta iota in Ho.
  unfold bind at 1 in Ho. unfold Now at 1 in Ho. cbv beta iota in Ho.
  unfold bind at 1 in Ho.
  rewrite (writeLogEntry_run log _ _ p0 "") in Ho;
    [|world_simpl; exact Hfw | world_simpl; apply lookup_insert_eq].
  cbv beta iota in Ho. world_simpl. rewrite append_empty_l in Ho.
  match type of Ho with
  | ?k ?w1 = _ =>
      assert (Hk : appends_only k) by appends_auto;
      pose proof (Hk _ _ _ Ho log p0 _ ltac:(world_simpl; apply lookup_insert_eq))
        as (p1 & c1 & H1)
  end.
  destruct ro as [a|c].
  - match type of H with
    | ?k ?w1 = _ =>
        assert (Hk2 : appends_only k) by appends_auto;
        destruct (Hk2 _ _ _ H log p1 _ H1) as (p2 & c2 & H2)
    end.
    exists p2, (c1 ++ c2). rewrite <- append_assoc. exact H2.
  - injection H as _ <-. exists p1, c1. exact H1.
Qed.

Lemma ExecuteDeployment_ignores_the_old_log_witness :
  ExecuteDeployment Sample.task0 Scenario.w_used
  = ExecuteDeployment Sample.task0
      (with_fs (<["/srv/app/logs/deployment.log" := File 420 ""]> Scenario.fs_used)
               Scenario.w_used).
Proof.
  apply (ExecuteDeployment_ignores_the_old_log Sample.task0 Scenario.w_used 420
           "old entries").
  - vm_compute. reflexivity.
  - reflexivity.
Defined.

Lemma task_log_begins_with_the_start_marker_witness :
  exists p rest,
    fs (snd (ExecuteDeployment Sample.task0 Scenario.w_used))
      !! "/srv/app/logs/deployment.log"
    = Some (File p ("[2026-01-06 12:00:00] === Deployment Started: 2026-01-06 12:00:00 ==="
                    ++ nl ++ rest)).
Proof.
  destruct (task_log_begins_with_the_start_marker Sample.task0 Scenario.w_used)
    as (p & rest & H).
  - reflexivity.
  - reflexivity.
  - intros p. vm_compute. discriminate.
  - exists p, rest. exact H.
Defined.

(** ** Starting and waiting *)

Create HintDb logging.

Lemma emits_only_ret P {A} (a : A) : emits_only P (ret a).
Proof.
  intros w r w' H. injection H as _ <-. exists []. split; [|constructor].
  symmetry. apply app_nil_r.
Qed.

Lemma emits_only_bind P {A B} (m : M A) (k : A -> M B) :
  emits_only P m -> (forall a, emits_only P (k a)) -> emits_only P (bind m k).
Proof.
  intros Hm Hk w r w'. unfold bind.
  destruct (m w) as [[a|c] w1] eqn:E1; intros H.
  - destruct (Hm _ _ _ E1) as (t1 & T1 & F1).
    destruct (Hk a _ _ _ H) as (t2 & T2 & F2).
    exists (t1 ++ t2)%list. split; [rewrite T2, T1, app_assoc; reflexivity|].
    apply Forall_app. split; assumption.
  - injection H as _ <-. exact (Hm _ _ _ E1).
Qed.

(** A primitive whose branch emits nothing, or one event of the log. *)
Ltac logs_prim :=
  let H := fresh in
  intros H; injection H as _ <-;
  first
    [ exists (@nil Event); split; [world_simpl; symmetry; apply app_nil_r | constructor]
    | eexists [_]; split; [world_simpl; reflexivity | repeat constructor] ].

Lemma logs_Now : emits_only log_event Now.
Proof. intros w r w'. unfold Now. logs_prim. Qed.

Lemma logs_Eprint s : emits_only log_event (Eprint s).
Proof. intros w r w'. unfold Eprint. logs_prim. Qed.

Lemma logs_Stat path : emits_only log_event (os.Stat path).
Proof. intros w r w'. unfold os.Stat. logs_prim. Qed.

Lemma logs_OpenFile path flag perm : emits_only log_event (os.OpenFile path flag perm).
Proof.
  intros w r w'. unfold os.OpenFile.
  destruct (fault w (SysOpen path)); [logs_prim|].
  destruct (fs w !! path) as [[p c|p]|]; [destruct flag| |]; logs_prim.
Qed.

Lemma logs_WriteString f s : emits_only log_event (os.WriteString f s).
Proof.
  intros w r w'. unfold os.WriteString.
  destruct (fault w (SysWrite f)); [logs_prim|].
  destruct (fs w !! f) as [[p c|p]|]; logs_prim.
Qed.

Lemma logs_Chdir dir : emits_only log_event (os.Chdir dir).
Proof.
  intros w r w'. unfold os.Chdir.
  destruct (fault w (SysChdir dir)); [logs_prim|].
  destruct (fs w !! dir) as [[p c|p]|]; logs_prim.
Qed.

Lemma logs_Chmod name perm : emits_only log_event (os.Chmod name perm).
Proof.
  intros w r w'. unfold os.Chmod. cbv zeta.
  destruct (fault w (SysChmod name)); [logs_prim|].
  destruct (fs w !! name); logs_prim.
Qed.

#[export] Hint Resolve emits_only_ret logs_Now logs_Eprint logs_Stat logs_OpenFile
  logs_WriteString logs_Chdir logs_Chmod : logging.

Ltac logs_step :=
  lazymatch goal with
  | |- emits_only _ (bind _ _) => apply emits_only_bind; [|intros ?]
  | |- emits_only _ (match ?x with _ => _ end) => destruct x
  | |- emits_only _ _ => solve [auto with logging]
  end.

Ltac logs_auto := cbv zeta; repeat logs_step.

Lemma logs_log_Print s : emits_only log_event (log_Print s).
Proof. unfold log_Print. logs_auto. Qed.

Lemma logs_writeLogEntry logFile message :
  emits_only log_event (writeLogEntry logFile message).
Proof. unfold writeLogEntry. logs_auto. Qed.

#[export] Hint Resolve logs_log_Print logs_writeLogEntry : logging.

Lemma logs_logOutputLine logFile prefix line :
  emits_only log_event (logOutputLine logFile prefix line).
Proof. unfold logOutputLine. logs_auto. Qed.

#[export] Hint Resolve logs_logOutputLine : logging.

Lemma logs_forwardOutput logFile lines :
  emits_only log_event (forwardOutput logFile lines).
Proof.
  induction lines as [|[prefix line] rest IH]; cbn [forwardOutput]; [auto with logging|].
  apply emits_only_bind; [auto with logging | intros _; exact IH].
Qed.

Lemma logs_openAndStat task : emits_only log_event (openAndStat task).
Proof. unfold openAndStat. logs_auto. Qed.

Lemma logs_makeScriptExecutable task logFile info :
  emits_only log_event (makeScriptExecutable task logFile info).
Proof. unfold makeScriptExecutable. logs_auto. Qed.

Lemma logs_WriteLog logPath message : emits_only log_event (WriteLog logPath message).
Proof. unfold WriteLog. logs_auto. Qed.

Lemma count_log_events f (t : list Event) :
  (forall e, log_event e -> f e = false) ->
  Forall log_event t -> count_events f t = 0%nat.
Proof.
  intros Hf Ht. apply count_events_none. intros e He.
  apply Hf. exact (proj1 (List.Forall_forall log_event t) Ht e He).
Qed.

Lemma no_start_in_log e : log_event e -> is_start e = false.
Proof. destruct e; cbn; tauto. Qed.

Lemma no_wait_in_log e : log_event e -> is_wait e = false.
Proof. destruct e; cbn; tauto. Qed.

(** An action that is quiet and keeps to the log: it returns, and what it
    emits are events of the log. *)
Lemma quiet_logs_run {A} (m : M A) w :
  quiet m -> emits_only log_event m ->
  exists a w' t,
    m w = (Ret a, w')
    /\ trace w' = (trace w ++ t)%list
    /\ Forall log_event t
    /\ fault w' = fault w /\ child w' = child w.
Proof.
  intros Hq Hl. destruct (Hq w) as (a & w' & t0 & E & _ & _ & Hf & Hc).
  destruct (Hl _ _ _ E) as (t & T & F).
  exists a, w', t. repeat split; assumption.
Qed.

(** An error branch of the runner: an entry in the log, then the error. *)
Lemma log_then_return {A} logFile message (res : A) w :
  exists w' t,
    (writeLogEntry logFile message ;; ret res) w = (Ret res, w')
    /\ trace w' = (trace w ++ t)%list
    /\ Forall log_event t
    /\ fault w' = fault w /\ child w' = child w.
Proof.
  destruct (quiet_logs_run (writeLogEntry logFile message) w
              (quiet_writeLogEntry _ _) (logs_writeLogEntry _ _))
    as (a & w' & t & E & T & F & Hf & Hc).
  exists w', t. unfold bind. rewrite E. repeat split; assumption.
Qed.

(** Joining the readers and the child: the readers' entries, then the
    return of [cmd.Wait()] and [wg.Wait()]. *)
Lemma exec_Join_run argv logFile w :
  exists w' t,
    exec_Join argv logFile w = (Ret (wait_result (child w)), w')
    /\ trace w' = (trace w ++ t ++ [EWait argv])%list
    /\ Forall log_event t
    /\ fault w' = fault w /\ child w' = child w.
Proof.
  unfold exec_Join.
  destruct (quiet_logs_run (forwardOutput logFile (forwarded (child w))) w
              (quiet_forwardOutput _ _) (logs_forwardOutput _ _))
    as (a & w1 & t & E & T & F & Hf & Hc).
  rewrite E. exists (emit (EWait argv) w1), t. split; [reflexivity|].
  world_simpl. split; [rewrite T, app_assoc; reflexivity|].
  split; [exact F|]. split; [exact Hf | exact Hc].
Qed.

(** Every way [runScript] can end: without having started anything, with
    an error; or after one start and one wait, with the result of the
    script. *)
Lemma runScript_cases task logFile w :
  exists res w' t,
    runScript task logFile w = (Ret res, w')
    /\ trace w' = (trace w ++ t)%list
    /\ ((count_events is_start t = 0%nat /\ count_events is_wait t = 0%nat
         /\ exists msg, res = Some (Errorf msg))
        \/
        (count_events is_start t = 1%nat /\ count_events is_wait t = 1%nat
         /\ res = script_result (child w)
         /\ In (EStart ["bash"; DeploymentScriptPath task] (ProjectPath task)
                  (script_env task w)) t)).
Proof.
  unfold runScript. cbv zeta. fold (script_env task w).
  unfold bind at 1. cbv beta iota. fold (script_env task w).
  unfold bind at 1. unfold exec_Pipe at 1.
  destruct (fault w (SysPipe "STDOUT")) as [e|].
  { destruct (log_then_return logFile
                ("[ERROR] Failed to create stdout pipe: "
                 ++ Error (OtherError ("pipe: " ++ Errno_string e)))
                (Some (Errorf ("failed to create stdout pipe: "
                               ++ Error (OtherError ("pipe: " ++ Errno_string e))))) w)
      as (w' & t & E & T & F & _).
    rewrite E. eexists _, w', t. split; [reflexivity|]. split; [exact T|]. left.
    rewrite (count_log_events is_start t no_start_in_log F).
    rewrite (count_log_events is_wait t no_wait_in_log F). eauto. }
  unfold bind at 1. unfold exec_Pipe at 1.
  destruct (fault w (SysPipe "STDERR")) as [e|].
  { destruct (log_then_return logFile
                ("[ERROR] Failed to create stderr pipe: "
                 ++ Error (OtherError ("pipe: " ++ Errno_string e)))
                (Some (Errorf ("failed to create stderr pipe: "
                               ++ Error (OtherError ("pipe: " ++ Errno_string e))))) w)
      as (w' & t & E & T & F & _).
    rewrite E. eexists _, w', t. split; [reflexivity|]. split; [exact T|]. left.
    rewrite (count_log_events is_start t no_start_in_log F).
    rewrite (count_log_events is_wait t no_wait_in_log F). eauto. }
  unfold bind at 1. unfold exec_Start at 1.
  destruct (fault w (SysStart ["bash"; DeploymentScriptPath task])) as [e|].
  { match goal with
    | |- context [(writeLogEntry ?f ?m ;; ret ?r) w] =>
        destruct (log_then_return f m r w) as (w' & t & E & T & F & _)
    end.
    rewrite E. eexists _, w', t. split; [reflexivity|]. split; [exact T|]. left.
    rewrite (count_log_events is_start t no_start_in_log F).
    rewrite (count_log_events is_wait t no_wait_in_log F). eauto. }
  set (argv := ["bash"; DeploymentScriptPath task]).
  set (started := EStart argv (ProjectPath task) (script_env task w)).
  unfold bind at 1.
  destruct (exec_Join_run argv logFile (emit started w))
    as (wj & tj & Ej & Tj & Fj & Hfj & Hcj).
  rewrite Ej. world_simpl. unfold script_result.
  destruct (wait_result (child w)) as [e|].
  - match goal with
    | |- context [(writeLogEntry ?f ?m ;; ret ?r) wj] =>
        destruct (log_then_return f m r wj) as (w' & t & E & T & F & _)
    end.
    rewrite E. eexists _, w', ([started] ++ tj ++ [EWait argv] ++ t)%list.
    split; [reflexivity|].
    split; [rewrite T, Tj, <- !app_assoc; reflexivity|]. right.
    rewrite !count_events_app.
    rewrite (count_log_events is_start tj no_start_in_log Fj).
    rewrite (count_log_events is_wait tj no_wait_in_log Fj).
    rewrite (count_log_events is_start t no_start_in_log F).
    rewrite (count_log_events is_wait t no_wait_in_log F).
    repeat split; try reflexivity. left. reflexivity.
  - unfold bind at 1. unfold Now at 1.
    match goal with
    | |- context [(writeLogEntry ?f ?m ;; ret ?r) ?w0] =>
        destruct (log_then_return f m r w0) as (w' & t & E & T & F & _)
    end.
    rewrite E. eexists _, w', ([started] ++ tj ++ [EWait argv] ++ t)%list.
    split; [reflexivity|]. world_simpl.
    split; [rewrite T, Tj, <- !app_assoc; reflexivity|]. right.
    rewrite !count_events_app.
    rewrite (count_log_events is_start tj no_start_in_log Fj).
    rewrite (count_log_events is_wait tj no_wait_in_log Fj).
    rewrite (count_log_events is_start t no_start_in_log F).
    rewrite (count_log_events is_wait t no_wait_in_log F).
    repeat split; try reflexivity. left. reflexivity.
Qed.

(** Every way [ExecuteDeployment] can end. *)
Lemma ExecuteDeployment_cases task w :
  exists res w' t,
    ExecuteDeployment task w = (Ret res, w')
    /\ trace w' = (trace w ++ t)%list
    /\ ((count_events is_start t = 0%nat /\ count_events is_wait t = 0%nat
         /\ exists msg, res = Some (Errorf msg))
        \/
        (count_events is_start t = 1%nat /\ count_events is_wait t = 1%nat
         /\ res = script_result (child w))).
Proof.
  unfold ExecuteDeployment. unfold bind at 1.
  destruct (quiet_logs_run (openAndStat task) w (quiet_openAndStat _) (logs_openAndStat _))
    as (ro & w1 & t1 & E1 & T1 & F1 & Hf1 & Hc1).
  rewrite E1.
  assert (Hinl : forall e, ro = inl e -> exists msg, e = Errorf msg).
  { intros e ->. revert E1. unfold openAndStat. cbv zeta. intros H.
    step_in H opened. destruct opened as [lf|e0].
    2:{ cbn in H. injection H as <- _. eauto. }
    step_in H t0. step_in H u1. step_in H u2. step_in H u3. step_in H u4.
    step_in H moved. destruct moved as [e0|].
    { step_in H u5. cbn in H. injection H as <- _. eauto. }
    unfold bind at 1 in H. rewrite Stat_run in H.
    match type of H with
    | context [os.stat_of ?wc (DeploymentScriptPath task)] =>
        destruct (os.stat_of wc (DeploymentScriptPath task)) as [fi|e0]
    end.
    { cbn in H. discriminate. }
    step_in H u5. cbn in H. injection H as <- _. eauto. }
  destruct ro as [e|[logFile info]].
  - destruct (Hinl e eq_refl) as (msg & ->).
    eexists _, w1, t1. split; [reflexivity|]. split; [exact T1|]. left.
    rewrite (count_log_events is_start t1 no_start_in_log F1).
    rewrite (count_log_events is_wait t1 no_wait_in_log F1). eauto.
  - unfold bind at 1.
    destruct (quiet_logs_run (makeScriptExecutable task logFile info) w1
                (quiet_makeScriptExecutable _ _ _) (logs_makeScriptExecutable _ _ _))
      as (u & w2 & t2 & E2 & T2 & F2 & Hf2 & Hc2).
    rewrite E2.
    destruct (runScript_cases task logFile w2) as (res & w' & t & E & T & Hcase).
    rewrite E. exists res, w', (t1 ++ t2 ++ t)%list.
    split; [reflexivity|].
    split; [rewrite T, T2, T1, <- !app_assoc; reflexivity|].
    rewrite !count_events_app.
    rewrite (count_log_events is_start t1 no_start_in_log F1).
    rewrite (count_log_events is_wait t1 no_wait_in_log F1).
    rewrite (count_log_events is_start t2 no_start_in_log F2).
    rewrite (count_log_events is_wait t2 no_wait_in_log F2).
    cbn [Nat.add].
    destruct Hcase as [(Hs & Hw & Hm)|(Hs & Hw & Hr & _)].
    + left. auto.
    + right. split; [exact Hs|]. split; [exact Hw|]. rewrite Hr. congruence.
Qed.

(** With neither pipe nor the start refused, [runScript] starts the
    script once and returns what [cmd.Wait()] returned. *)
Lemma runScript_started task logFile w :
  fault w (SysPipe "STDOUT") = None ->
  fault w (SysPipe "STDERR") = None ->
  fault w (SysStart ["bash"; DeploymentScriptPath task]) = None ->
  exists w' t,
    runScript task logFile w = (Ret (script_result (child w)), w')
    /\ trace w' = (trace w ++ t)%list
    /\ count_events is_start t = 1%nat.
Proof.
  intros Ho He Hs.
  unfold runScript. cbv zeta. fold (script_env task w).
  unfold bind at 1. cbv beta iota. fold (script_env task w).
  unfold bind at 1. unfold exec_Pipe at 1. rewrite Ho.
  unfold bind at 1. unfold exec_Pipe at 1. rewrite He.
  unfold bind at 1. unfold exec_Start at 1. rewrite Hs.
  set (argv := ["bash"; DeploymentScriptPath task]).
  set (started := EStart argv (ProjectPath task) (script_env task w)).
  unfold bind at 1.
  destruct (exec_Join_run argv logFile (emit started w))
    as (wj & tj & Ej & Tj & Fj & Hfj & Hcj).
  rewrite Ej. world_simpl. unfold script_result.
  destruct (wait_result (child w)) as [e|].
  - match goal with
    | |- context [(writeLogEntry ?f ?m ;; ret ?r) wj] =>
        destruct (log_then_return f m r wj) as (w' & t & E & T & F & _)
    end.
    rewrite E. exists w', ([started] ++ tj ++ [EWait argv] ++ t)%list.
    split; [reflexivity|].
    split; [rewrite T, Tj, <- !app_assoc; reflexivity|].
    rewrite !count_events_app.
    rewrite (count_log_events is_start tj no_start_in_log Fj).
    rewrite (count_log_events is_start t no_start_in_log F).
    reflexivity.
  - unfold bind at 1. unfold Now at 1.
    match goal with
    | |- context [(writeLogEntry ?f ?m ;; ret ?r) ?w0] =>
        destruct (log_then_return f m r w0) as (w' & t & E & T & F & _)
    end.
    rewrite E. exists w', ([started] ++ tj ++ [EWait argv] ++ t)%list.
    split; [reflexivity|]. world_simpl.
    split; [rewrite T, Tj, <- !app_assoc; reflexivity|].
    rewrite !count_events_app.
    rewrite (count_log_events is_start tj no_start_in_log Fj).
    rewrite (count_log_events is_start t no_start_in_log F).
    reflexivity.
Qed.

(** An entry in the log file leaves every other path as it is, keeps the
    log a file, and changes no refusal. *)
Lemma writeLogEntry_frame log message w :
  exists w',
    writeLogEntry log message w = (Ret tt, w')
    /\ fault w' = fault w
    /\ (forall path, path <> log -> fs w' !! path = fs w !! path)
    /\ (forall p c, fs w !! log = Some (File p c) ->
          exists p' c', fs w' !! log = Some (File p' c')).
Proof.
  unfold writeLogEntry, bind, Now, os.WriteString, ret. world_simpl.
  destruct (fault w (SysWrite log)) as [e|].
  { eexists. split; [reflexivity|]. world_simpl. repeat split; eauto. }
  destruct (fs w !! log) as [[p c|p]|] eqn:E.
  - eexists. split; [reflexivity|]. world_simpl. split; [reflexivity|]. split.
    + intros path Hp. apply lookup_insert_ne. congruence.
    + intros p1 c1 _. rewrite lookup_insert_eq. eauto.
  - eexists. split; [reflexivity|]. world_simpl. repeat split; try discriminate; eauto.
  - eexists. split; [reflexivity|]. world_simpl. repeat split; try discriminate; eauto.
Qed.

(** One [writeLogEntry] at the head of a goal about a run. *)
Ltac entry_step Hfault Hframe Hlog :=
  unfold bind at 1;
  lazymatch goal with
  | |- context [match writeLogEntry ?f ?m ?w with _ => _ end] =>
      let w' := fresh "w" in
      let E := fresh "E" in
      let X := fresh "X" in
      let Fr := fresh "Fr" in
      let L := fresh "L" in
      destruct (writeLogEntry_frame f m w) as (w' & E & X & Fr & L);
      rewrite E; cbv beta iota;
      rewrite Hfault in X; clear Hfault; rename X into Hfault;
      assert (Fr' : forall path, path <> f -> fs w' !! path = fs _ !! path)
        by (intros path Hpath; rewrite (Fr path Hpath); apply Hframe; exact Hpath);
      clear Hframe Fr; rename Fr' into Hframe;
      destruct Hlog as (? & ? & Hlog); apply L in Hlog; clear L E
  end.

(** When the log can be opened, the project directory entered and the
    script examined, [openAndStat] hands over the log and the script's
    info. *)
Lemma openAndStat_succeeds task w :
  let log := filepath.Join (LogPath task) "deployment.log" in
  fault w (SysOpen log) = None ->
  (forall p, fs w !! log <> Some (Dir p)) ->
  fault w (SysChdir (ProjectPath task)) = None ->
  (exists p, fs w !! ProjectPath task = Some (Dir p)) ->
  fault w (SysStat (DeploymentScriptPath task)) = None ->
  fs w !! DeploymentScriptPath task <> None ->
  exists info w1, openAndStat task w = (Ret (inr (log, info)), w1).
Proof.
  cbv zeta. intros Hfo Hd Hfc [pp Hproj] Hfs Hscr.
  set (log := filepath.Join (LogPath task) "deployment.log") in *.
  assert (Hpl : ProjectPath task <> log).
  { intros C. rewrite C in Hproj. exact (Hd pp Hproj). }
  destruct (OpenFile_trunc_run log 420 w Hfo Hd) as (p0 & ev & Eo).
  unfold openAndStat. cbv zeta. fold log. unfold bind at 1. rewrite Eo. cbv beta iota.
  unfold bind at 1. unfold Now at 1. cbv beta iota.
  match goal with
  | |- context [bind (writeLogEntry log _) _ ?w0] =>
      assert (Hfault : fault w0 = fault w) by reflexivity;
      assert (Hframe : forall path, path <> log -> fs w0 !! path = fs w !! path)
        by (intros path Hpath; world_simpl; apply lookup_insert_ne; congruence);
      assert (Hlog : exists p c, fs w0 !! log = Some (File p c))
        by (world_simpl; rewrite lookup_insert_eq; eauto)
  end.
  entry_step Hfault Hframe Hlog. entry_step Hfault Hframe Hlog.
  entry_step Hfault Hframe Hlog. entry_step Hfault Hframe Hlog.
  unfold bind at 1. unfold os.Chdir at 1.
  rewrite Hfault, Hfc, (Hframe _ Hpl), Hproj. cbv beta iota.
  unfold bind at 1. rewrite Stat_run. unfold os.stat_of. world_simpl.
  rewrite Hfault, Hfs.
  destruct (decide (DeploymentScriptPath task = log)) as [Heq|Hne].
  - rewrite Heq. destruct Hlog as (p & c & ->). cbv beta iota. eauto.
  - rewrite (Hframe _ Hne).
    destruct (fs w !! DeploymentScriptPath task) as [n|]; [|contradiction].
    cbv beta iota. eauto.
Qed.

(** X10: what [ExecuteDeployment] returns when it returns.  The result of
    a completed run is [nil] exactly when the script was started and
    [cmd.Wait()] returned [nil]; whenever the script was started the
    result is the script's: [nil], or the error "deployment script
    failed: " followed by the error of [cmd.Wait()], which for a script
    that exits with status [n] reads "exit status n".  And the script is
    started whenever nothing stands in the way: with the project and the
    script given by absolute paths, the log can be opened, the project
    directory entered, the script examined, the two pipes made and
    [bash] started. *)
Theorem ExecuteDeployment_reports_the_script_result
  (task : DeploymentTask) (w : World) (res : option error) (w' : World) :
  let log := filepath.Join (LogPath task) "deployment.log" in
  ExecuteDeployment task w = (Ret res, w') ->
  exists t,
    trace w' = (trace w ++ t)%list
    /\ (res = None <->
        count_events is_start t = 1%nat /\ wait_result (child w) = None)
    /\ (count_events is_start t = 1%nat -> res = script_result (child w))
    /\ (forall status,
          count_events is_start t = 1%nat ->
          wait_result (child w) = Some (ExitError status) ->
          res = Some (Errorf ("deployment script failed: exit status "
                              ++ Str.itoaZ status)))
    /\ (filepath.IsAbs (ProjectPath task) = true ->
        filepath.IsAbs (DeploymentScriptPath task) = true ->
        fault w (SysOpen log) = None ->
        (forall p, fs w !! log <> Some (Dir p)) ->
        fault w (SysChdir (ProjectPath task)) = None ->
        (exists p, fs w !! ProjectPath task = Some (Dir p)) ->
        fault w (SysStat (DeploymentScriptPath task)) = None ->
        fs w !! DeploymentScriptPath task <> None ->
        fault w (SysPipe "STDOUT") = None ->
        fault w (SysPipe "STDERR") = None ->
        fault w (SysStart ["bash"; DeploymentScriptPath task]) = None ->
        count_events is_start t = 1%nat).
Proof.
  cbv zeta. intros H.
  destruct (ExecuteDeployment_cases task w) as (res0 & w0 & t & E & T & Hcase).
  rewrite E in H. injection H as -> ->.
  exists t. split; [exact T|].
  assert (Hres : count_events is_start t = 1%nat -> res = script_result (child w)).
  { destruct Hcase as [(Hs & _)|(_ & _ & ->)]; [intros C; lia | reflexivity]. }
  split; [|split; [exact Hres|split]].
  - split.
    + intros ->. destruct Hcase as [(_ & _ & msg & C)|(Hs & _ & Hr)]; [discriminate|].
      split; [exact Hs|]. unfold script_result in Hr.
      destruct (wait_result (child w)); [discriminate | reflexivity].
    + intros [Hs Hw]. rewrite (Hres Hs). unfold script_result. rewrite Hw. reflexivity.
  - intros status Hs Hst. rewrite (Hres Hs). unfold script_result. rewrite Hst.
    cbn [Error]. rewrite <- append_assoc. reflexivity.
  - intros _ _ Hfo Hd Hfc Hproj Hfs Hscr Hpo Hpe Hst.
    destruct (openAndStat_succeeds task w Hfo Hd Hfc Hproj Hfs Hscr) as (info & w1 & Eo).
    destruct (quiet_logs_run (openAndStat task) w (quiet_openAndStat _)
                (logs_openAndStat _)) as (ro & w1' & t1 & E1 & T1 & F1 & Hf1 & _).
    rewrite Eo in E1. injection E1 as <- <-.
    destruct (quiet_logs_run (makeScriptExecutable task
                                (filepath.Join (LogPath task) "deployment.log") info)
                w1 (quiet_makeScriptExecutable _ _ _) (logs_makeScriptExecutable _ _ _))
      as (u & w2 & t2 & E2 & T2 & F2 & Hf2 & _).
    destruct (runScript_started task (filepath.Join (LogPath task) "deployment.log") w2)
      as (w3 & t3 & E3 & T3 & C3);
      [rewrite Hf2, Hf1; exact Hpo | rewrite Hf2, Hf1; exact Hpe
       | rewrite Hf2, Hf1; exact Hst |].
    revert E. unfold ExecuteDeployment. unfold bind at 1. rewrite Eo.
    unfold bind at 1. rewrite E2, E3. intros E. injection E as _ <-.
    rewrite T3, T2, T1, <- !app_assoc in T. apply app_inv_head in T. subst t.
    rewrite !count_events_app.
    rewrite (count_log_events is_start t1 no_start_in_log F1).
    rewrite (count_log_events is_start t2 no_start_in_log F2).
    rewrite C3. reflexivity.
Qed.

(** X11: [ExecuteDeployment] starts at most one process, and returns only
    after it has waited for the process it started: among the events of a
    run there are as many waits as starts, none when the preparation or
    the start failed. *)
Theorem ExecuteDeployment_waits_for_what_it_starts
  (task : DeploymentTask) (w : World) :
  exists t,
    trace (snd (ExecuteDeployment task w)) = (trace w ++ t)%list
    /\ (count_events is_start t <= 1)%nat
    /\ count_events is_wait t = count_events is_start t
    /\ (count_events is_start t = 0%nat ->
        exists msg, fst (ExecuteDeployment task w) = Ret (Some (Errorf msg))).
Proof.
  destruct (ExecuteDeployment_cases task w) as (res & w' & t & E & T & Hcase).
  exists t. rewrite E. cbn [fst snd]. split; [exact T|].
  destruct Hcase as [(Hs & Hw & msg & ->)|(Hs & Hw & _)].
  - rewrite Hs, Hw. split; [lia|]. split; [reflexivity|]. eauto.
  - rewrite Hs, Hw. split; [lia|]. split; [reflexivity|]. discriminate.
Qed.

(** X12: when the log file cannot be opened, [ExecuteDeployment] returns
    the error "failed to open log file: ..." and has done nothing: the
    world is as it was, no directory was changed to, no script run. *)
Theorem ExecuteDeployment_without_a_log (task : DeploymentTask) (w : World) (e : Errno) :
  let log := filepath.Join (LogPath task) "deployment.log" in
  fault w (SysOpen log) = Some e \/ (exists p, fs w !! log = Some (Dir p)) ->
  exists cause,
    ExecuteDeployment task w
    = (Ret (Some (Errorf ("failed to open log file: open " ++ log ++ ": "
                          ++ Errno_string cause))), w)
    /\ (fault w (SysOpen log) = Some e -> cause = e).
Proof.
  cbv zeta. intros H.
  set (log := filepath.Join (LogPath task) "deployment.log") in *.
  unfold ExecuteDeployment, openAndStat. cbv zeta. fold log.
  unfold bind at 1 2. unfold os.OpenFile.
  destruct (fault w (SysOpen log)) as [e0|] eqn:Ef.
  - exists e0. split; [reflexivity|]. congruence.
  - destruct H as [H|(p & Hp)]; [discriminate|]. rewrite Hp.
    exists EISDIR. split; [reflexivity | discriminate].
Qed.

Lemma ExecuteDeployment_reports_the_script_result_witness :
  exists w' t,
    ExecuteDeployment Sample.task0 (Sample.world Sample.no_fault Sample.script_fails)
    = (Ret (Some (Errorf "deployment script failed: exit status 1")), w')
    /\ trace w' = t
    /\ count_events is_start t = 1%nat.
Proof.
  destruct (ExecuteDeployment Sample.task0
              (Sample.world Sample.no_fault Sample.script_fails)) as [r w'] eqn:E.
  assert (Hr : exists res, r = Ret res).
  { change r with (fst (r, w')). rewrite <- E. vm_compute. eauto. }
  destruct Hr as (res & ->).
  destruct (ExecuteDeployment_reports_the_script_result Sample.task0 _ res w' E)
    as (t & Ht & _ & Hres & Hstatus & Hstarted).
  assert (Hc : count_events is_start t = 1%nat).
  { apply Hstarted; try reflexivity.
    - intros p. vm_compute. discriminate.
    - exists 493. vm_compute. reflexivity.
    - vm_compute. discriminate. }
  exists w', t. rewrite (Hstatus 1%Z Hc eq_refl).
  split; [reflexivity|]. split; [exact Ht | exact Hc].
Defined.

Lemma ExecuteDeployment_waits_witness :
  exists t,
    trace (snd (ExecuteDeployment Sample.task0 Sample.w_read_only)) = t
    /\ count_events is_start t = 0%nat
    /\ exists msg,
         fst (ExecuteDeployment Sample.task0 Sample.w_read_only)
         = Ret (Some (Errorf msg)).
Proof.
  destruct (ExecuteDeployment_waits_for_what_it_starts Sample.task0 Sample.w_read_only)
    as (t & Ht & _ & _ & Hnone).
  exists t. cbn [trace Sample.w_read_only Sample.world app] in Ht.
  split; [exact Ht|].
  assert (Hc : count_events is_start t = 0%nat)
    by (rewrite <- Ht; vm_compute; reflexivity).
  split; [exact Hc | exact (Hnone Hc)].
Defined.

Lemma ExecuteDeployment_without_a_log_witness :
  ExecuteDeployment Sample.task0 Sample.w_read_only
  = (Ret (Some (Errorf
        "failed to open log file: open /srv/app/logs/deployment.log: permission denied")),
     Sample.w_read_only).
Proof.
  destruct (ExecuteDeployment_without_a_log Sample.task0 Sample.w_read_only EACCES)
    as (cause & Hrun & Hcause).
  - left. reflexivity.
  - rewrite Hrun, (Hcause eq_refl). reflexivity.
Defined.

(** ** Forwarding the script's output *)

Lemma logOutputLine_run f prefix line w p c :
  fault w (SysWrite f) = None ->
  fs w !! f = Some (File p c) ->
  logOutputLine f prefix line w
  = (Ret tt,
     emit (EAppend f)
       (with_fs (<[f := File p (c ++ "[" ++ time.Format_log (clock w (ticks w)) ++ "] ["
                                  ++ prefix ++ "] " ++ line ++ nl)]> (fs w))
          (with_ticks (S (ticks w)) w))).
Proof.
  intros Hf Hc. unfold logOutputLine, bind, Now, os.WriteString. world_simpl.
  rewrite Hf, Hc. reflexivity.
Qed.

Lemma logOutputLine_refused f prefix line w e :
  fault w (SysWrite f) = Some e ->
  logOutputLine f prefix line w
  = (Ret tt,
     with_stderr
       (app (stderr w)
            [time.Format_stdlog (clock w (S (ticks w)))
             ++ " Failed to write to log file: write " ++ f ++ ": "
             ++ Errno_string e ++ nl])
       (with_ticks (S (S (ticks w))) w)).
Proof.
  intros Hf. unfold logOutputLine, log_Print, bind, Now, os.WriteString, Eprint.
  world_simpl. rewrite Hf. cbn [Error]. rewrite !append_assoc. reflexivity.
Qed.

(** X13: a reader running on its own, [readAndLogOutput] writes one entry
    per scanned line, in the order of the lines, each of the form
    "[<time>] [<prefix>] <line>" and ended by a newline, each stamped with
    its own reading of the clock; the entries go to the end of the log
    file, nothing else is written anywhere, and nothing is reported on the
    standard error stream. *)
Theorem readAndLogOutput_entries (logFile prefix : string) (lines : list string) :
  forall (w : World) (p : Z) (c : string),
  fault w (SysWrite logFile) = None ->
  fs w !! logFile = Some (File p c) ->
  exists w',
    readAndLogOutput logFile prefix lines w = (Ret tt, w')
    /\ fs w' = <[logFile := File p (c ++ stream_entries (clock w) (ticks w) prefix lines)]>
                 (fs w)
    /\ ticks w' = (ticks w + List.length lines)%nat
    /\ stderr w' = stderr w
    /\ trace w' = (trace w ++ repeat (EAppend logFile) (List.length lines))%list.
Proof.
  induction lines as [|line rest IH]; intros w p c Hf Hc.
  - exists w. cbn [readAndLogOutput stream_entries List.length repeat].
    split; [reflexivity|].
    rewrite append_empty_r, Nat.add_0_r, app_nil_r.
    split; [symmetry; apply insert_id; exact Hc | auto].
  - cbn [readAndLogOutput]. unfold bind at 1.
    rewrite (logOutputLine_run logFile prefix line w p c Hf Hc).
    match goal with
    | |- context [readAndLogOutput _ _ _ ?w1] =>
        destruct (IH w1 p (c ++ "[" ++ time.Format_log (clock w (ticks w)) ++ "] ["
                             ++ prefix ++ "] " ++ line ++ nl))
          as (w' & E & Hfs & Ht & He & Htr);
          [exact Hf | world_simpl; apply lookup_insert_eq |]
    end.
    exists w'. split; [exact E|]. world_simpl.
    cbn [stream_entries List.length repeat].
    split; [|split; [|split]].
    + rewrite Hfs, insert_insert_eq, !append_assoc. reflexivity.
    + rewrite Ht. lia.
    + exact He.
    + rewrite Htr, <- app_assoc. reflexivity.
Qed.

(** X14: a write that fails does not stop [readAndLogOutput].  When the
    log file refuses every write, every line is still consumed; for each
    of them one line "Failed to write to log file: write <file>: <cause>"
    goes to the standard error stream, behind the date and time the
    standard logger puts first; no file is touched and the reader
    returns. *)
Theorem readAndLogOutput_reports_failed_writes
  (logFile prefix : string) (lines : list string) (e : Errno) :
  forall w : World,
  fault w (SysWrite logFile) = Some e ->
  exists w' reports,
    readAndLogOutput logFile prefix lines w = (Ret tt, w')
    /\ fs w' = fs w
    /\ trace w' = trace w
    /\ stderr w' = (stderr w ++ reports)%list
    /\ List.length reports = List.length lines
    /\ Forall (fun r => exists stamp,
                 r = stamp ++ " Failed to write to log file: write " ++ logFile
                     ++ ": " ++ Errno_string e ++ nl) reports.
Proof.
  induction lines as [|line rest IH]; intros w Hf.
  - exists w, []. cbn [readAndLogOutput List.length]. rewrite app_nil_r.
    repeat split; constructor.
  - cbn [readAndLogOutput]. unfold bind at 1.
    rewrite (logOutputLine_refused logFile prefix line w e Hf).
    match goal with
    | |- context [readAndLogOutput _ _ _ ?w1] =>
        destruct (IH w1) as (w' & reports & E & Hfs & Htr & He & Hl & Hall);
          [exact Hf|]
    end.
    world_simpl.
    exists w', ((time.Format_stdlog (clock w (S (ticks w)))
                 ++ " Failed to write to log file: write " ++ logFile ++ ": "
                 ++ Errno_string e ++ nl) :: reports).
    split; [exact E|]. split; [exact Hfs|]. split; [exact Htr|].
    split; [rewrite He, <- app_assoc; reflexivity|].
    split; [cbn [List.length]; rewrite Hl; reflexivity|].
    constructor; [eexists; reflexivity | exact Hall].
Qed.

Lemma readAndLogOutput_entries_witness :
  exists w',
    readAndLogOutput "/srv/app/logs/deployment.log" "STDOUT" ["building"; "done"]
      Scenario.w_used = (Ret tt, w')
    /\ fs w' !! "/srv/app/logs/deployment.log"
       = Some (File 420 ("old entries"
                         ++ "[2026-01-06 12:00:00] [STDOUT] building" ++ nl
                         ++ "[2026-01-06 12:00:00] [STDOUT] done" ++ nl)).
Proof.
  destruct (readAndLogOutput_entries "/srv/app/logs/deployment.log" "STDOUT"
              ["building"; "done"] Scenario.w_used 420 "old entries")
    as (w' & E & Hfs & _).
  - reflexivity.
  - vm_compute. reflexivity.
  - exists w'. split; [exact E|]. rewrite Hfs, lookup_insert_eq. reflexivity.
Defined.

Lemma readAndLogOutput_reports_failed_writes_witness :
  exists w' reports,
    readAndLogOutput "/srv/app/logs/deployment.log" "STDERR" ["boom"]
      Scenario.w_write_refused = (Ret tt, w')
    /\ fs w' = fs Scenario.w_write_refused
    /\ stderr w' = reports
    /\ List.length reports = 1%nat.
Proof.
  destruct (readAndLogOutput_reports_failed_writes "/srv/app/logs/deployment.log"
              "STDERR" ["boom"] ENOSPC Scenario.w_write_refused)
    as (w' & reports & E & Hfs & _ & He & Hl & _).
  - reflexivity.
  - exists w', reports. split; [exact E|]. split; [exact Hfs|].
    split; [exact He | exact Hl].
Defined.

(** ** The end of a task: the final entry and the rotation *)

Lemma prefix_append (s x : string) : String.prefix s (s ++ x) = true.
Proof.
  induction s as [|a s IH]; [destruct x; reflexivity|].
  rewrite append_cons. cbn [String.prefix].
  destruct (ascii_dec a a); [exact IH | congruence].
Qed.

Lemma not_prefix_differs (dir name x : string) :
  String.prefix dir name = false -> name <> dir ++ x.
Proof. intros H ->. rewrite prefix_append in H. discriminate. Qed.

Lemma WriteLog_run logDir message w p c :
  let active := dir_prefix logDir ++ "deployment.log" in
  fault w (SysOpen active) = None ->
  fault w (SysWrite active) = None ->
  fs w !! active = Some (File p c) ->
  WriteLog logDir message w
  = (Ret tt,
     emit (EAppend active)
       (with_fs (<[active := File p (c ++ "[" ++ time.Format_log (clock w (ticks w)) ++ "] "
                                       ++ message ++ nl)]> (fs w))
          (with_ticks (S (ticks w)) w))).
Proof.
  cbv zeta. intros Hfo Hfw Hc. unfold WriteLog. cbv zeta.
  rewrite (Join_plain logDir "deployment.log" plain_active_log).
  unfold bind at 1. unfold os.OpenFile. rewrite Hfo, Hc.
  apply writeLogEntry_run; assumption.
Qed.

Lemma RotateLog_run logDir w node :
  let active := dir_prefix logDir ++ "deployment.log" in
  let new := dir_prefix logDir ++ "deployment_"
             ++ time.Format_rotate (clock w (ticks w)) ++ ".log" in
  fs w !! active = Some node ->
  fault w (SysStat active) = None ->
  fault w (SysRename active new) = None ->
  RotateLog logDir w
  = (Ret None,
     with_fs (<[new := node]> (delete active (fs w)))
       (emit (ERename active new) (with_ticks (S (ticks w)) w))).
Proof.
  cbv zeta. intros Hnode Hf1 Hf2. rewrite RotateLog_unfold. cbv zeta.
  unfold os.stat_of. rewrite Hf1, Hnode. cbn [err_of os.IsNotExist].
  unfold os.Rename. world_simpl. rewrite Hf2, Hnode. reflexivity.
Qed.

(** Once the log could be opened, [ExecuteDeployment] leaves a log file. *)
Lemma ExecuteDeployment_leaves_a_log task w :
  let log := filepath.Join (LogPath task) "deployment.log" in
  fault w (SysOpen log) = None ->
  (forall p, fs w !! log <> Some (Dir p)) ->
  exists p c, fs (snd (ExecuteDeployment task w)) !! log = Some (File p c).
Proof.
  cbv zeta. intros Hfo Hd.
  set (log := filepath.Join (LogPath task) "deployment.log") in *.
  destruct (OpenFile_trunc_run log 420 w Hfo Hd) as (p0 & ev & Eo).
  destruct (ExecuteDeployment task w) as [r w'] eqn:H. cbn [snd].
  unfold ExecuteDeployment in H. unfold bind at 1 in H.
  destruct (openAndStat task w) as [ro wo] eqn:Ho.
  unfold openAndStat in Ho. cbv zeta in Ho. fold log in Ho.
  unfold bind at 1 in Ho. rewrite Eo in Ho. cbv beta iota in Ho.
  match type of Ho with
  | ?k ?w1 = _ =>
      assert (Hk : appends_only k) by appends_auto;
      pose proof (Hk _ _ _ Ho log p0 _ ltac:(world_simpl; apply lookup_insert_eq))
        as (p1 & c1 & H1)
  end.
  rewrite append_empty_l in H1.
  destruct ro as [a|c].
  - match type of H with
    | ?k ?w1 = _ =>
        assert (Hk2 : appends_only k) by appends_auto;
        destruct (Hk2 _ _ _ H log p1 _ H1) as (p2 & c2 & H2)
    end.
    eauto.
  - injection H as _ <-. eauto.
Qed.

(** X15: the final entry of a task goes into the log before the log is
    put away.  [WriteLog] followed by [RotateLog] on a directory whose
    active log can be written and renamed leaves no [deployment.log]; the
    file [deployment_<stamp>.log], stamped with the reading of the clock
    that follows the entry's, holds what the active log held, followed by
    the entry "[<time>] <message>" and a newline; no other file changes
    and nothing is reported on the standard error stream. *)
Theorem WriteLog_then_RotateLog (logDir message : string) (w : World) (p : Z) (c : string) :
  let active := dir_prefix logDir ++ "deployment.log" in
  let new := dir_prefix logDir ++ "deployment_"
             ++ time.Format_rotate (clock w (S (ticks w))) ++ ".log" in
  let entry := "[" ++ time.Format_log (clock w (ticks w)) ++ "] " ++ message ++ nl in
  fs w !! active = Some (File p c) ->
  fault w (SysOpen active) = None ->
  fault w (SysWrite active) = None ->
  fault w (SysStat active) = None ->
  fault w (SysRename active new) = None ->
  exists w',
    (WriteLog logDir message ;; RotateLog logDir) w = (Ret None, w')
    /\ fs w' = <[new := File p (c ++ entry)]> (delete active (fs w))
    /\ fs w' !! active = None
    /\ stderr w' = stderr w
    /\ trace w' = (trace w ++ [EAppend active; ERename active new])%list.
Proof.
  cbv zeta. intros Hc Hfo Hfw Hfs Hfr.
  unfold bind at 1.
  rewrite (WriteLog_run logDir message w p c Hfo Hfw Hc).
  rewrite (RotateLog_run logDir _ (File p (c ++ "[" ++ time.Format_log (clock w (ticks w))
                                             ++ "] " ++ message ++ nl)));
    [| world_simpl; apply lookup_insert_eq | exact Hfs | exact Hfr].
  eexists. split; [reflexivity|]. world_simpl.
  split; [rewrite delete_insert_eq; reflexivity|].
  split; [|split; [reflexivity | rewrite <- app_assoc; reflexivity]].
  rewrite lookup_insert_ne by (apply not_eq_sym, rotated_log_differs).
  apply lookup_delete_eq.
Qed.

Lemma WriteLog_then_RotateLog_witness :
  exists w',
    (WriteLog "/srv/app/logs" "[SUCCESS] Deployment completed successfully" ;;
     RotateLog "/srv/app/logs") Scenario.w_used = (Ret None, w')
    /\ fs w' !! "/srv/app/logs/deployment.log" = None
    /\ fs w' !! "/srv/app/logs/deployment_20260106_120000.log"
       = Some (File 420 ("old entries"
                         ++ "[2026-01-06 12:00:00] [SUCCESS] Deployment completed successfully"
                         ++ nl)).
Proof.
  assert (Ed : dir_prefix "/srv/app/logs" = "/srv/app/logs/")
    by (vm_compute; reflexivity).
  pose proof (WriteLog_then_RotateLog "/srv/app/logs"
                "[SUCCESS] Deployment completed successfully" Scenario.w_used 420
                "old entries") as H.
  cbv zeta in H. rewrite Ed in H.
  destruct H as (w' & E & Hfs & Hgone & _).
  - vm_compute. reflexivity.
  - reflexivity.
  - reflexivity.
  - reflexivity.
  - reflexivity.
  - exists w'. split; [exact E|]. split; [exact Hgone|].
    rewrite Hfs. apply lookup_insert_eq.
Defined.

(** The log that [ExecuteDeployment] leaves begins with the start marker. *)
Lemma ExecuteDeployment_log_begins task w r w1 :
  let log := filepath.Join (LogPath task) "deployment.log" in
  fault w (SysOpen log) = None ->
  fault w (SysWrite log) = None ->
  (forall p, fs w !! log <> Some (Dir p)) ->
  ExecuteDeployment task w = (r, w1) ->
  exists p rest,
    fs w1 !! log
    = Some (File p
              (("[" ++ time.Format_log (clock w (S (ticks w))) ++ "] "
                ++ ("=== Deployment Started: " ++ time.Format_log (clock w (ticks w))
                    ++ " ===") ++ nl) ++ rest)).
Proof.
  cbv zeta. intros Hfo Hfw Hd H.
  set (log := filepath.Join (LogPath task) "deployment.log") in *.
  destruct (OpenFile_trunc_run log 420 w Hfo Hd) as (p0 & ev & Eo).
  unfold ExecuteDeployment in H. unfold bind at 1 in H.
  destruct (openAndStat task w) as [ro wo] eqn:Ho.
  unfold openAndStat in Ho. cbv zeta in Ho. fold log in Ho.
  unfold bind at 1 in Ho. rewrite Eo in Ho. cbv beta iota in Ho.
  unfold bind at 1 in Ho. unfold Now at 1 in Ho. cbv beta iota in Ho.
  unfold bind at 1 in Ho.
  rewrite (writeLogEntry_run log _ _ p0 "") in Ho;
    [|world_simpl; exact Hfw | world_simpl; apply lookup_insert_eq].
  cbv beta iota in Ho. world_simpl. rewrite append_empty_l in Ho.
  match type of Ho with
  | ?k ?w1 = _ =>
      assert (Hk : appends_only k) by appends_auto;
      pose proof (Hk _ _ _ Ho log p0 _ ltac:(world_simpl; apply lookup_insert_eq))
        as (p1 & c1 & H1)
  end.
  destruct ro as [a|c].
  - match type of H with
    | ?k ?w1 = _ =>
        assert (Hk2 : appends_only k) by appends_auto;
        destruct (Hk2 _ _ _ H log p1 _ H1) as (p2 & c2 & H2)
    end.
    exists p2, (c1 ++ c2). rewrite <- append_assoc. exact H2.
  - injection H as _ <-. exists p1, c1. exact H1.
Qed.

Section AfterTheTask.

Variable json_Unmarshal : string -> result DeploymentTask.

(** X16: a task that could keep its log leaves it rotated.  Take a task
    whose log directory and task file are given by absolute paths, the
    task file a clean path outside the log directory, and whose active
    log can be opened, written, examined and renamed.  When
    [ExecuteDeployment] has returned and the background invocation has
    ended, there is no [deployment.log] left; the file
    [deployment_<stamp>.log], stamped with the reading of the clock after
    the verdict's, holds the log that [ExecuteDeployment] left, which
    begins with the start marker of this task, followed by the verdict
    entry: "[SUCCESS] Deployment completed successfully" when
    [ExecuteDeployment] returned [nil], "[ERROR] Deployment failed: "
    followed by its error otherwise. *)
Theorem background_run_rotates_its_log
  (taskFile : string) (w : World) (perm : Z) (data : string) (task : DeploymentTask)
  (res : option error) (w1 w' : World) :
  let dir := dir_prefix (LogPath task) in
  let active := dir ++ "deployment.log" in
  let new := dir ++ "deployment_" ++ time.Format_rotate (clock w1 (S (ticks w1)))
             ++ ".log" in
  let started := "[" ++ time.Format_log (clock w (S (ticks w))) ++ "] "
                 ++ ("=== Deployment Started: " ++ time.Format_log (clock w (ticks w))
                     ++ " ===") ++ nl in
  let verdict := "[" ++ time.Format_log (clock w1 (ticks w1)) ++ "] "
                 ++ match res with
                    | Some e => "[ERROR] Deployment failed: " ++ Error e
                    | None => "[SUCCESS] Deployment completed successfully"
                    end ++ nl in
  filepath.IsAbs (LogPath task) = true ->
  filepath.IsAbs taskFile = true ->
  filepath.Clean taskFile = taskFile ->
  String.prefix dir taskFile = false ->
  fault w (SysRead taskFile) = None ->
  fs w !! taskFile = Some (File perm data) ->
  json_Unmarshal data = Ok task ->
  fault w (SysOpen active) = None ->
  fault w (SysWrite active) = None ->
  fault w (SysStat active) = None ->
  fault w (SysRename active new) = None ->
  (forall p, fs w !! active <> Some (Dir p)) ->
  ExecuteDeployment task w = (Ret res, w1) ->
  handleInternalRun json_Unmarshal taskFile w = (Ret tt, w') ->
  exists p rest,
    fs w1 !! active = Some (File p (started ++ rest))
    /\ fs w' !! active = None
    /\ fs w' !! new = Some (File p (started ++ rest ++ verdict)).
Proof.
  cbv zeta. intros _ Habs _ Hout Hrd Hfile Hparse Hfo Hfw Hfst Hfr Hd Hexec Hrun.
  set (dir := dir_prefix (LogPath task)) in *.
  set (active := dir ++ "deployment.log") in *.
  set (new := dir ++ "deployment_" ++ time.Format_rotate (clock w1 (S (ticks w1)))
              ++ ".log") in *.
  assert (Hne : taskFile <> "") by (intros ->; discriminate Habs).
  assert (Hj : filepath.Join (LogPath task) "deployment.log" = active)
    by (apply Join_plain, plain_active_log).
  destruct (ExecuteDeployment_log_begins task w (Ret res) w1) as (p & rest & Hlog);
    [rewrite Hj; exact Hfo | rewrite Hj; exact Hfw | rewrite Hj; exact Hd | exact Hexec |].
  rewrite Hj in Hlog.
  destruct (quiet_ExecuteDeployment task w) as (err & w1' & tr1 & E1 & _ & _ & X1 & _).
  rewrite Hexec in E1. injection E1 as <- <-.
  exists p, rest. split; [exact Hlog|].
  revert Hrun. unfold handleInternalRun.
  rewrite (is_empty_false taskFile Hne).
  unfold bind at 1. unfold os.ReadFile at 1. rewrite Hrd, Hfile, Hparse.
  unfold bind at 1. rewrite Hexec. cbv beta iota.
  assert (Ha : taskFile <> active) by (apply not_prefix_differs; exact Hout).
  assert (Hnew : taskFile <> new) by (apply not_prefix_differs; exact Hout).
  assert (Hna : new <> active) by (apply not_eq_sym, rotated_log_differs).
  set (said := match res with
               | Some e => "[ERROR] Deployment failed: " ++ Error e
               | None => "[SUCCESS] Deployment completed successfully"
               end).
  assert (Hw : (match res with
                | Some e => WriteLog (LogPath task) ("[ERROR] Deployment failed: " ++ Error e)
                | None => WriteLog (LogPath task)
                            "[SUCCESS] Deployment completed successfully"
                end) = WriteLog (LogPath task) said)
    by (unfold said; destruct res; reflexivity).
  rewrite Hw. clear Hw.
  unfold bind at 1.
  erewrite (WriteLog_run (LogPath task) said w1 p);
    [| rewrite X1; exact Hfo | rewrite X1; exact Hfw | exact Hlog].
  fold dir. fold active.
  unfold bind at 1.
  rewrite (RotateLog_run (LogPath task) _
             (File p ((("[" ++ time.Format_log (clock w (S (ticks w))) ++ "] "
                        ++ ("=== Deployment Started: "
                            ++ time.Format_log (clock w (ticks w)) ++ " ===") ++ nl)
                       ++ rest)
                      ++ "[" ++ time.Format_log (clock w1 (ticks w1)) ++ "] "
                      ++ said ++ nl)));
    [| world_simpl; apply lookup_insert_eq
     | world_simpl; rewrite X1; exact Hfst
     | world_simpl; rewrite X1; exact Hfr].
  fold dir. fold active. world_simpl. fold new.
  unfold bind at 1. unfold os.Remove. cbv zeta. world_simpl.
  destruct (fault w1 (SysRemove taskFile)) as [e|].
  - intros H. injection H as <-. world_simpl.
    split; [rewrite lookup_insert_ne by exact Hna; apply lookup_delete_eq|].
    rewrite lookup_insert_eq. do 2 f_equal. apply (append_assoc _ rest _).
  - match goal with
    | |- context [match ?m !! taskFile with _ => _ end] => destruct (m !! taskFile)
    end; intros H; injection H as <-; world_simpl.
    + split.
      * rewrite lookup_delete_ne by exact Ha.
        rewrite lookup_insert_ne by exact Hna. apply lookup_delete_eq.
      * rewrite lookup_delete_ne by exact Hnew. rewrite lookup_insert_eq. do 2 f_equal. apply (append_assoc _ rest _).
    + split; [rewrite lookup_insert_ne by exact Hna; apply lookup_delete_eq|].
      rewrite lookup_insert_eq. do 2 f_equal. apply (append_assoc _ rest _).
Qed.

End AfterTheTask.

Lemma background_run_rotates_its_log_witness :
  exists w1 w' p rest,
    ExecuteDeployment Sample.task0 Scenario.w_queued
    = (Ret (Some (Errorf "deployment script failed: exit status 1")), w1)
    /\ Sample.internal_run "/tmp/deploy_task_0.json" Scenario.w_queued = (Ret tt, w')
    /\ fs w' !! "/srv/app/logs/deployment.log" = None
    /\ fs w' !! ("/srv/app/logs/deployment_"
                 ++ time.Format_rotate (clock w1 (S (ticks w1))) ++ ".log")
       = Some (File p
                 (("[2026-01-06 12:00:00] === Deployment Started: 2026-01-06 12:00:00 ==="
                   ++ nl)
                  ++ rest
                  ++ "[" ++ time.Format_log (clock w1 (ticks w1)) ++ "] "
                  ++ "[ERROR] Deployment failed: deployment script failed: exit status 1"
                  ++ nl)).
Proof.
  assert (Ed : dir_prefix "/srv/app/logs" = "/srv/app/logs/")
    by (vm_compute; reflexivity).
  destruct (ExecuteDeployment Sample.task0 Scenario.w_queued) as [r1 w1] eqn:E1.
  assert (Hr1 : r1 = Ret (Some (Errorf "deployment script failed: exit status 1"))).
  { change r1 with (fst (r1, w1)). rewrite <- E1. vm_compute. reflexivity. }
  subst r1.
  destruct (Sample.internal_run "/tmp/deploy_task_0.json" Scenario.w_queued)
    as [r w'] eqn:E.
  assert (Hr : r = Ret tt).
  { change r with (fst (r, w')). rewrite <- E. vm_compute. reflexivity. }
  subst r.
  destruct (background_run_rotates_its_log Sample.Unmarshal
              "/tmp/deploy_task_0.json" Scenario.w_queued 384 "{}" Sample.task0
              (Some (Errorf "deployment script failed: exit status 1")) w1 w')
    as (p & rest & _ & Hgone & Hlog);
    try exact E1; try exact E; try (vm_compute; reflexivity).
  - intros p. vm_compute. discriminate.
  - cbn [LogPath Sample.task0] in Hgone, Hlog. rewrite Ed in Hgone, Hlog.
    exists w1, w', p, rest. split; [reflexivity|]. split; [reflexivity|].
    split; [exact Hgone | exact Hlog].
Defined.

(** ** The validator of the HTTP front-end and its marker file *)

Lemma WriteFile_frame f data perm w :
  exists res w1,
    os.WriteFile f data perm w = (Ret res, w1)
    /\ fault w1 = fault w
    /\ (forall path, path <> f -> fs w1 !! path = fs w !! path)
    /\ (res = None -> exists p, fs w1 !! f = Some (File p data)).
Proof.
  unfold os.WriteFile, bind, os.OpenFile, os.WriteString, ret.
  destruct (fault w (SysOpen f)) as [e|].
  { eexists _, _. split; [reflexivity|]. repeat split; discriminate. }
  destruct (fs w !! f) as [[p c|p]|] eqn:E; world_simpl.
  - destruct (fault w (SysWrite f)) as [e|]; rewrite ?lookup_insert_eq;
      (eexists _, _; split; [reflexivity|]); world_simpl.
    + split; [reflexivity|]. split; [|discriminate].
      intros path Hp. apply lookup_insert_ne. congruence.
    + split; [reflexivity|]. split.
      * intros path Hp. rewrite insert_insert_eq. apply lookup_insert_ne. congruence.
      * intros _. rewrite lookup_insert_eq. eauto.
  - eexists _, _. split; [reflexivity|]. repeat split; discriminate.
  - destruct (fault w (SysWrite f)) as [e|]; rewrite ?lookup_insert_eq;
      (eexists _, _; split; [reflexivity|]); world_simpl.
    + split; [reflexivity|]. split; [|discriminate].
      intros path Hp. apply lookup_insert_ne. congruence.
    + split; [reflexivity|]. split.
      * intros path Hp. rewrite insert_insert_eq. apply lookup_insert_ne. congruence.
      * intros _. rewrite lookup_insert_eq. eauto.
Qed.

Lemma Remove_frame f w :
  exists res w1,
    os.Remove f w = (Ret res, w1)
    /\ (forall path, path <> f -> fs w1 !! path = fs w !! path)
    /\ (fault w (SysRemove f) = None -> fs w1 !! f = None).
Proof.
  unfold os.Remove. cbv zeta.
  destruct (fault w (SysRemove f)) as [e|].
  { eexists _, _. split; [reflexivity|]. world_simpl. split; [reflexivity|discriminate]. }
  destruct (fs w !! f) eqn:E; (eexists _, _; split; [reflexivity|]); world_simpl.
  - split; [|intros _; apply lookup_delete_eq].
    intros path Hp. apply lookup_delete_ne. congruence.
  - split; [reflexivity | intros _; exact E].
Qed.

(** What [validatePaths] does once the three paths are known to exist. *)
Lemma probe_cases logDir w :
  let marker := filepath.Join logDir ".deployer_test" in
  let probe :=
    (err <- os.WriteFile marker "test" 420 ;;
     match err with
     | Some _ => ret (Some (Errorf ("logPath directory is not writable: " ++ logDir)))
     | None => _ <- os.Remove marker ;; ret None
     end) in
  exists res w',
    probe w = (Ret res, w')
    /\ (forall path, path <> marker -> fs w' !! path = fs w !! path)
    /\ (res = None <-> writable logDir w = true)
    /\ (res = None -> fault w (SysRemove marker) = None -> fs w' !! marker = None).
Proof.
  cbv zeta. set (marker := filepath.Join logDir ".deployer_test").
  unfold writable. fold marker.
  destruct (WriteFile_frame marker "test" 420 w) as (r1 & w1 & E1 & F1 & Fr1 & _).
  unfold bind at 1. rewrite E1.
  destruct r1 as [e|].
  - exists (Some (Errorf ("logPath directory is not writable: " ++ logDir))), w1.
    split; [reflexivity|]. split; [exact Fr1|].
    split; [split; discriminate | discriminate].
  - destruct (Remove_frame marker w1) as (r2 & w2 & E2 & Fr2 & G2).
    unfold bind at 1. rewrite E2.
    exists None, w2. split; [reflexivity|].
    split; [intros path Hp; rewrite Fr2, Fr1 by exact Hp; reflexivity|].
    split; [split; reflexivity|].
    intros _ Hf. apply G2. rewrite F1. exact Hf.
Qed.

(** X17: the writability probe of [validatePaths] touches one name only.
    Whatever the outcome, every path other than [.deployer_test] in the
    log directory holds after the call what it held before, and the call
    returns.  A request is accepted only if the marker could be written;
    and unless its removal is refused, no [.deployer_test] is left after
    an accepted request: a file that had this name before the call is
    gone. *)
Theorem validatePaths_touches_only_the_marker (req : DeploymentRequest) (w : World) :
  let marker := filepath.Join (req_LogPath req) ".deployer_test" in
  exists res w',
    validatePaths req w = (Ret res, w')
    /\ (forall path, path <> marker -> fs w' !! path = fs w !! path)
    /\ (res = None -> writable (req_LogPath req) w = true)
    /\ (res = None -> fault w (SysRemove marker) = None -> fs w' !! marker = None).
Proof.
  cbv zeta. unfold validatePaths. cbv zeta.
  destruct (negb (filepath.IsAbs (req_ProjectPath req))).
  { eexists _, _. split; [reflexivity|]. repeat split; discriminate. }
  unfold bind at 1. rewrite Stat_run.
  destruct (os.IsNotExist (err_of (os.stat_of w (req_ProjectPath req)))).
  { eexists _, _. split; [reflexivity|]. repeat split; discriminate. }
  destruct (negb (filepath.IsAbs (req_DeploymentScriptPath req))).
  { eexists _, _. split; [reflexivity|]. repeat split; discriminate. }
  unfold bind at 1. rewrite Stat_run.
  destruct (os.IsNotExist (err_of (os.stat_of w (req_DeploymentScriptPath req)))).
  { eexists _, _. split; [reflexivity|]. repeat split; discriminate. }
  unfold bind at 1. rewrite Stat_run.
  destruct (os.IsNotExist (err_of (os.stat_of w (req_LogPath req)))).
  { eexists _, _. split; [reflexivity|]. repeat split; discriminate. }
  destruct (probe_cases (req_LogPath req) w) as (res & w' & E & Fr & Hw & Hg).
  cbv zeta in E. exists res, w'. split; [exact E|].
  split; [exact Fr|]. split; [apply Hw | exact Hg].
Qed.

Lemma bind_Stat {A} path (k : result FileInfo -> M A) w :
  (st <- os.Stat path ;; k st) w = k (os.stat_of w path) w.
Proof. reflexivity. Qed.

Ltac validators_reject :=
  split; intros [H _]; cbv beta iota delta [ret fst] in H; discriminate H.

(** X18: the two validators compared.  The command line's [ValidatePaths]
    accepts three paths and the log directory passes the probe exactly
    when the HTTP front-end's [validatePaths] accepts them and the log
    path is absolute: the command line asks for an absolute log path,
    which the front-end does not, and the front-end asks for a writable
    log directory, which the command line does not. *)
Theorem validators_compared (project script logs : string) (w : World) :
  (ValidatePaths project script logs w = (Ret None, w) /\ writable logs w = true)
  <->
  (fst (validatePaths (mkRequest project script logs) w) = Ret None
   /\ filepath.IsAbs logs = true).
Proof.
  unfold ValidatePaths, validatePaths. cbv zeta.
  cbn [req_ProjectPath req_DeploymentScriptPath req_LogPath].
  destruct (negb (filepath.IsAbs project)); [validators_reject|].
  rewrite !bind_Stat.
  destruct (os.IsNotExist (err_of (os.stat_of w project))); [validators_reject|].
  destruct (negb (filepath.IsAbs script)); [validators_reject|].
  rewrite !bind_Stat.
  destruct (os.IsNotExist (err_of (os.stat_of w script))); [validators_reject|].
  rewrite bind_Stat.
  destruct (probe_cases logs w) as (res & w' & E & _ & Hw & _).
  cbv zeta in E.
  destruct (filepath.IsAbs logs); cbn [negb]; cbv beta iota.
  - rewrite bind_Stat.
    destruct (os.IsNotExist (err_of (os.stat_of w logs))); [validators_reject|].
    rewrite E. cbn [fst]. unfold ret.
    split; intros [H1 H2]; split; try reflexivity.
    + f_equal. apply Hw. exact H2.
    + apply Hw. congruence.
  - split; [intros [H _]; cbv beta iota delta [ret] in H; discriminate H
           | intros [_ H]; discriminate H].
Qed.

(** ** What the runner leaves alone *)

Lemma same_content_refl n : same_content n n.
Proof. destruct n; reflexivity. Qed.

Lemma same_content_trans n1 n2 n3 :
  same_content n1 n2 -> same_content n2 n3 -> same_content n1 n3.
Proof. destruct n1, n2, n3; cbn; congruence || tauto. Qed.

Lemma same_content_set_perm perm n : same_content n (os.set_perm perm n).
Proof. destruct n; reflexivity. Qed.

Lemma spares_same_fs log script w w' : fs w' = fs w -> spares log script w w'.
Proof.
  intros E path _. rewrite E. split; [reflexivity|].
  destruct (fs w !! path); [apply same_content_refl | exact I].
Qed.

Lemma spares_trans log script w1 w2 w3 :
  spares log script w1 w2 -> spares log script w2 w3 -> spares log script w1 w3.
Proof.
  intros H12 H23 path Hp.
  destruct (H12 path Hp) as [A1 B1]. destruct (H23 path Hp) as [A2 B2].
  split; [intros Hs; rewrite A2, A1 by exact Hs; reflexivity|].
  destruct (fs w1 !! path), (fs w2 !! path), (fs w3 !! path);
    try contradiction; try exact I.
  eapply same_content_trans; eassumption.
Qed.

Lemma spares_log log script w w' n : fs w' = <[log := n]> (fs w) -> spares log script w w'.
Proof.
  intros E path Hp. rewrite E, lookup_insert_ne by congruence.
  split; [reflexivity|].
  destruct (fs w !! path); [apply same_content_refl | exact I].
Qed.

Lemma spares_chmod log script w w' n perm :
  fs w !! script = Some n -> fs w' = <[script := os.set_perm perm n]> (fs w) ->
  spares log script w w'.
Proof.
  intros Hn E path Hp. rewrite E.
  destruct (decide (script = path)) as [<-|Hne].
  - rewrite lookup_insert_eq, Hn. split; [congruence | apply same_content_set_perm].
  - rewrite lookup_insert_ne by exact Hne. split; [reflexivity|].
    destruct (fs w !! path); [apply same_content_refl | exact I].
Qed.

Create HintDb touches.

Lemma touches_ret log script {A} (Q : A -> Prop) (a : A) :
  Q a -> touches_only log script Q (ret a).
Proof.
  intros HQ w r w' H. injection H as <- <-.
  split; [apply spares_same_fs; reflexivity|]. intros b [= <-]. exact HQ.
Qed.

Lemma touches_bind log script {A B} (Q : A -> Prop) (R : B -> Prop)
  (m : M A) (k : A -> M B) :
  touches_only log script Q m ->
  (forall a, Q a -> touches_only log script R (k a)) ->
  touches_only log script R (bind m k).
Proof.
  intros Hm Hk w r w'. unfold bind.
  destruct (m w) as [[a|c] w1] eqn:E1; intros H.
  - destruct (Hm _ _ _ E1) as [S1 Q1].
    destruct (Hk a (Q1 a eq_refl) _ _ _ H) as [S2 Q2].
    split; [eapply spares_trans; eassumption | exact Q2].
  - injection H as <- <-. destruct (Hm _ _ _ E1) as [S1 _].
    split; [exact S1 | discriminate].
Qed.

Ltac touches_same :=
  let H := fresh in
  intros H; injection H as _ <-;
  (split; [apply spares_same_fs; reflexivity | intros; exact I]).

Lemma touches_Now log script : touches_only log script (fun _ => True) Now.
Proof. intros w r w'. unfold Now. touches_same. Qed.

Lemma touches_Eprint log script s : touches_only log script (fun _ => True) (Eprint s).
Proof. intros w r w'. unfold Eprint. touches_same. Qed.

Lemma touches_Stat log script path :
  touches_only log script (fun _ => True) (os.Stat path).
Proof. intros w r w'. unfold os.Stat. touches_same. Qed.

Lemma touches_environ log script :
  touches_only log script (fun _ => True) (fun w => (Ret (environ w), w)).
Proof. intros w r w'. touches_same. Qed.

Lemma touches_Pipe log script stream :
  touches_only log script (fun _ => True) (exec_Pipe stream).
Proof.
  intros w r w'. unfold exec_Pipe. destruct (fault w (SysPipe stream)); touches_same.
Qed.

Lemma touches_Start log script argv dir env :
  touches_only log script (fun _ => True) (exec_Start argv dir env).
Proof.
  intros w r w'. unfold exec_Start. destruct (fault w (SysStart argv)); touches_same.
Qed.

Lemma touches_Chdir log script dir :
  touches_only log script (fun _ => True) (os.Chdir dir).
Proof.
  intros w r w'. unfold os.Chdir. destruct (fault w (SysChdir dir)); [touches_same|].
  destruct (fs w !! dir) as [[p c|p]|]; touches_same.
Qed.

(** Changing the mode of the script. *)
Lemma touches_Chmod log script perm :
  touches_only log script (fun _ => True) (os.Chmod script perm).
Proof.
  intros w r w'. unfold os.Chmod. cbv zeta.
  destruct (fault w (SysChmod script)); [touches_same|].
  destruct (fs w !! script) as [n|] eqn:E; [|touches_same].
  intros H. injection H as _ <-.
  split; [eapply spares_chmod; [exact E | reflexivity] | intros; exact I].
Qed.

(** Opening the log: the handle is the log. *)
Lemma touches_OpenFile log script flag perm :
  touches_only log script (fun r => forall f, r = Ok f -> f = log)
    (os.OpenFile log flag perm).
Proof.
  intros w r w'. unfold os.OpenFile.
  destruct (fault w (SysOpen log)).
  { intros H. injection H as <- <-.
    split; [apply spares_same_fs; reflexivity | intros a [= <-] f; discriminate]. }
  destruct (fs w !! log) as [[p c|p]|] eqn:E.
  - destruct flag; intros H; injection H as <- <-.
    + split; [eapply spares_log; reflexivity | intros a [= <-] f [= <-]; reflexivity].
    + split; [apply spares_same_fs; reflexivity | intros a [= <-] f [= <-]; reflexivity].
  - intros H. injection H as <- <-.
    split; [apply spares_same_fs; reflexivity | intros a [= <-] f; discriminate].
  - intros H. injection H as <- <-.
    split; [eapply spares_log; reflexivity | intros a [= <-] f [= <-]; reflexivity].
Qed.

Lemma touches_WriteString log script s :
  touches_only log script (fun _ => True) (os.WriteString log s).
Proof.
  intros w r w'. unfold os.WriteString.
  destruct (fault w (SysWrite log)); [touches_same|].
  destruct (fs w !! log) as [[p c|p]|] eqn:E; try touches_same.
  intros H. injection H as _ <-.
  split; [eapply spares_log; reflexivity | intros; exact I].
Qed.

#[export] Hint Resolve touches_Now touches_Eprint touches_Stat touches_environ
  touches_Pipe touches_Start touches_Chdir touches_Chmod touches_OpenFile
  touches_WriteString : touches.

Ltac touches_step :=
  lazymatch goal with
  | |- touches_only _ _ _ (bind _ _) =>
      eapply touches_bind; [solve [eauto with touches] | intros ? ?]
  | |- touches_only _ _ _ (match ?x with _ => _ end) => destruct x
  | |- touches_only _ _ _ (ret _) => apply touches_ret; try exact I
  | |- touches_only _ _ _ _ => solve [eauto with touches]
  end.

Ltac touches_auto := cbv zeta; repeat touches_step.

Lemma touches_log_Print log script s :
  touches_only log script (fun _ => True) (log_Print s).
Proof. unfold log_Print. touches_auto. Qed.

Lemma touches_writeLogEntry log script message :
  touches_only log script (fun _ => True) (writeLogEntry log message).
Proof. unfold writeLogEntry. touches_auto. Qed.

#[export] Hint Resolve touches_log_Print touches_writeLogEntry : touches.

Lemma touches_logOutputLine log script prefix line :
  touches_only log script (fun _ => True) (logOutputLine log prefix line).
Proof. unfold logOutputLine. touches_auto. Qed.

#[export] Hint Resolve touches_logOutputLine : touches.

Lemma touches_forwardOutput log script lines :
  touches_only log script (fun _ => True) (forwardOutput log lines).
Proof.
  induction lines as [|[prefix line] rest IH]; cbn [forwardOutput].
  - apply touches_ret. exact I.
  - eapply touches_bind; [eauto with touches | intros _ _; exact IH].
Qed.

Lemma touches_Join log script argv :
  touches_only log script (fun _ => True) (exec_Join argv log).
Proof.
  intros w r w'. unfold exec_Join.
  destruct (forwardOutput log (forwarded (child w)) w) as [[a|c] w1] eqn:E;
    intros H; injection H as _ <-;
    destruct (touches_forwardOutput log script _ _ _ _ E) as [S1 _].
  - split; [|intros; exact I].
    eapply spares_trans; [exact S1 | apply spares_same_fs; reflexivity].
  - split; [exact S1 | intros; exact I].
Qed.

#[export] Hint Resolve touches_Join : touches.

Lemma touches_makeScriptExecutable task log info :
  touches_only log (DeploymentScriptPath task) (fun _ => True)
    (makeScriptExecutable task log info).
Proof. unfold makeScriptExecutable. touches_auto. Qed.

Lemma touches_runScript task log :
  touches_only log (DeploymentScriptPath task) (fun _ => True) (runScript task log).
Proof. unfold runScript. touches_auto. Qed.

#[export] Hint Resolve touches_makeScriptExecutable touches_runScript : touches.

Lemma touches_openAndStat task :
  let log := filepath.Join (LogPath task) "deployment.log" in
  touches_only log (DeploymentScriptPath task)
    (fun r => forall lf info, r = inr (lf, info) -> lf = log)
    (openAndStat task).
Proof.
  cbv zeta. unfold openAndStat. cbv zeta.
  eapply touches_bind; [apply touches_OpenFile|].
  intros [lf|e] Hr.
  2:{ apply touches_ret. intros lf info. discriminate. }
  rewrite (Hr lf eq_refl).
  touches_auto; intros lf' info'; try discriminate.
  intros [= <- _]. reflexivity.
Qed.

Lemma touches_ExecuteDeployment task :
  touches_only (filepath.Join (LogPath task) "deployment.log")
    (DeploymentScriptPath task) (fun _ => True) (ExecuteDeployment task).
Proof.
  unfold ExecuteDeployment.
  eapply touches_bind; [apply touches_openAndStat|].
  intros [e|[lf info]] Hr.
  - apply touches_ret. exact I.
  - rewrite (Hr lf info eq_refl). touches_auto.
Qed.

(** X19: [ExecuteDeployment] writes to its log and to nothing else.  By
    what the runner itself does (what the script does when it runs is the
    script's own), every path other than the log file holds after the run
    the object it held before, except that the script may have got
    another mode; a file keeps its content, the script included. *)
Theorem ExecuteDeployment_spares_other_files
  (task : DeploymentTask) (w : World) (path : string) :
  let log := filepath.Join (LogPath task) "deployment.log" in
  let w' := snd (ExecuteDeployment task w) in
  path <> log ->
  (path <> DeploymentScriptPath task -> fs w' !! path = fs w !! path)
  /\ (fs w !! path = None -> fs w' !! path = None)
  /\ (forall p c, fs w !! path = Some (File p c) ->
        exists p', fs w' !! path = Some (File p' c)).
Proof.
  cbv zeta. intros Hp.
  destruct (ExecuteDeployment task w) as [r w'] eqn:E. cbn [snd].
  destruct (touches_ExecuteDeployment task _ _ _ E) as [S _].
  destruct (S path Hp) as [A B].
  split; [exact A|]. split.
  - intros Hn. rewrite Hn in B. destruct (fs w' !! path); [contradiction | reflexivity].
  - intros p c Hf. rewrite Hf in B.
    destruct (fs w' !! path) as [[p' c'|p']|]; try contradiction.
    cbn in B. subst c'. eauto.
Qed.

Lemma ExecuteDeployment_spares_other_files_witness :
  exists p',
    fs (snd (ExecuteDeployment Sample.task0 Sample.w_ok)) !! "/srv/app/deploy.sh"
    = Some (File p' "echo hello").
Proof.
  destruct (ExecuteDeployment_spares_other_files Sample.task0 Sample.w_ok
              "/srv/app/deploy.sh") as (_ & _ & H).
  - vm_compute. discriminate.
  - apply (H 420 "echo hello"). vm_compute. reflexivity.
Defined.

Lemma validatePaths_touches_only_the_marker_witness :
  exists w',
    fs Scenario.w_used !! "/srv/app/logs/.deployer_test"
    = Some (File 420 "kept by someone")
    /\ validatePaths (mkRequest "/srv/app" "/srv/app/deploy.sh" "/srv/app/logs")
         Scenario.w_used = (Ret None, w')
    /\ fs w' !! "/srv/app/logs/.deployer_test" = None
    /\ fs w' !! "/srv/app/logs/deployment.log" = Some (File 420 "old entries").
Proof.
  assert (Em : filepath.Join "/srv/app/logs" ".deployer_test"
               = "/srv/app/logs/.deployer_test") by (vm_compute; reflexivity).
  pose proof (validatePaths_touches_only_the_marker
                (mkRequest "/srv/app" "/srv/app/deploy.sh" "/srv/app/logs")
                Scenario.w_used) as H.
  cbv zeta in H. cbn [req_LogPath] in H. rewrite Em in H.
  destruct H as (res & w' & E & Hframe & _ & Hgone).
  assert (Hr : res = None).
  { assert (Hv : fst (validatePaths
                        (mkRequest "/srv/app" "/srv/app/deploy.sh" "/srv/app/logs")
                        Scenario.w_used) = Ret None) by (vm_compute; reflexivity).
    rewrite E in Hv. injection Hv as ->. reflexivity. }
  subst res. exists w'.
  split; [vm_compute; reflexivity|]. split; [exact E|].
  split; [apply Hgone; reflexivity|].
  rewrite Hframe by discriminate. vm_compute. reflexivity.
Defined.

(** ** A task whose log cannot be opened *)

Lemma ExecuteDeployment_open_refused task w e :
  let log := filepath.Join (LogPath task) "deployment.log" in
  fault w (SysOpen log) = Some e ->
  ExecuteDeployment task w
  = (Ret (Some (Errorf ("failed to open log file: open " ++ log ++ ": "
                        ++ Errno_string e))), w).
Proof.
  cbv zeta. intros Hf. unfold ExecuteDeployment, openAndStat. cbv zeta.
  unfold bind at 1 2. unfold os.OpenFile. rewrite Hf. reflexivity.
Qed.

Lemma WriteLog_open_refused logDir message w e :
  let active := dir_prefix logDir ++ "deployment.log" in
  fault w (SysOpen active) = Some e ->
  WriteLog logDir message w
  = (Ret tt,
     with_stderr
       (app (stderr w)
            [time.Format_stdlog (clock w (ticks w))
             ++ " Failed to open log file for writing: open " ++ active ++ ": "
             ++ Errno_string e ++ nl])
       (with_ticks (S (ticks w)) w)).
Proof.
  cbv zeta. intros Hf. unfold WriteLog. cbv zeta.
  rewrite (Join_plain logDir "deployment.log" plain_active_log).
  unfold bind at 1. unfold os.OpenFile. rewrite Hf.
  unfold log_Print, bind, Now, Eprint. cbn [Error]. rewrite !append_assoc. reflexivity.
Qed.

Section WithoutALog.

Variable json_Unmarshal : string -> result DeploymentTask.

(** X20: a task whose log cannot be opened fails without a trace in the
    log directory.  When the active log cannot be opened and there is no
    log to rotate, the background invocation still returns: it runs no
    script, creates and writes no file, and removes the task file; the
    error of [ExecuteDeployment] is not reported, the one line that goes
    to the standard error stream is [WriteLog]'s own "Failed to open log
    file for writing: open <file>: <cause>". *)
Theorem background_run_without_a_log
  (taskFile : string) (w : World) (perm : Z) (data : string) (task : DeploymentTask)
  (e : Errno) :
  let active := dir_prefix (LogPath task) ++ "deployment.log" in
  taskFile <> "" ->
  fault w (SysRead taskFile) = None ->
  fs w !! taskFile = Some (File perm data) ->
  json_Unmarshal data = Ok task ->
  fault w (SysOpen active) = Some e ->
  fs w !! active = None ->
  fault w (SysStat active) = None ->
  fault w (SysRemove taskFile) = None ->
  exists w',
    handleInternalRun json_Unmarshal taskFile w = (Ret tt, w')
    /\ fs w' = delete taskFile (fs w)
    /\ trace w' = (trace w ++ [ERemove taskFile])%list
    /\ stdout w' = stdout w
    /\ stderr w'
       = app (stderr w)
             [time.Format_stdlog (clock w (ticks w))
              ++ " Failed to open log file for writing: open " ++ active ++ ": "
              ++ Errno_string e ++ nl].
Proof.
  cbv zeta. intros Hne Hrd Hfile Hparse Hfo Hnone Hfst Hfrm.
  set (active := dir_prefix (LogPath task) ++ "deployment.log") in *.
  assert (Hj : filepath.Join (LogPath task) "deployment.log" = active)
    by (apply Join_plain, plain_active_log).
  unfold handleInternalRun.
  rewrite (is_empty_false taskFile Hne).
  unfold bind at 1. unfold os.ReadFile at 1. rewrite Hrd, Hfile, Hparse.
  unfold bind at 1.
  rewrite (ExecuteDeployment_open_refused task w e) by (rewrite Hj; exact Hfo).
  unfold bind at 1.
  rewrite (WriteLog_open_refused (LogPath task) _ w e Hfo). fold active.
  unfold bind at 1. rewrite RotateLog_unfold. cbv zeta. fold active.
  unfold os.stat_of. world_simpl. rewrite Hfst, Hnone. cbn [err_of os.IsNotExist].
  unfold bind at 1. unfold os.Remove. cbv zeta. world_simpl.
  rewrite Hfrm, Hfile.
  eexists. split; [reflexivity|]. world_simpl. repeat split; reflexivity.
Qed.

End WithoutALog.

Lemma background_run_without_a_log_witness :
  exists w',
    Sample.internal_run "/tmp/deploy_task_0.json"
      Scenario.w_queued_read_only = (Ret tt, w')
    /\ fs w' = delete "/tmp/deploy_task_0.json" (fs Scenario.w_queued_read_only)
    /\ List.length (stderr w') = 1%nat.
Proof.
  assert (Ed : dir_prefix "/srv/app/logs" = "/srv/app/logs/")
    by (vm_compute; reflexivity).
  pose proof (background_run_without_a_log Sample.Unmarshal
                "/tmp/deploy_task_0.json"
                Scenario.w_queued_read_only
                384 "{}" Sample.task0 EACCES) as H.
  cbv zeta in H. cbn [LogPath Sample.task0] in H. rewrite Ed in H.
  destruct H as (w' & Hrun & Hfs & _ & _ & Herr).
  - discriminate.
  - reflexivity.
  - vm_compute. reflexivity.
  - reflexivity.
  - reflexivity.
  - vm_compute. reflexivity.
  - reflexivity.
  - reflexivity.
  - exists w'. split; [exact Hrun|]. split; [exact Hfs|].
    rewrite Herr. reflexivity.
Defined.

(** ** [RotateLog] and the watcher's [rotateLog] *)

(** X21: [RotateLog] is the file watcher's [rotateLog] behind a check.
    Whenever [os.Stat] does not say that the active log is missing, the
    two do the same; with no active log, [rotateLog] still attempts the
    rename and returns its error, where [RotateLog] attempts nothing and
    returns [nil]. *)
Theorem RotateLog_guards_rotateLog (logDir : string) (w : World) :
  let active := filepath.Join logDir "deployment.log" in
  (os.IsNotExist (err_of (os.stat_of w active)) = false ->
   RotateLog logDir w = rotateLog logDir w)
  /\ (fs w !! active = None ->
      fault w (SysStat active) = None ->
      (exists w1, RotateLog logDir w = (Ret None, w1)
                  /\ fs w1 = fs w /\ trace w1 = trace w)
      /\ (exists err w2 new,
            rotateLog logDir w = (Ret (Some err), w2)
            /\ fs w2 = fs w
            /\ trace w2 = (trace w ++ [ERename active new])%list)).
Proof.
  cbv zeta. split.
  - intros H. unfold RotateLog, rotateLog, bind, Now. rewrite Stat_run.
    change (os.stat_of (with_ticks (S (ticks w)) w)) with (os.stat_of w).
    rewrite H. reflexivity.
  - intros Hnone Hf. split.
    + unfold RotateLog, bind, Now. rewrite Stat_run.
      change (os.stat_of (with_ticks (S (ticks w)) w)) with (os.stat_of w).
      unfold os.stat_of. rewrite Hf, Hnone. cbn [err_of os.IsNotExist].
      eexists. split; [reflexivity|]. split; reflexivity.
    + unfold rotateLog, bind, Now, os.Rename. cbv zeta. world_simpl.
      destruct (fault w (SysRename _ _)) as [e|].
      * eexists _, _, _. split; [reflexivity|]. split; reflexivity.
      * rewrite Hnone. eexists _, _, _. split; [reflexivity|]. split; reflexivity.
Qed.

(** ** What the scanners yield of what the script writes *)

Lemma length_replicate n c : String.length (replicate n c) = n.
Proof. induction n as [|n IH]; [reflexivity|]. cbn [replicate String.length]. rewrite IH. reflexivity. Qed.

Lemma of_rev_repeat n c : forall tail,
  bufio.of_rev (repeat c n) tail = replicate n c ++ tail.
Proof.
  induction n as [|n IH]; intros tail; [reflexivity|].
  change (repeat c (S n)) with (c :: repeat c n).
  rewrite repeat_cons.
  assert (H : forall l t, bufio.of_rev (l ++ [c]) t = String c (bufio.of_rev l t)).
  { induction l as [|x l IHl]; intros t; [reflexivity|].
    cbn [app bufio.of_rev]. apply IHl. }
  rewrite H, IH. reflexivity.
Qed.

(** A line that fills the buffer ends the scan: nothing of it, and nothing
    after it, is yielded. *)
Lemma scan_too_long max c rest : bufio.is_newline c = false ->
  forall n room cur, (room <= n)%nat ->
  bufio.scan max room cur (replicate n c ++ rest) = ([], true).
Proof.
  intros Hc. induction n as [|n IH]; intros room cur Hle.
  - assert (room = 0%nat) by lia. subst room. destruct rest; reflexivity.
  - destruct room as [|room]; [reflexivity|].
    cbn [replicate]. rewrite append_cons. cbn [bufio.scan]. rewrite Hc.
    apply IH. lia.
Qed.

(** A line that leaves room for its newline is yielded, and the scan goes
    on behind it. *)
Lemma scan_line max c rest : bufio.is_newline c = false ->
  forall n room cur, (n < room)%nat ->
  bufio.scan max room cur (replicate n c ++ String "010" rest)
  = (bufio.token (repeat c n ++ cur) :: fst (bufio.scan max max [] rest),
     snd (bufio.scan max max [] rest)).
Proof.
  intros Hc. induction n as [|n IH]; intros room cur Hlt.
  - destruct room as [|room]; [lia|].
    cbn [replicate]. rewrite append_empty_l. cbn [bufio.scan].
    change (bufio.is_newline "010") with true. cbv iota.
    destruct (bufio.scan max max [] rest). reflexivity.
  - destruct room as [|room]; [lia|].
    cbn [replicate]. rewrite append_cons. cbn [bufio.scan]. rewrite Hc.
    rewrite IH by lia.
    change (repeat c (S n)) with (c :: repeat c n).
    rewrite repeat_cons, <- app_assoc. reflexivity.
Qed.

Lemma scan_done max : (4 < max)%nat ->
  bufio.scan max max [] ("done" ++ nl) = (["done"], false).
Proof.
  intros H. do 5 (destruct max as [|max]; [lia|]). reflexivity.
Qed.

Lemma scan_nothing max : (0 < max)%nat -> bufio.scan max max [] "" = ([], false).
Proof. intros H. destruct max; [lia | reflexivity]. Qed.

Lemma lines_from_replicate c data : bufio.is_newline c = false ->
  forall n cur, lines_from cur (replicate n c ++ data) = lines_from (repeat c n ++ cur) data.
Proof.
  intros Hc. induction n as [|n IH]; intros cur; [reflexivity|].
  cbn [replicate]. rewrite append_cons. cbn [lines_from]. rewrite Hc, IH.
  change (repeat c (S n)) with (c :: repeat c n).
  rewrite repeat_cons, <- app_assoc. reflexivity.
Qed.

Lemma interleave_nil sched : interleave sched [] [] = [].
Proof. induction sched as [|[|] sched IH]; [reflexivity | exact IH | exact IH]. Qed.

Lemma MaxScanTokenSize_bounds : (4 < bufio.MaxScanTokenSize)%nat.
Proof. unfold bufio.MaxScanTokenSize. lia. Qed.

(** C2 (the code departs from it): a line that fills the scanner's buffer
    is lost, and so is everything the script writes to that stream after
    it.  [readAndLogOutput] reads its pipe through a [bufio.Scanner] with
    the default buffer and never looks at [scanner.Err()].  A script
    writes a line of 65536 bytes and then the line "done" to its standard
    output, and ends: these are two written lines, but the scanner stops
    at the first with [ErrTooLong] and yields none, so whatever the
    schedule of the readers and however the script ends, no line reaches
    the log.  [ExecuteDeployment] returns [nil] all the same; it has
    written the final marker after the start and the wait, and the log
    holds the four entries of the head and that marker, and no entry for
    the standard output.  With one byte less in the first line both lines
    are forwarded. *)
Theorem C2_line_at_the_scanner_limit_is_lost :
  let long := replicate bufio.MaxScanTokenSize "x" in
  let out := long ++ nl ++ "done" ++ nl in
  let short := replicate (bufio.MaxScanTokenSize - 1) "x" in
  String.length long = (64 * 1024)%nat
  /\ written_lines out = [long; "done"]
  /\ bufio.Scan out = ([], true)
  /\ (forall sched waited, forwarded (piped out "" sched waited) = [])
  /\ (let run := ExecuteDeployment Sample.task0
                   (Sample.world Sample.no_fault (piped out "" [] None)) in
      fst run = Ret None
      /\ trace (snd run)
         = [ECreate "/srv/app/logs/deployment.log";
            EAppend "/srv/app/logs/deployment.log";
            EAppend "/srv/app/logs/deployment.log";
            EAppend "/srv/app/logs/deployment.log";
            EAppend "/srv/app/logs/deployment.log";
            EChdir "/srv/app";
            EChmod "/srv/app/deploy.sh" 493;
            EStart ["bash"; "/srv/app/deploy.sh"] "/srv/app"
              ["DEPLOYER_TASK_ID=1767657600000000000";
               "DEPLOYER_PROJECT_PATH=/srv/app";
               "DEPLOYER_LOG_PATH=/srv/app/logs"];
            EWait ["bash"; "/srv/app/deploy.sh"];
            EAppend "/srv/app/logs/deployment.log"]
      /\ fs (snd run) !! "/srv/app/logs/deployment.log"
         = Some (File 420
                   ("[2026-01-06 12:00:00] === Deployment Started: 2026-01-06 12:00:00 ==="
                    ++ nl
                    ++ "[2026-01-06 12:00:00] Project Path: /srv/app" ++ nl
                    ++ "[2026-01-06 12:00:00] Script Path: /srv/app/deploy.sh" ++ nl
                    ++ "[2026-01-06 12:00:00] Task ID: 1767657600000000000" ++ nl
                    ++ "[2026-01-06 12:00:00] === Deployment Completed: 2026-01-06 12:00:00 ==="
                    ++ nl)))
  /\ forwarded (piped (short ++ nl ++ "done" ++ nl) "" [] None)
     = [("STDOUT", short); ("STDOUT", "done")].
Proof.
  cbv zeta.
  pose proof MaxScanTokenSize_bounds as HM.
  assert (Hx : bufio.is_newline "x" = false) by reflexivity.
  assert (Hscan : bufio.Scan (replicate bufio.MaxScanTokenSize "x" ++ nl ++ "done" ++ nl)
                  = ([], true)).
  { unfold bufio.Scan. apply scan_too_long; [exact Hx | lia]. }
  assert (Hnone : bufio.Scan "" = ([], false)).
  { unfold bufio.Scan. apply scan_nothing. lia. }
  assert (Hrun : forall sched waited,
             piped (replicate bufio.MaxScanTokenSize "x" ++ nl ++ "done" ++ nl) ""
                   sched waited
             = mkChildRun [] [] sched waited).
  { intros sched waited. unfold piped. rewrite Hscan, Hnone. reflexivity. }
  split; [|split; [|split; [exact Hscan|split; [|split]]]].
  - rewrite length_replicate. reflexivity.
  - unfold written_lines. rewrite (lines_from_replicate "x" _ Hx).
    rewrite app_nil_r. change (nl ++ "done" ++ nl) with (String "010" ("done" ++ nl)).
    cbn [lines_from]. change (bufio.is_newline "010") with true. cbv iota.
    rewrite of_rev_repeat, append_empty_r. reflexivity.
  - intros sched waited. rewrite Hrun. unfold forwarded.
    cbn [schedule scanned_stdout scanned_stderr]. apply interleave_nil.
  - rewrite Hrun. repeat split; vm_compute; reflexivity.
  - unfold forwarded, piped. cbn [schedule scanned_stdout scanned_stderr interleave].
    rewrite Hnone. unfold bufio.Scan.
    change (nl ++ "done" ++ nl) with (String "010" ("done" ++ nl)).
    rewrite (scan_line _ "x" _ Hx) by lia.
    rewrite scan_done by lia. cbn [fst map app].
    rewrite app_nil_r. unfold bufio.token.
    destruct (bufio.MaxScanTokenSize - 1)%nat as [|m] eqn:Em; [lia|].
    change (repeat "x"%char (S m)) with ("x"%char :: repeat "x"%char m).
    cbn [bufio.dropCR]. change (bufio.is_return "x") with false. cbv iota.
    change ("x"%char :: repeat "x"%char m) with (repeat "x"%char (S m)).
    rewrite of_rev_repeat, append_empty_r. reflexivity.
Qed.
